(** * ORchestrator.ai scheduling engine: the endpoints of [main.py]

    A shallow embedding of the request handlers of [src/main.py]
    ([create_provider], [create_shift_type], [generate_schedule]) over an
    explicit store, and the properties of the schedule generator.

    Layout: calendar dates as Python's [datetime.date] computes them,
    the documents and the store, the handlers, then the theorems. *)

From Stdlib Require Import ZArith List String Ascii Bool Lia Arith Sorted.
From Stdlib Require Import Floats.
Import ListNotations.

Local Open Scope string_scope.
Local Open Scope Z_scope.

(** ** Calendar dates

    [generate_schedule] uses four operations of [datetime.date]:
    [toordinal], [fromordinal], subtraction (through [.days]) and [str].
    They are written here as the standard library computes them on the
    proleptic Gregorian calendar (ordinal 1 is 0001-01-01). *)

Module PyDate.

Record date := Date { year : Z; month : Z; day : Z }.

Definition MINYEAR : Z := 1.
Definition MAXYEAR : Z := 9999.
(** [date.max.toordinal()] *)
Definition MAXORDINAL : Z := 3652059.

Definition is_leap (y : Z) : bool :=
  (y mod 4 =? 0) && (negb (y mod 100 =? 0) || (y mod 400 =? 0)).

(** [_DAYS_IN_MONTH], indexed from 1 *)
Definition DAYS_IN_MONTH (m : Z) : Z :=
  nth (Z.to_nat m) [-1; 31; 28; 31; 30; 31; 30; 31; 31; 30; 31; 30; 31] 0.

(** [_DAYS_BEFORE_MONTH], indexed from 1 *)
Definition DAYS_BEFORE_MONTH (m : Z) : Z :=
  nth (Z.to_nat m) [-1; 0; 31; 59; 90; 120; 151; 181; 212; 243; 273; 304; 334] 0.

Definition days_before_year (y : Z) : Z :=
  let y1 := y - 1 in y1 * 365 + y1 / 4 - y1 / 100 + y1 / 400.

Definition days_in_month (y m : Z) : Z :=
  if (m =? 2) && is_leap y then 29 else DAYS_IN_MONTH m.

Definition days_before_month (y m : Z) : Z :=
  DAYS_BEFORE_MONTH m + (if (2 <? m) && is_leap y then 1 else 0).

Definition ymd2ord (y m d : Z) : Z :=
  days_before_year y + days_before_month y m + d.

Definition DI400Y : Z := 146097.
Definition DI100Y : Z := 36524.
Definition DI4Y : Z := 1461.

(** The month and day of the [n]-th day (from 0) of a year. *)
Definition month_day (leapyear : bool) (n : Z) : Z * Z :=
  let month := Z.shiftr (n + 50) 5 in
  let preceding :=
    DAYS_BEFORE_MONTH month + (if (2 <? month) && leapyear then 1 else 0) in
  if n <? preceding then
    let month' := month - 1 in
    let preceding' :=
      preceding
      - (DAYS_IN_MONTH month' + (if (month' =? 2) && leapyear then 1 else 0)) in
    (month', n - preceding' + 1)
  else (month, n - preceding + 1).

Definition ord2ymd (ordinal : Z) : date :=
  let n := ordinal - 1 in
  let n400 := n / DI400Y in
  let n := n mod DI400Y in
  let y := n400 * 400 + 1 in
  let n100 := n / DI100Y in
  let n := n mod DI100Y in
  let n4 := n / DI4Y in
  let n := n mod DI4Y in
  let n1 := n / 365 in
  let n := n mod 365 in
  let y := y + n100 * 100 + n4 * 4 + n1 in
  if (n1 =? 4) || (n100 =? 4) then Date (y - 1) 12 31
  else
    let leapyear := (n1 =? 3) && (negb (n4 =? 24) || (n100 =? 3)) in
    let '(m, d) := month_day leapyear n in
    Date y m d.

Definition toordinal (d : date) : Z := ymd2ord (year d) (month d) (day d).

(** [date.fromordinal]; it raises [ValueError] outside
    [1 .. MAXORDINAL], which [valid_ordinal] records. *)
Definition fromordinal (n : Z) : date := ord2ymd n.

Definition valid_ordinal (n : Z) : Prop := 1 <= n <= MAXORDINAL.

(** The dates a [datetime.date] object can hold. *)
Definition valid_date (d : date) : Prop :=
  MINYEAR <= year d <= MAXYEAR /\ 1 <= month d <= 12 /\
  1 <= day d <= days_in_month (year d) (month d).

(** The order of dates, [d1 < d2] and [d1 <= d2]: dates compare as the
    triples (year, month, day). *)
Definition date_lt (d1 d2 : date) : bool :=
  (year d1 <? year d2)
  || ((year d1 =? year d2)
      && ((month d1 <? month d2)
          || ((month d1 =? month d2) && (day d1 <? day d2)))).

Definition date_le (d1 d2 : date) : bool := negb (date_lt d2 d1).

Definition digit (n : Z) : ascii := ascii_of_nat (48 + Z.to_nat (n mod 10)).

(** ["%04d"] and ["%02d"] on the values a date holds *)
Definition fmt04 (n : Z) : string :=
  String (digit (n / 1000)) (String (digit (n / 100))
    (String (digit (n / 10)) (String (digit n) EmptyString))).

Definition fmt02 (n : Z) : string :=
  String (digit (n / 10)) (String (digit n) EmptyString).

(** [date.isoformat], which is [str(date)]: ["%04d-%02d-%02d"] *)
Definition isoformat (d : date) : string :=
  fmt04 (year d) ++ "-" ++ fmt02 (month d) ++ "-" ++ fmt02 (day d).

(** [str(date.fromordinal(n))] *)
Definition str_of_ordinal (n : Z) : string := isoformat (fromordinal n).

End PyDate.

(** ** Documents

    The request models of [main.py].  The provider and shift-type
    collections hold the documents [create_document] stored from them; a
    provider document without a ["qualifications"] key reads as the empty
    list ([prov.get("qualifications") or []]). *)

Module Provider.
Record t := {
  id : string;
  name : string;
  call_sign : option string;
  fte : float;
  acc_target : Z;
  call_target : Z;
  site_preferences : list string;
  qualifications : list string;
  seniority_level : Z;
  politics_weight : float
}.
End Provider.

Module ShiftType.
Record t := {
  id : string;
  name : string;               (* REG/APS/CALL/OFF *)
  site : string;
  weekly : bool;
  requires_qualification : option string
}.
End ShiftType.

(** An assignment document; the date is stored as its ISO string. *)
Module Assignment.
Record t := {
  provider_id : string;
  date : string;
  shift_type : string;
  site : string;
  generated_by : string;       (* "AI" or Human *)
  audited_by : option string
}.
End Assignment.

Module GenerateRequest.
Record t := { start_date : PyDate.date; end_date : PyDate.date }.
End GenerateRequest.

Module GenerateResponse.
Record t := { created : nat; conflicts : list string }.
End GenerateResponse.

(** ** The store *)

(** The database: the collections named by [PROVIDER_COL], [SHIFT_COL]
    and [ASSIGN_COL], each in insertion order. *)
Record Store := {
  provider_col : list Provider.t;
  shift_col : list ShiftType.t;
  assign_col : list Assignment.t
}.

Section Collection.
Context {A : Type}.

(** [collection.find(filter)] and [collection.find_one(filter)] of the
    database driver: the matching documents in the collection's order, and
    the first of them. *)
Definition find_all (filter : A -> bool) (col : list A) : list A :=
  List.filter filter col.

Definition find_one (filter : A -> bool) (col : list A) : option A :=
  List.find filter col.

(** Modelled from the spec: [create_document] of the module [database],
    which [main.py] imports and which is not among the sources.  It is the
    Entity Store's [insert(collection, record)]: the record is stored as
    it is, after the documents the collection holds. *)
Definition create_document (col : list A) (data : A) : list A :=
  (col ++ [data])%list.
End Collection.

(** ** Results of a handler *)

Record HTTPException := { status_code : Z; detail : string }.

Inductive result (A : Type) : Type :=
| Returned (a : A)
| Raised (e : HTTPException).
Arguments Returned {A} a.
Arguments Raised {A} e.

Definition not_configured : HTTPException :=
  {| status_code := 500; detail := "Database not configured" |}.

(** ** Creation endpoints *)

Definition create_provider (db : option Store) (provider : Provider.t)
  : result Provider.t * option Store :=
  match db with
  | None => (Raised not_configured, db)
  | Some st =>
      match find_one (fun d => Provider.id d =? Provider.id provider)%string
                     (provider_col st) with
      | Some _ =>
          (Raised {| status_code := 400; detail := "Provider already exists" |}, db)
      | None =>
          (Returned provider,
           Some {| provider_col := create_document (provider_col st) provider;
                   shift_col := shift_col st;
                   assign_col := assign_col st |})
      end
  end.

Definition create_shift_type (db : option Store) (shift : ShiftType.t)
  : result ShiftType.t * option Store :=
  match db with
  | None => (Raised not_configured, db)
  | Some st =>
      match find_one (fun d => ShiftType.id d =? ShiftType.id shift)%string
                     (shift_col st) with
      | Some _ =>
          (Raised {| status_code := 400; detail := "ShiftType already exists" |}, db)
      | None =>
          (Returned shift,
           Some {| provider_col := provider_col st;
                   shift_col := create_document (shift_col st) shift;
                   assign_col := assign_col st |})
      end
  end.

(** ** The schedule generator *)

(** The local variables of [generate_schedule] that its loops update,
    with the assignment collection they write to. *)
Record locals := {
  assignments : list Assignment.t;
  p : nat;
  created : nat;
  conflicts : list string
}.

(** [db[ASSIGN_COL].find_one({"provider_id": ..., "date": ...})] as a
    condition: a document was found. *)
Definition booked (col : list Assignment.t) (pid day_date : string) : bool :=
  match find_one (fun a => (Assignment.provider_id a =? pid)%string
                           && (Assignment.date a =? day_date)%string) col with
  | Some _ => true
  | None => false
  end.

(** [needed_qual and needed_qual not in (prov.get("qualifications") or [])];
    an empty string is false as a condition, like [None]. *)
Definition lacks_qualification (needed_qual : option string) (prov : Provider.t)
  : bool :=
  match needed_qual with
  | None => false
  | Some q =>
      negb (q =? EmptyString)%string
      && negb (existsb (String.eqb q) (Provider.qualifications prov))
  end.

Section Slots.
(** [providers] is [prov0 :: _]: the handler has checked that the list
    is not empty, so the index [p % len(providers)] is in range and
    [prov0] is never read as a default. *)
Variable providers : list Provider.t.
Variable prov0 : Provider.t.
Variable site : string.
Variable needed_qual : option string.

Definition new_assignment (prov : Provider.t) (day_date : string)
  : Assignment.t :=
  {| Assignment.provider_id := Provider.id prov;
     Assignment.date := day_date;
     Assignment.shift_type := "REG";
     Assignment.site := site;
     Assignment.generated_by := "AI";
     Assignment.audited_by := None |}.

(** The [while tries < len(providers)] loop, by the number [budget] of
    tries left, [len(providers) - tries].  The boolean is [true] when the
    loop ended in [break], [false] when its condition failed (the [else]
    clause of the loop then runs). *)
Fixpoint while_tries (budget : nat) (day_date : string) (l : locals)
  : locals * bool :=
  match budget with
  | O => (l, false)
  | S budget' =>
      let prov := nth (Nat.modulo (p l) (List.length providers)) providers prov0 in
      let l1 := {| assignments := assignments l; p := S (p l);
                   created := created l; conflicts := conflicts l |} in
      if booked (assignments l) (Provider.id prov) day_date then
        while_tries budget' day_date l1
      else if lacks_qualification needed_qual prov then
        while_tries budget' day_date l1
      else
        ({| assignments :=
              create_document (assignments l) (new_assignment prov day_date);
            p := p l1;
            created := S (created l1);
            conflicts := conflicts l1 |}, true)
  end.

Definition conflict_message (day_date : string) : string :=
  "No eligible provider for " ++ day_date.

(** One iteration of [for _ in range(min(len(providers), len(shifts)))]. *)
Definition fill_slot (day_date : string) (l : locals) : locals :=
  let '(l', broke) := while_tries (List.length providers) day_date l in
  if broke then l'
  else {| assignments := assignments l'; p := p l'; created := created l';
          conflicts := (conflicts l' ++ [conflict_message day_date])%list |}.

Fixpoint for_slots (slots : nat) (day_date : string) (l : locals) : locals :=
  match slots with
  | O => l
  | S slots' => for_slots slots' day_date (fill_slot day_date l)
  end.

(** The body of [for i in range(days)]. *)
Definition day_body (start_ordinal : Z) (slots : nat) (l : locals) (i : Z)
  : locals :=
  let day := start_ordinal + i in
  let day_date := PyDate.fromordinal day in
  for_slots slots (PyDate.isoformat day_date) l.
End Slots.

(** [range(n)] *)
Definition range (n : Z) : list Z := map Z.of_nat (seq 0 (Z.to_nat n)).

Definition timedelta_days (d2 d1 : PyDate.date) : Z :=
  PyDate.toordinal d2 - PyDate.toordinal d1.

(** The store with [col] as its assignment collection. *)
Definition with_assignments (st : Store) (col : list Assignment.t) : Store :=
  {| provider_col := provider_col st;
     shift_col := shift_col st;
     assign_col := col |}.

(** [db[SHIFT_COL].find({"name": "REG"})] *)
Definition regular_shifts (st : Store) : list ShiftType.t :=
  find_all (fun s => ShiftType.name s =? "REG")%string (shift_col st).

Definition config_error : HTTPException :=
  {| status_code := 400; detail := "Providers and REG Shift Type required" |}.

Definition generate_schedule (db : option Store) (req : GenerateRequest.t)
  : result GenerateResponse.t * option Store :=
  match db with
  | None => (Raised not_configured, db)
  | Some st =>
      let providers := find_all (fun _ => true) (provider_col st) in
      let shifts := regular_shifts st in
      match providers, shifts with
      | prov0 :: _, shift0 :: _ =>
          let days :=
            timedelta_days (GenerateRequest.end_date req)
                           (GenerateRequest.start_date req) + 1 in
          let site := ShiftType.site shift0 in
          let needed_qual := ShiftType.requires_qualification shift0 in
          let l :=
            fold_left
              (day_body providers prov0 site needed_qual
                 (PyDate.toordinal (GenerateRequest.start_date req))
                 (Nat.min (List.length providers) (List.length shifts)))
              (range days)
              {| assignments := assign_col st; p := 0%nat; created := 0%nat;
                 conflicts := [] |} in
          (Returned {| GenerateResponse.created := created l;
                       GenerateResponse.conflicts := conflicts l |},
           Some (with_assignments st (assignments l)))
      | _, _ => (Raised config_error, db)
      end
  end.

(** Months in their order within a year, as a check over the table. *)
Definition months_ordered (leapyear : bool) : bool :=
  forallb
    (fun m1 =>
       forallb
         (fun m2 =>
            negb (m1 <? m2)
            || (PyDate.DAYS_BEFORE_MONTH m1
                + (if (2 <? m1) && leapyear then 1 else 0)
                + (if (m1 =? 2) && leapyear then 29
                   else PyDate.DAYS_IN_MONTH m1)
                <=? PyDate.DAYS_BEFORE_MONTH m2
                    + (if (2 <? m2) && leapyear then 1 else 0)))
         (map Z.of_nat (seq 1 12)))
    (map Z.of_nat (seq 1 12)).

(** What [month_day] must satisfy on day [k] of a year, as a check that
    can be run over the 366 days. *)
Definition month_day_ok (leapyear : bool) (k : nat) : bool :=
  let n := Z.of_nat k in
  let '(m, d) := PyDate.month_day leapyear n in
  (1 <=? m) && (m <=? 12) && (1 <=? d)
  && (d <=? PyDate.DAYS_IN_MONTH m + (if (m =? 2) && leapyear then 1 else 0))
  && (PyDate.DAYS_BEFORE_MONTH m + (if (2 <? m) && leapyear then 1 else 0) + d
      =? n + 1).

(** ** Routes

    The routes that the decorators of [main.py] declare.  A request for a
    path that no decorator names is answered 404 and one for a declared
    path with another method 405; a body that is not of the model the
    handler expects is answered 422.  None of these reaches a handler. *)

Inductive endpoint :=
| ep_root | ep_health | ep_test_db
| ep_create_provider | ep_list_providers
| ep_create_shift_type | ep_list_shift_types
| ep_generate_schedule | ep_list_assignments.

Definition routes : list (string * string * endpoint) :=
  [("GET", "/", ep_root);
   ("GET", "/health", ep_health);
   ("GET", "/test", ep_test_db);
   ("POST", "/providers", ep_create_provider);
   ("GET", "/providers", ep_list_providers);
   ("POST", "/shift-types", ep_create_shift_type);
   ("GET", "/shift-types", ep_list_shift_types);
   ("POST", "/generate", ep_generate_schedule);
   ("GET", "/assignments", ep_list_assignments)].

Definition route (method path : string) : result endpoint :=
  match find (fun r => (fst (fst r) =? method)%string
                       && (snd (fst r) =? path)%string) routes with
  | Some r => Returned (snd r)
  | None =>
      if existsb (fun r => (snd (fst r) =? path)%string) routes
      then Raised {| status_code := 405; detail := "Method Not Allowed" |}
      else Raised {| status_code := 404; detail := "Not Found" |}
  end.

(** The JSON body of a request, by the model it parses to. *)
Inductive body :=
| ProviderBody (provider : Provider.t)
| ShiftTypeBody (shift : ShiftType.t)
| AssignmentBody (a : Assignment.t)
| GenerateBody (req : GenerateRequest.t).

Definition status_of {A : Type} (r : result A) : Z :=
  match r with
  | Returned _ => 200
  | Raised e => status_code e
  end.

(** A POST request: the status of the answer, and the database after. *)
Definition post (db : option Store) (path : string) (b : body)
  : Z * option Store :=
  match route "POST" path with
  | Raised e => (status_code e, db)
  | Returned ep_create_provider =>
      match b with
      | ProviderBody provider =>
          let '(r, db') := create_provider db provider in (status_of r, db')
      | _ => (422, db)
      end
  | Returned ep_create_shift_type =>
      match b with
      | ShiftTypeBody shift =>
          let '(r, db') := create_shift_type db shift in (status_of r, db')
      | _ => (422, db)
      end
  | Returned ep_generate_schedule =>
      match b with
      | GenerateBody req =>
          let '(r, db') := generate_schedule db req in (status_of r, db')
      | _ => (422, db)
      end
  | Returned _ => (405, db)
  end.

(** ** The allocation, as the design describes it

    The design's Eligibility Filter and Round-Robin Allocator, written
    as a predicate and a relation, to compare the loops above with. *)

(** What one slot of one day came to. *)
Inductive outcome :=
| Filled (day_date : string) (prov : Provider.t)
| Unfilled (day_date : string).

Definition outcome_date (o : outcome) : string :=
  match o with Filled d _ => d | Unfilled d => d end.

Definition is_filled (o : outcome) : bool :=
  match o with Filled _ _ => true | Unfilled _ => false end.

Section Allocation.
Variable providers : list Provider.t.
Variable prov0 : Provider.t.
Variable site : string.
Variable needed_qual : option string.

(** [isEligible(provider, date, requiredQualification)] over the
    assignments [col]: not booked that day, and qualified. *)
Definition is_eligible (col : list Assignment.t) (prov : Provider.t)
    (day_date : string) : bool :=
  negb (booked col (Provider.id prov) day_date)
  && negb (lacks_qualification needed_qual prov).

(** [providers[p mod providerCount]] *)
Definition candidate (p : nat) : Provider.t :=
  nth (Nat.modulo p (List.length providers)) providers prov0.

(** [allocates col p tr col' p']: from the assignments [col] and the
    cursor [p], the slots [tr] are decided in turn and leave the
    assignments [col'] and the cursor [p'].  A slot draws the candidates
    at [p], [p + 1], ... and takes the first eligible one among
    [providerCount] draws; the next slot goes on from the cursor the
    last draw left. *)
Inductive allocates
  : list Assignment.t -> nat -> list outcome -> list Assignment.t -> nat
    -> Prop :=
| alloc_done col p : allocates col p [] col p
| alloc_filled col p day_date k tr col' p' :
    (k < List.length providers)%nat ->
    (forall j, (j < k)%nat ->
               is_eligible col (candidate (p + j)) day_date = false) ->
    is_eligible col (candidate (p + k)) day_date = true ->
    allocates
      (col ++ [new_assignment site (candidate (p + k)) day_date])%list
      (p + k + 1) tr col' p' ->
    allocates col p (Filled day_date (candidate (p + k)) :: tr) col' p'
| alloc_unfilled col p day_date tr col' p' :
    (forall j, (j < List.length providers)%nat ->
               is_eligible col (candidate (p + j)) day_date = false) ->
    allocates col (p + List.length providers) tr col' p' ->
    allocates col p (Unfilled day_date :: tr) col' p'.

Definition assignments_of (tr : list outcome) : list Assignment.t :=
  flat_map (fun o => match o with
                     | Filled d prov => [new_assignment site prov d]
                     | Unfilled _ => []
                     end) tr.

Definition conflicts_of (tr : list outcome) : list string :=
  flat_map (fun o => match o with
                     | Filled _ _ => []
                     | Unfilled d => [conflict_message d]
                     end) tr.

Definition filled_count (tr : list outcome) : nat :=
  List.length (List.filter is_filled tr).

(** The locals [l'] are the locals [l] after the slots [tr]. *)
Definition explains (l : locals) (tr : list outcome) (l' : locals) : Prop :=
  allocates (assignments l) (p l) tr (assignments l') (p l')
  /\ created l' = (created l + filled_count tr)%nat
  /\ conflicts l' = (conflicts l ++ conflicts_of tr)%list.
End Allocation.

(** ** The days of a request *)

(** The number of days of the inclusive range of a request,
    [(end_date - start_date).days + 1]. *)
Definition day_count (req : GenerateRequest.t) : Z :=
  timedelta_days (GenerateRequest.end_date req) (GenerateRequest.start_date req)
  + 1.

(** The days the date loop visits, as ordinals, in the order of the loop. *)
Definition days_of (req : GenerateRequest.t) : list Z :=
  map (fun i => PyDate.toordinal (GenerateRequest.start_date req) + i)
      (range (day_count req)).

(** The day [d], as an ordinal, lies in the inclusive range of [req]. *)
Definition in_range (req : GenerateRequest.t) (d : Z) : Prop :=
  PyDate.toordinal (GenerateRequest.start_date req) <= d
  <= PyDate.toordinal (GenerateRequest.end_date req).

Definition valid_request (req : GenerateRequest.t) : Prop :=
  PyDate.valid_date (GenerateRequest.start_date req)
  /\ PyDate.valid_date (GenerateRequest.end_date req).

(** ** Reading the conflicts *)

(** [s in t] on Python strings: [s] occurs in [t] somewhere. *)
Fixpoint occurs_in (s t : string) : bool :=
  String.prefix s t
  || match t with
     | EmptyString => false
     | String _ t' => occurs_in s t'
     end.

(** The number of entries of [entries] in which [day_date] occurs. *)
Definition count_mentions (day_date : string) (entries : list string) : nat :=
  List.length (List.filter (occurs_in day_date) entries).

Definition is_digit (c : ascii) : bool :=
  (48 <=? nat_of_ascii c)%nat && (nat_of_ascii c <=? 57)%nat.

(** Among the assignments [new] there is a machine-generated one for the
    day [day_date], of the regular shift type, at the site [site]. *)
Definition machine_generated_for (new : list Assignment.t)
    (site day_date : string) : Prop :=
  exists a, In a new
            /\ Assignment.date a = day_date
            /\ Assignment.shift_type a = "REG"
            /\ Assignment.site a = site
            /\ Assignment.generated_by a = "AI".

(** ** Qualifications *)

(** The qualification a run enforces: the one of the selected shift,
    unless it is [None] or the empty string, which are both false as the
    condition [needed_qual and ...]. *)
Definition qualification_in_force (needed_qual : option string)
  : option string :=
  match needed_qual with
  | Some q => if (q =? EmptyString)%string then None else Some q
  | None => None
  end.

(** Every assignment of [new] references a provider of the store who
    holds the qualification [q]. *)
Definition qualified_only (st : Store) (q : string)
    (new : list Assignment.t) : Prop :=
  forall a, In a new ->
    exists prov, In prov (provider_col st)
                 /\ Provider.id prov = Assignment.provider_id a
                 /\ In q (Provider.qualifications prov).

(** ** Store invariant *)

(** The provider and the date of an assignment. *)
Definition booking (a : Assignment.t) : string * string :=
  (Assignment.provider_id a, Assignment.date a).

(** No two assignments share the provider identifier and the date. *)
Definition no_double_booking (col : list Assignment.t) : Prop :=
  NoDup (map booking col).

(** ** Sample data *)

Module Sample.
Definition mk_provider (id : string) (quals : list string) : Provider.t :=
  {| Provider.id := id; Provider.name := id; Provider.call_sign := None;
     Provider.fte := 1%float; Provider.acc_target := 0;
     Provider.call_target := 0; Provider.site_preferences := [];
     Provider.qualifications := quals; Provider.seniority_level := 0;
     Provider.politics_weight := 0%float |}.

Definition mk_shift (id name site : string) (qual : option string)
  : ShiftType.t :=
  {| ShiftType.id := id; ShiftType.name := name; ShiftType.site := site;
     ShiftType.weekly := false; ShiftType.requires_qualification := qual |}.

Definition mk_request (d1 d2 : PyDate.date) : GenerateRequest.t :=
  {| GenerateRequest.start_date := d1; GenerateRequest.end_date := d2 |}.

Definition A : Provider.t := mk_provider "A" ["X"].
Definition B : Provider.t := mk_provider "B" [].
Definition C : Provider.t := mk_provider "C" [].

Definition jan1 : PyDate.date := PyDate.Date 2024 1 1.
Definition jan2 : PyDate.date := PyDate.Date 2024 1 2.

(** A human-entered assignment of [pid] on [day_date]. *)
Definition human (pid day_date : string) : Assignment.t :=
  {| Assignment.provider_id := pid; Assignment.date := day_date;
     Assignment.shift_type := "CALL"; Assignment.site := "S";
     Assignment.generated_by := "Human"; Assignment.audited_by := None |}.

(** The machine-made assignment of [pid] on [day_date] at site ["S"]. *)
Definition machine (pid day_date : string) : Assignment.t :=
  {| Assignment.provider_id := pid; Assignment.date := day_date;
     Assignment.shift_type := "REG"; Assignment.site := "S";
     Assignment.generated_by := "AI"; Assignment.audited_by := None |}.

(** Providers [A] (qualified ["X"]) and [B], one regular shift at ["S"]
    that requires [qual]. *)
Definition store_AB (qual : option string) : Store :=
  {| provider_col := [A; B];
     shift_col := [mk_shift "s1" "REG" "S" qual];
     assign_col := [] |}.

(** [A] and [B], both with a human-entered assignment on 2024-01-01, and
    two regular shift types. *)
Definition store_two_shifts : Store :=
  {| provider_col := [A; B];
     shift_col := [mk_shift "s1" "REG" "S" None; mk_shift "s2" "REG" "T" None];
     assign_col := [human "A" "2024-01-01"; human "B" "2024-01-01"] |}.

(** [A] and [B], one regular shift that requires ["X"]; [A] is taken on
    2024-01-01. *)
Definition store_A_taken : Store :=
  {| provider_col := [A; B];
     shift_col := [mk_shift "s1" "REG" "S" (Some "X")];
     assign_col := [human "A" "2024-01-01"] |}.

(** [B] alone, who holds no qualification, and one regular shift whose
    required qualification is the empty string. *)
Definition store_blank_qualification : Store :=
  {| provider_col := [B];
     shift_col := [mk_shift "s1" "REG" "S" (Some EmptyString)];
     assign_col := [] |}.

Definition empty_store : Store :=
  {| provider_col := []; shift_col := []; assign_col := [] |}.
End Sample.

(** ** Listing endpoints *)


(** An exception that no handler catches is answered 500. *)
Definition internal_error : HTTPException :=
  {| status_code := 500; detail := "Internal Server Error" |}.




(** The response model [Assignment] of [main.py], whose date is a
    [date]; the stored document ([Assignment.t] above) has its string. *)
Module AssignmentModel.
Record t := {
  provider_id : string;
  date : PyDate.date;
  shift_type : string;
  site : string;
  generated_by : string;
  audited_by : option string
}.
End AssignmentModel.

(** What [date.fromisoformat] makes of a string.  [OtherForm] stands for
    the strings that are not ten characters [DDDD-DD-DD] of digits and
    hyphens: what becomes of them differs between versions of the
    library and is not modelled. *)
Inductive parsed :=
| Parsed (d : PyDate.date)
| ValueError
| OtherForm.

Definition digit_value (c : ascii) : option Z :=
  if is_digit c then Some (Z.of_nat (nat_of_ascii c) - 48) else None.

(** [_check_date_fields] *)
Definition check_date_fields (y m d : Z) : bool :=
  (PyDate.MINYEAR <=? y) && (y <=? PyDate.MAXYEAR)
  && (1 <=? m) && (m <=? 12)
  && (1 <=? d) && (d <=? PyDate.days_in_month y m).

Definition hyphen : ascii := "-"%char.

(** [date.fromisoformat] on the form [YYYY-MM-DD]: the digits are read,
    and the date is built if the fields are those of a date. *)
Definition fromisoformat (s : string) : parsed :=
  match s with
  | String y3 (String y2 (String y1 (String y0 (String h1
      (String m1 (String m0 (String h2
        (String d1 (String d0 EmptyString))))))))) =>
      match digit_value y3, digit_value y2, digit_value y1, digit_value y0,
            digit_value m1, digit_value m0, digit_value d1, digit_value d0
      with
      | Some a3, Some a2, Some a1, Some a0, Some b1, Some b0, Some c1, Some c0 =>
          if Ascii.eqb h1 hyphen && Ascii.eqb h2 hyphen then
            let y := ((a3 * 10 + a2) * 10 + a1) * 10 + a0 in
            let m := b1 * 10 + b0 in
            let d := c1 * 10 + c0 in
            if check_date_fields y m d then Parsed (PyDate.Date y m d)
            else ValueError
          else OtherForm
      | _, _, _, _, _, _, _, _ => OtherForm
      end
  | _ => OtherForm
  end.

(** The record [list_assignments] builds from a document whose date
    string parsed to [dt].  (A document of this store has the key
    ["generated_by"], so its default ["AI"] is never used.) *)
Definition cleaned_assignment (d : Assignment.t) (dt : PyDate.date)
  : AssignmentModel.t :=
  {| AssignmentModel.provider_id := Assignment.provider_id d;
     AssignmentModel.date := dt;
     AssignmentModel.shift_type := Assignment.shift_type d;
     AssignmentModel.site := Assignment.site d;
     AssignmentModel.generated_by := Assignment.generated_by d;
     AssignmentModel.audited_by := Assignment.audited_by d |}.

(** What a call of [list_assignments] comes to: the list, an error, or
    [Unmodelled] when a date string is of a form left to [OtherForm]. *)
Inductive listing :=
| Listed (l : list AssignmentModel.t)
| Failed (e : HTTPException)
| Unmodelled.

(** The loop [for d in docs] of [list_assignments]: the first document
    whose date does not parse ends it, with nothing returned. *)
Fixpoint clean_documents (docs : list Assignment.t) : listing :=
  match docs with
  | [] => Listed []
  | d :: docs' =>
      match fromisoformat (Assignment.date d) with
      | Parsed dt =>
          match clean_documents docs' with
          | Listed cleaned => Listed (cleaned_assignment d dt :: cleaned)
          | other => other
          end
      | ValueError => Failed internal_error
      | OtherForm => Unmodelled
      end
  end.

Definition list_assignments (db : option Store) : listing :=
  match db with
  | None => Failed not_configured
  | Some st => clean_documents (find_all (fun _ => true) (assign_col st))
  end.

(** The document a listed record came from. *)
Definition stored_form (a : AssignmentModel.t) : Assignment.t :=
  {| Assignment.provider_id := AssignmentModel.provider_id a;
     Assignment.date := PyDate.isoformat (AssignmentModel.date a);
     Assignment.shift_type := AssignmentModel.shift_type a;
     Assignment.site := AssignmentModel.site a;
     Assignment.generated_by := AssignmentModel.generated_by a;
     Assignment.audited_by := AssignmentModel.audited_by a |}.

(** Every date string of [col] is the ISO string of a date. *)
Definition well_dated (col : list Assignment.t) : Prop :=
  forall a, In a col ->
    exists d, PyDate.valid_date d /\ Assignment.date a = PyDate.isoformat d.

(** ** Requests in a row *)

(** The database after the POST requests [reqs], served in turn. *)
Definition serve (db : option Store) (reqs : list (string * body))
  : option Store :=
  fold_left (fun db r => snd (post db (fst r) (snd r))) reqs db.

(** Identifiers are unique in the provider and shift-type collections and
    no provider is booked twice on a date. *)
Definition store_ok (st : Store) : Prop :=
  NoDup (map Provider.id (provider_col st))
  /\ NoDup (map ShiftType.id (shift_col st))
  /\ no_double_booking (assign_col st).

(** Each collection of [st'] is the one of [st] with documents added at
    its end. *)
Definition grows_to (st st' : Store) : Prop :=
  exists ps ss new,
    provider_col st' = (provider_col st ++ ps)%list
    /\ shift_col st' = (shift_col st ++ ss)%list
    /\ assign_col st' = (assign_col st ++ new)%list.

(** ** What the generator reads *)

(** What [generate_schedule] reads of a provider: the identifier and the
    qualifications. *)
Definition scheduling_view (prov : Provider.t) : string * list string :=
  (Provider.id prov, Provider.qualifications prov).

(** What it reads of the regular shift types: how many there are, and the
    site and the required qualification of the first. *)
Definition shifts_view (regs : list ShiftType.t)
  : nat * option (string * option string) :=
  (List.length regs,
   match regs with
   | [] => None
   | shift0 :: _ =>
       Some (ShiftType.site shift0, ShiftType.requires_qualification shift0)
   end).

(** The assignments of a plain rotation: the day [i] of the range goes to
    the provider at [i mod len(providers)]. *)
Definition round_robin (providers : list Provider.t) (prov0 : Provider.t)
    (site : string) (req : GenerateRequest.t) : list Assignment.t :=
  map (fun i =>
         new_assignment site
           (nth (Nat.modulo (Z.to_nat i) (List.length providers)) providers prov0)
           (PyDate.str_of_ordinal
              (PyDate.toordinal (GenerateRequest.start_date req) + i)))
      (range (day_count req)).

(** The conflicts of a run in which no slot is filled: one message for
    each slot of each day, in the order of the days. *)
Definition all_conflicts (req : GenerateRequest.t) (slots : nat) : list string :=
  flat_map
    (fun i =>
       repeat (conflict_message
                 (PyDate.str_of_ordinal
                    (PyDate.toordinal (GenerateRequest.start_date req) + i)))
              slots)
    (range (day_count req)).

(** The locals of two runs that started from the assignments [col] and
    [col'] and have done the same so far. *)
Definition in_step (col col' : list Assignment.t) (l l' : locals) : Prop :=
  p l = p l' /\ created l = created l' /\ conflicts l = conflicts l'
  /\ exists new, assignments l = (col ++ new)%list
                 /\ assignments l' = (col' ++ new)%list.

(** ** More sample data *)

Module Fixture.
Definition feb30 : Assignment.t := Sample.human "A" "2024-02-30".
Definition leap_day : PyDate.date := PyDate.Date 2024 2 29.
Definition part_time : Provider.t :=
  {| Provider.id := "P"; Provider.name := "Pat"; Provider.call_sign := Some "PT";
     Provider.fte := 0.5%float; Provider.acc_target := 3;
     Provider.call_target := 2; Provider.site_preferences := ["T"; "S"];
     Provider.qualifications := ["X"]; Provider.seniority_level := 7;
     Provider.politics_weight := 0.25%float |}.
Definition call_shift : ShiftType.t := Sample.mk_shift "c1" "CALL" "T" None.
Definition reg_shift : ShiftType.t := Sample.mk_shift "s1" "REG" "S" None.

(** [A] and [B] of the sample with other names, targets and preferences. *)
Definition A_other : Provider.t :=
  {| Provider.id := "A"; Provider.name := "Alex"; Provider.call_sign := Some "AX";
     Provider.fte := 0.5%float; Provider.acc_target := 4;
     Provider.call_target := 1; Provider.site_preferences := ["T"];
     Provider.qualifications := ["X"]; Provider.seniority_level := 9;
     Provider.politics_weight := 1%float |}.

Definition B_other : Provider.t :=
  {| Provider.id := "B"; Provider.name := "Bo"; Provider.call_sign := None;
     Provider.fte := 0.25%float; Provider.acc_target := 2;
     Provider.call_target := 5; Provider.site_preferences := ["S"; "T"];
     Provider.qualifications := []; Provider.seniority_level := 1;
     Provider.politics_weight := 0%float |}.

(** The sample store [store_AB None] with these providers, a weekly
    regular shift of another identifier, and a call shift before it. *)
Definition store_AB_other : Store :=
  {| provider_col := [A_other; B_other];
     shift_col :=
       [call_shift;
        {| ShiftType.id := "s9"; ShiftType.name := "REG"; ShiftType.site := "S";
           ShiftType.weekly := true;
           ShiftType.requires_qualification := None |}];
     assign_col := [] |}.

(** The sample store [store_A_taken] with two more assignments, on days
    before and after January 2024, around the one it has. *)
Definition store_A_taken_more : Store :=
  {| provider_col := provider_col Sample.store_A_taken;
     shift_col := shift_col Sample.store_A_taken;
     assign_col := [Sample.human "A" "2023-12-31";
                    Sample.human "A" "2024-01-01";
                    Sample.human "B" "2025-06-30"] |}.

(** A series of POST requests: a provider twice, a regular shift type, a
    run twice over two days, and an assignment sent to [/assignments]. *)
Definition session : list (string * body) :=
  [("/providers", ProviderBody Sample.A);
   ("/providers", ProviderBody A_other);
   ("/shift-types", ShiftTypeBody reg_shift);
   ("/generate", GenerateBody (Sample.mk_request Sample.jan1 Sample.jan2));
   ("/generate", GenerateBody (Sample.mk_request Sample.jan1 Sample.jan2));
   ("/assignments", AssignmentBody feb30)].
End Fixture.

(** * Properties *)

(** ** Dates: ordinals and ISO strings *)

Module PyDateFacts.
Import PyDate.

Lemma month_day_table :
  forallb (month_day_ok false) (seq 0 365) = true
  /\ forallb (month_day_ok true) (seq 0 366) = true.
Proof. split; vm_compute; reflexivity. Qed.

Lemma month_day_spec (leapyear : bool) (n : Z) :
  0 <= n < 365 + (if leapyear then 1 else 0) ->
  let '(m, d) := month_day leapyear n in
  1 <= m <= 12
  /\ 1 <= d <= DAYS_IN_MONTH m + (if (m =? 2) && leapyear then 1 else 0)
  /\ DAYS_BEFORE_MONTH m + (if (2 <? m) && leapyear then 1 else 0) + d = n + 1.
Proof.
  intros Hn.
  assert (Hk : month_day_ok leapyear (Z.to_nat n) = true).
  { destruct month_day_table as [Hf Ht].
    destruct leapyear.
    - eapply (proj1 (forallb_forall _ _) Ht). apply in_seq. lia.
    - eapply (proj1 (forallb_forall _ _) Hf). apply in_seq. lia. }
  unfold month_day_ok in Hk. rewrite Z2Nat.id in Hk by lia.
  destruct (month_day leapyear n) as [m d].
  repeat (apply andb_prop in Hk; destruct Hk as [Hk ?]).
  repeat split; lia.
Qed.

Lemma days_in_month_le_31 (m : Z) (b : bool) :
  1 <= m <= 12 ->
  DAYS_IN_MONTH m + (if (m =? 2) && b then 1 else 0) <= 31.
Proof.
  intros Hm.
  assert (H : m = 1 \/ m = 2 \/ m = 3 \/ m = 4 \/ m = 5 \/ m = 6 \/ m = 7
              \/ m = 8 \/ m = 9 \/ m = 10 \/ m = 11 \/ m = 12) by lia.
  destruct b; repeat (destruct H as [-> | H]; [vm_compute; discriminate |]);
    subst; vm_compute; discriminate.
Qed.

(** A year written in the mixed radix of the 400-, 100- and 4-year
    cycles: the days before it, and whether it is a leap year. *)
Lemma year_split (a b c e : Z) :
  0 <= a -> 0 <= b <= 3 -> 0 <= c <= 24 -> 0 <= e <= 3 ->
  let y := 400 * a + 100 * b + 4 * c + e + 1 in
  days_before_year y = DI400Y * a + DI100Y * b + DI4Y * c + 365 * e
  /\ is_leap y = (e =? 3) && (negb (c =? 24) || (b =? 3)).
Proof.
  intros Ha Hb Hc He y. subst y. split.
  - unfold days_before_year, DI400Y, DI100Y, DI4Y.
    Z.div_mod_to_equations. lia.
  - unfold is_leap.
    destruct (Z.eqb_spec e 3), (Z.eqb_spec c 24), (Z.eqb_spec b 3);
      repeat match goal with
             | |- context [?x mod ?k =? 0] => destruct (Z.eqb_spec (x mod k) 0)
             end;
      try reflexivity; exfalso; Z.div_mod_to_equations; lia.
Qed.

(** [fromordinal] yields a date that a [datetime.date] can hold, and
    [toordinal] is its inverse. *)
Lemma fromordinal_spec (n : Z) :
  valid_ordinal n ->
  valid_date (fromordinal n) /\ toordinal (fromordinal n) = n.
Proof.
  unfold valid_ordinal, MAXORDINAL, fromordinal, ord2ymd. intros Hn.
  set (n0 := n - 1).
  set (a := n0 / DI400Y). set (r400 := n0 mod DI400Y).
  set (b := r400 / DI100Y). set (r100 := r400 mod DI100Y).
  set (c := r100 / DI4Y). set (r4 := r100 mod DI4Y).
  set (e := r4 / 365). set (r := r4 mod 365).
  assert (E1 : n0 = DI400Y * a + r400 /\ 0 <= r400 < DI400Y).
  { split; [apply Z.div_mod | apply Z.mod_pos_bound]; unfold DI400Y; lia. }
  assert (E2 : r400 = DI100Y * b + r100 /\ 0 <= r100 < DI100Y).
  { split; [apply Z.div_mod | apply Z.mod_pos_bound]; unfold DI100Y; lia. }
  assert (E3 : r100 = DI4Y * c + r4 /\ 0 <= r4 < DI4Y).
  { split; [apply Z.div_mod | apply Z.mod_pos_bound]; unfold DI4Y; lia. }
  assert (E4 : r4 = 365 * e + r /\ 0 <= r < 365).
  { split; [apply Z.div_mod | apply Z.mod_pos_bound]; lia. }
  clearbody a r400 b r100 c r4 e r. unfold DI400Y, DI100Y, DI4Y in *.
  assert (Ha : 0 <= a <= 24) by lia.
  assert (Hb : 0 <= b <= 4) by lia.
  assert (Hc : 0 <= c <= 24) by lia.
  assert (He : 0 <= e <= 4) by lia.
  destruct ((e =? 4) || (b =? 4)) eqn:Hsp.
  - (* the last day of a leap year *)
    apply orb_true_iff in Hsp.
    assert (Hy : exists b' c',
               a * 400 + 1 + b * 100 + c * 4 + e - 1
               = 400 * a + 100 * b' + 4 * c' + 3 + 1
               /\ 0 <= b' <= 3 /\ 0 <= c' <= 24 /\ (c' <> 24 \/ b' = 3)
               /\ 146097 * a + 36524 * b' + 1461 * c' + 365 * 3 + 366 = n).
    { destruct (Z.eq_dec b 4) as [-> | Hb4].
      - exists 3, 24. lia.
      - exists b, c. destruct Hsp as [H | H]; lia. }
    destruct Hy as (b' & c' & -> & Hb' & Hc' & Hl & Hn').
    destruct (year_split a b' c' 3) as [Hd Hleap]; try lia.
    cbv zeta in Hd, Hleap. unfold DI400Y, DI100Y, DI4Y in Hd.
    assert (Hleap' : is_leap (400 * a + 100 * b' + 4 * c' + 3 + 1) = true).
    { rewrite Hleap. destruct (Z.eqb_spec c' 24), (Z.eqb_spec b' 3);
        simpl; try reflexivity; lia. }
    unfold valid_date, toordinal, ymd2ord, days_in_month, days_before_month,
      MINYEAR, MAXYEAR. cbn [year month day].
    rewrite Hd, Hleap'. change (DAYS_BEFORE_MONTH 12) with 334.
    change (DAYS_IN_MONTH 12) with 31. cbn [Z.eqb Pos.eqb Z.ltb Z.compare
      Pos.compare Pos.compare_cont andb]. lia.
  - apply orb_false_iff in Hsp. destruct Hsp as [He4 Hb4].
    apply Z.eqb_neq in He4, Hb4.
    destruct (year_split a b c e) as [Hd Hleap]; try lia.
    cbv zeta in Hd, Hleap. unfold DI400Y, DI100Y, DI4Y in Hd.
    replace (a * 400 + 1 + b * 100 + c * 4 + e)
      with (400 * a + 100 * b + 4 * c + e + 1) by lia.
    rewrite <- Hleap.
    set (y := 400 * a + 100 * b + 4 * c + e + 1) in *.
    pose proof (month_day_spec (is_leap y) r) as Hmd.
    destruct (month_day (is_leap y) r) as [m d].
    destruct Hmd as (Hm & Hdd & Hsum); [destruct (is_leap y); lia |].
    unfold valid_date, toordinal, ymd2ord, days_in_month, days_before_month,
      MINYEAR, MAXYEAR. cbn [year month day].
    rewrite Hd.
    assert (Hfeb : DAYS_IN_MONTH 2 = 28) by reflexivity.
    repeat split; try lia.
    destruct ((m =? 2) && is_leap y) eqn:Hc2; [| lia].
    apply andb_prop in Hc2. destruct Hc2 as [Hm2 _].
    apply Z.eqb_eq in Hm2. subst m. lia.
Qed.

Lemma month_within_year (m : Z) (b : bool) :
  1 <= m <= 12 ->
  0 <= DAYS_BEFORE_MONTH m + (if (2 <? m) && b then 1 else 0)
  /\ DAYS_BEFORE_MONTH m + (if (2 <? m) && b then 1 else 0)
     + (if (m =? 2) && b then 29 else DAYS_IN_MONTH m)
     <= 365 + (if b then 1 else 0).
Proof.
  intros Hm.
  assert (H : m = 1 \/ m = 2 \/ m = 3 \/ m = 4 \/ m = 5 \/ m = 6 \/ m = 7
              \/ m = 8 \/ m = 9 \/ m = 10 \/ m = 11 \/ m = 12) by lia.
  destruct b;
    repeat (destruct H as [-> | H]; [vm_compute; split; discriminate |]);
    subst; vm_compute; split; discriminate.
Qed.

Lemma toordinal_valid (d : date) :
  valid_date d -> valid_ordinal (toordinal d).
Proof.
  destruct d as [y m dd].
  unfold valid_date, valid_ordinal, toordinal, ymd2ord, days_in_month,
    days_before_month, days_before_year, MINYEAR, MAXYEAR, MAXORDINAL.
  cbn [year month day]. intros (Hy & Hm & Hd).
  assert (Hl : is_leap y = true -> y <= 9996).
  { unfold is_leap. intros H. apply andb_prop in H. destruct H as [H _].
    apply Z.eqb_eq in H. Z.div_mod_to_equations. lia. }
  pose proof (month_within_year m (is_leap y) Hm) as [M1 M2].
  destruct (is_leap y); [specialize (Hl eq_refl) | clear Hl];
    Z.div_mod_to_equations; lia.
Qed.

Lemma days_before_year_next (y : Z) :
  days_before_year (y + 1)
  = days_before_year y + 365 + (if is_leap y then 1 else 0).
Proof.
  unfold days_before_year, is_leap.
  destruct (Z.eqb_spec (y mod 4) 0), (Z.eqb_spec (y mod 100) 0),
    (Z.eqb_spec (y mod 400) 0); cbn [andb orb negb];
    Z.div_mod_to_equations; lia.
Qed.

Lemma days_before_year_mono (y1 y2 : Z) :
  y1 <= y2 -> days_before_year y1 <= days_before_year y2.
Proof. unfold days_before_year. intros H. Z.div_mod_to_equations. lia. Qed.

Lemma months_in_order (y m1 m2 : Z) :
  1 <= m1 <= 12 -> 1 <= m2 <= 12 -> m1 < m2 ->
  days_before_month y m1 + days_in_month y m1 <= days_before_month y m2.
Proof.
  intros H1 H2 Hlt. unfold days_before_month, days_in_month.
  assert (Ht : months_ordered (is_leap y) = true)
    by (destruct (is_leap y); vm_compute; reflexivity).
  unfold months_ordered in Ht. rewrite forallb_forall in Ht.
  assert (In1 : In m1 (map Z.of_nat (seq 1 12))).
  { apply in_map_iff. exists (Z.to_nat m1). split; [lia | apply in_seq; lia]. }
  assert (In2 : In m2 (map Z.of_nat (seq 1 12))).
  { apply in_map_iff. exists (Z.to_nat m2). split; [lia | apply in_seq; lia]. }
  specialize (Ht m1 In1). rewrite forallb_forall in Ht. specialize (Ht m2 In2).
  apply orb_prop in Ht. destruct Ht as [Ht | Ht].
  - apply negb_true_iff, Z.ltb_ge in Ht. lia.
  - apply Z.leb_le in Ht. exact Ht.
Qed.

(** The ordinal grows with the date. *)
Lemma toordinal_lt (d1 d2 : date) :
  valid_date d1 -> valid_date d2 ->
  date_lt d1 d2 = true -> toordinal d1 < toordinal d2.
Proof.
  destruct d1 as [y1 m1 dd1], d2 as [y2 m2 dd2].
  unfold valid_date, date_lt, toordinal, ymd2ord. cbn [year month day].
  intros (Hy1 & Hm1 & Hd1) (Hy2 & Hm2 & Hd2) H.
  pose proof (month_within_year m1 (is_leap y1) Hm1) as [A1 B1].
  pose proof (month_within_year m2 (is_leap y2) Hm2) as [A2 B2].
  fold (days_before_month y1 m1) in A1, B1. fold (days_in_month y1 m1) in B1.
  fold (days_before_month y2 m2) in A2, B2. fold (days_in_month y2 m2) in B2.
  apply orb_prop in H. destruct H as [H | H].
  - apply Z.ltb_lt in H.
    pose proof (days_before_year_next y1) as Hn.
    pose proof (days_before_year_mono (y1 + 1) y2 ltac:(lia)) as Hmono.
    lia.
  - apply andb_prop in H. destruct H as [Hy H]. apply Z.eqb_eq in Hy. subst y2.
    apply orb_prop in H. destruct H as [H | H].
    + apply Z.ltb_lt in H.
      pose proof (months_in_order y1 m1 m2 Hm1 Hm2 H). lia.
    + apply andb_prop in H. destruct H as [Hm H]. apply Z.eqb_eq in Hm.
      apply Z.ltb_lt in H. subst m2. lia.
Qed.

(** Dates compare as their ordinals do. *)
Lemma date_lt_iff (d1 d2 : date) :
  valid_date d1 -> valid_date d2 ->
  (date_lt d1 d2 = true <-> toordinal d1 < toordinal d2).
Proof.
  intros V1 V2. split; [apply toordinal_lt; assumption |].
  intros Hlt. destruct (date_lt d1 d2) eqn:H12; [reflexivity |].
  destruct (date_lt d2 d1) eqn:H21.
  - apply toordinal_lt in H21; trivial. lia.
  - exfalso. destruct d1 as [y1 m1 dd1], d2 as [y2 m2 dd2].
    unfold date_lt in H12, H21. cbn [year month day] in H12, H21.
    apply orb_false_iff in H12, H21.
    destruct H12 as [A1 B1], H21 as [A2 B2]. apply Z.ltb_ge in A1, A2.
    assert (y1 = y2) by lia. subst y2.
    rewrite Z.eqb_refl in B1, B2. cbn [andb] in B1, B2.
    apply orb_false_iff in B1, B2.
    destruct B1 as [A3 B1], B2 as [A4 B2]. apply Z.ltb_ge in A3, A4.
    assert (m1 = m2) by lia. subst m2.
    rewrite Z.eqb_refl in B1, B2. cbn [andb] in B1, B2.
    apply Z.ltb_ge in B1, B2.
    assert (dd1 = dd2) by lia. subst dd2. lia.
Qed.

Lemma date_le_iff (d1 d2 : date) :
  valid_date d1 -> valid_date d2 ->
  (date_le d1 d2 = true <-> toordinal d1 <= toordinal d2).
Proof.
  intros V1 V2. unfold date_le. rewrite negb_true_iff.
  pose proof (date_lt_iff d2 d1 V2 V1) as H.
  destruct (date_lt d2 d1); split; intros H'; try discriminate;
    try reflexivity.
  - apply proj1 in H. specialize (H eq_refl). lia.
  - destruct (Z.le_gt_cases (toordinal d1) (toordinal d2)) as [Hle | Hgt];
      [exact Hle |].
    apply (proj2 H) in Hgt. discriminate.
Qed.

Lemma digit_inj (x y : Z) : digit x = digit y -> x mod 10 = y mod 10.
Proof.
  unfold digit. intros H.
  assert (Hx : 0 <= x mod 10 < 10) by (apply Z.mod_pos_bound; lia).
  assert (Hy : 0 <= y mod 10 < 10) by (apply Z.mod_pos_bound; lia).
  apply (f_equal nat_of_ascii) in H.
  rewrite !nat_ascii_embedding in H by lia. lia.
Qed.

Lemma isoformat_inj (d1 d2 : date) :
  valid_date d1 -> valid_date d2 -> isoformat d1 = isoformat d2 -> d1 = d2.
Proof.
  destruct d1 as [y1 m1 dd1], d2 as [y2 m2 dd2].
  unfold valid_date, isoformat, fmt04, fmt02, MINYEAR, MAXYEAR.
  cbn [year month day String.append].
  intros (Hy1 & Hm1 & Hd1) (Hy2 & Hm2 & Hd2) H.
  pose proof (days_in_month_le_31 m1 (is_leap y1) Hm1) as B1.
  pose proof (days_in_month_le_31 m2 (is_leap y2) Hm2) as B2.
  assert (Hd1' : dd1 <= 31).
  { unfold days_in_month in Hd1. destruct ((m1 =? 2) && is_leap y1); lia. }
  assert (Hd2' : dd2 <= 31).
  { unfold days_in_month in Hd2. destruct ((m2 =? 2) && is_leap y2); lia. }
  injection H as A1 A2 A3 A4 A5 A6 A7 A8.
  apply digit_inj in A1, A2, A3, A4, A5, A6, A7, A8.
  assert (y1 = y2) by (Z.div_mod_to_equations; lia).
  assert (m1 = m2) by (Z.div_mod_to_equations; lia).
  assert (dd1 = dd2) by (Z.div_mod_to_equations; lia).
  congruence.
Qed.

(** Distinct days of the calendar have distinct strings. *)
Lemma str_of_ordinal_inj (n1 n2 : Z) :
  valid_ordinal n1 -> valid_ordinal n2 ->
  str_of_ordinal n1 = str_of_ordinal n2 -> n1 = n2.
Proof.
  unfold str_of_ordinal. intros H1 H2 H.
  destruct (fromordinal_spec n1 H1) as [V1 R1].
  destruct (fromordinal_spec n2 H2) as [V2 R2].
  apply isoformat_inj in H; trivial. congruence.
Qed.

End PyDateFacts.

(** ** Date strings inside conflict messages *)

Lemma digit_is_digit (n : Z) : is_digit (PyDate.digit n) = true.
Proof.
  unfold is_digit, PyDate.digit.
  assert (H : 0 <= n mod 10 < 10) by (apply Z.mod_pos_bound; lia).
  rewrite nat_ascii_embedding by lia.
  apply andb_true_intro. split; apply Nat.leb_le; lia.
Qed.

(** An ISO date string is ten characters and starts with a digit. *)
Lemma str_of_ordinal_shape (n : Z) :
  exists c rest, PyDate.str_of_ordinal n = String c rest
                 /\ is_digit c = true /\ String.length rest = 9%nat.
Proof.
  unfold PyDate.str_of_ordinal, PyDate.isoformat, PyDate.fmt04, PyDate.fmt02.
  cbn [String.append]. eexists _, _. split; [reflexivity |].
  split; [apply digit_is_digit | reflexivity].
Qed.

Lemma prefix_length (s t : string) :
  String.prefix s t = true -> (String.length s <= String.length t)%nat.
Proof.
  revert t. induction s as [| a s IH]; intros t H; cbn; [lia |].
  destruct t as [| b t]; cbn in H; [discriminate |].
  destruct (ascii_dec a b); [| discriminate].
  apply IH in H. cbn. lia.
Qed.

Lemma prefix_same_length (s t : string) :
  String.prefix s t = true -> String.length s = String.length t -> s = t.
Proof.
  revert t. induction s as [| a s IH]; intros t H Hl.
  - destruct t; [reflexivity | discriminate].
  - destruct t as [| b t]; cbn in H; [discriminate |].
    destruct (ascii_dec a b) as [-> |]; [| discriminate].
    cbn in Hl. f_equal. apply IH; [exact H | lia].
Qed.

Lemma prefix_refl (s : string) : String.prefix s s = true.
Proof.
  induction s as [| a s IH]; cbn; [reflexivity |].
  destruct (ascii_dec a a); [exact IH | congruence].
Qed.

Lemma occurs_in_length (s t : string) :
  occurs_in s t = true -> (String.length s <= String.length t)%nat.
Proof.
  induction t as [| b t IH]; cbn [occurs_in]; intros H.
  - rewrite orb_false_r in H. apply prefix_length in H. exact H.
  - apply orb_prop in H. destruct H as [H | H].
    + apply prefix_length in H. exact H.
    + apply IH in H. cbn. lia.
Qed.

Lemma occurs_in_same_length (s t : string) :
  String.length s = String.length t -> s <> EmptyString ->
  occurs_in s t = true -> s = t.
Proof.
  intros Hl Hne H. destruct t as [| b t]; cbn [occurs_in] in H.
  - destruct s; [congruence | discriminate].
  - apply orb_prop in H. destruct H as [H | H].
    + apply prefix_same_length; assumption.
    + apply occurs_in_length in H. cbn in Hl. lia.
Qed.

(** A string that starts with a digit does not start inside a prefix
    without digits. *)
Lemma occurs_in_skip (c : ascii) (rest pre t : string) :
  is_digit c = true ->
  forallb (fun a => negb (is_digit a)) (list_ascii_of_string pre) = true ->
  occurs_in (String c rest) (pre ++ t) = occurs_in (String c rest) t.
Proof.
  intros Hc. induction pre as [| a pre IH]; cbn [list_ascii_of_string forallb];
    intros Hpre; [reflexivity |].
  apply andb_prop in Hpre. destruct Hpre as [Ha Hpre].
  cbn [String.append occurs_in String.prefix].
  destruct (ascii_dec c a) as [-> |].
  - rewrite Hc in Ha. discriminate.
  - cbn [orb]. apply IH. exact Hpre.
Qed.

(** The date string of a day occurs in a conflict message exactly when
    the message is about that day. *)
Lemma mention_iff (x y : Z) :
  occurs_in (PyDate.str_of_ordinal x)
            (conflict_message (PyDate.str_of_ordinal y)) = true
  <-> PyDate.str_of_ordinal x = PyDate.str_of_ordinal y.
Proof.
  destruct (str_of_ordinal_shape x) as (c & rest & Hx & Hc & Hl).
  destruct (str_of_ordinal_shape y) as (c' & rest' & Hy & _ & Hl').
  unfold conflict_message. rewrite Hx.
  rewrite (occurs_in_skip c rest "No eligible provider for ") by
    (trivial; vm_compute; reflexivity).
  rewrite Hy. split.
  - apply occurs_in_same_length; [cbn; lia | discriminate].
  - intros ->. cbn [occurs_in]. rewrite prefix_refl. reflexivity.
Qed.

(** ** The loops of [generate_schedule] follow the allocation *)

Section LoopFacts.
Variable providers : list Provider.t.
Variable prov0 : Provider.t.
Variable site : string.
Variable needed_qual : option string.

Local Abbreviation eligible := (is_eligible needed_qual).
Local Abbreviation cand := (candidate providers prov0).
Local Abbreviation loop := (while_tries providers prov0 site needed_qual).
Local Abbreviation slot := (fill_slot providers prov0 site needed_qual).
Local Abbreviation slots := (for_slots providers prov0 site needed_qual).
Local Abbreviation alloc := (allocates providers prov0 site needed_qual).
Local Abbreviation expl := (explains providers prov0 site needed_qual).

Lemma locals_eta (l : locals) :
  {| assignments := assignments l; p := p l; created := created l;
     conflicts := conflicts l |} = l.
Proof. destruct l; reflexivity. Qed.

(** The [while] loop either stops at the first eligible candidate among
    the next [budget] ones, or draws all of them in vain. *)
Lemma while_tries_cases (budget : nat) (day_date : string) (l : locals) :
  (exists k, (k < budget)%nat
     /\ (forall j, (j < k)%nat ->
           eligible (assignments l) (cand (p l + j)) day_date = false)
     /\ eligible (assignments l) (cand (p l + k)) day_date = true
     /\ loop budget day_date l
        = ({| assignments :=
                (assignments l
                 ++ [new_assignment site (cand (p l + k)) day_date])%list;
              p := (p l + k + 1)%nat;
              created := S (created l);
              conflicts := conflicts l |}, true))
  \/ ((forall j, (j < budget)%nat ->
         eligible (assignments l) (cand (p l + j)) day_date = false)
      /\ loop budget day_date l
         = ({| assignments := assignments l; p := (p l + budget)%nat;
               created := created l; conflicts := conflicts l |}, false)).
Proof.
  revert l. induction budget as [| b IH]; intros l.
  - right. split; [intros j Hj; lia |].
    simpl. rewrite Nat.add_0_r, locals_eta. reflexivity.
  - cbn [while_tries].
    fold (cand (p l)).
    destruct (eligible (assignments l) (cand (p l)) day_date) eqn:He.
    + left. exists 0%nat. rewrite !Nat.add_0_r.
      split; [lia |]. split; [intros j Hj; lia |]. split; [exact He |].
      unfold is_eligible in He.
      apply andb_prop in He. destruct He as [Hb Hq].
      apply negb_true_iff in Hb, Hq. rewrite Hb, Hq.
      cbn [p created conflicts]. rewrite Nat.add_1_r. reflexivity.
    + set (l1 := {| assignments := assignments l; p := S (p l);
                    created := created l; conflicts := conflicts l |}).
      assert (Hskip : (if booked (assignments l) (Provider.id (cand (p l)))
                            day_date
                       then loop b day_date l1
                       else if lacks_qualification needed_qual (cand (p l))
                            then loop b day_date l1
                            else (({| assignments :=
                                       create_document (assignments l)
                                         (new_assignment site (cand (p l))
                                            day_date);
                                     p := p l1; created := S (created l1);
                                     conflicts := conflicts l1 |}), true))
                      = loop b day_date l1).
      { unfold is_eligible in He.
        destruct (booked _ _ _); [reflexivity |].
        destruct (lacks_qualification _ _); [reflexivity | discriminate]. }
      rewrite Hskip. clear Hskip.
      assert (Hshift : forall j, (p l1 + j = p l + S j)%nat).
      { intros j. subst l1. cbn [p]. lia. }
      destruct (IH l1) as [(k & Hk & Hbefore & Hat & Heq) | (Hall & Heq)].
      * left. exists (S k). rewrite Hshift in Hat.
        split; [lia |]. split; [| split; [exact Hat |]].
        -- intros [| j] Hj; [rewrite Nat.add_0_r; exact He |].
           rewrite <- Hshift. apply Hbefore. lia.
        -- rewrite Heq. subst l1. cbn [assignments p created conflicts].
           replace (S (p l) + k)%nat with (p l + S k)%nat by lia.
           reflexivity.
      * right. split.
        -- intros [| j] Hj; [rewrite Nat.add_0_r; exact He |].
           rewrite <- Hshift. apply Hall. lia.
        -- rewrite Heq. subst l1. cbn [assignments p created conflicts].
           replace (S (p l) + b)%nat with (p l + S b)%nat by lia.
           reflexivity.
Qed.

Lemma allocates_app col p1 tr1 col1 p2 tr2 col2 p3 :
  alloc col p1 tr1 col1 p2 -> alloc col1 p2 tr2 col2 p3 ->
  alloc col p1 (tr1 ++ tr2)%list col2 p3.
Proof.
  induction 1 as [| ? ? ? ? ? ? ? Hk Hb He _ IH | ? ? ? ? ? ? Ha _ IH];
    intros H2; cbn [app].
  - exact H2.
  - apply alloc_filled; auto.
  - apply alloc_unfilled; auto.
Qed.

Lemma filled_count_app (tr1 tr2 : list outcome) :
  filled_count (tr1 ++ tr2) = (filled_count tr1 + filled_count tr2)%nat.
Proof. unfold filled_count. rewrite filter_app, length_app. reflexivity. Qed.

Lemma conflicts_of_app (tr1 tr2 : list outcome) :
  conflicts_of (tr1 ++ tr2) = (conflicts_of tr1 ++ conflicts_of tr2)%list.
Proof. unfold conflicts_of. apply flat_map_app. Qed.

Lemma explains_nil (l : locals) : expl l [] l.
Proof.
  unfold explains. split; [constructor |].
  cbn. rewrite Nat.add_0_r, app_nil_r. auto.
Qed.

Lemma explains_app l tr1 l1 tr2 l2 :
  expl l tr1 l1 -> expl l1 tr2 l2 -> expl l (tr1 ++ tr2)%list l2.
Proof.
  intros (A1 & C1 & F1) (A2 & C2 & F2). split; [| split].
  - eapply allocates_app; eauto.
  - rewrite C2, C1, filled_count_app. lia.
  - rewrite F2, F1, conflicts_of_app, app_assoc. reflexivity.
Qed.

(** One slot: one outcome, for the day of the slot. *)
Lemma fill_slot_explains (day_date : string) (l : locals) :
  exists o, outcome_date o = day_date /\ expl l [o] (slot day_date l).
Proof.
  unfold fill_slot.
  destruct (while_tries_cases (List.length providers) day_date l)
    as [(k & Hk & Hbefore & Hat & Heq) | (Hall & Heq)]; rewrite Heq.
  - exists (Filled day_date (cand (p l + k))). split; [reflexivity |].
    split; [| split]; cbn [assignments p created conflicts].
    + apply alloc_filled; auto. constructor.
    + cbn. lia.
    + cbn. rewrite app_nil_r. reflexivity.
  - exists (Unfilled day_date). split; [reflexivity |].
    split; [| split]; cbn [assignments p created conflicts].
    + apply alloc_unfilled; auto. constructor.
    + cbn. lia.
    + reflexivity.
Qed.

Lemma for_slots_explains (n : nat) (day_date : string) (l : locals) :
  exists tr, map outcome_date tr = repeat day_date n
             /\ expl l tr (slots n day_date l).
Proof.
  revert l. induction n as [| n IH]; intros l.
  - exists []. split; [reflexivity | apply explains_nil].
  - cbn [for_slots].
    destruct (fill_slot_explains day_date l) as (o & Ho & H1).
    destruct (IH (slot day_date l)) as (tr & Htr & H2).
    exists (o :: tr). split.
    + cbn. rewrite Ho, Htr. reflexivity.
    + change (o :: tr) with ([o] ++ tr)%list. eapply explains_app; eauto.
Qed.

(** The whole date loop: [n] outcomes for each day, in the order of the
    days. *)
Lemma days_explain (start_ordinal : Z) (n : nat) (idx : list Z) (l : locals) :
  exists tr,
    map outcome_date tr
    = flat_map (fun i => repeat (PyDate.str_of_ordinal (start_ordinal + i)) n)
               idx
    /\ expl l tr
         (fold_left
            (day_body providers prov0 site needed_qual start_ordinal n) idx l).
Proof.
  revert l. induction idx as [| i idx IH]; intros l.
  - exists []. split; [reflexivity | apply explains_nil].
  - cbn [fold_left flat_map]. unfold day_body at 2.
    destruct (for_slots_explains n
                (PyDate.isoformat (PyDate.fromordinal (start_ordinal + i))) l)
      as (tr1 & Htr1 & H1).
    destruct (IH (slots n (PyDate.isoformat
                             (PyDate.fromordinal (start_ordinal + i))) l))
      as (tr2 & Htr2 & H2).
    exists (tr1 ++ tr2)%list. split.
    + rewrite map_app, Htr1, Htr2. reflexivity.
    + eapply explains_app; eauto.
Qed.

(** *** What an allocation leaves behind *)

Lemma allocates_assignments col p1 tr col' p2 :
  alloc col p1 tr col' p2 -> col' = (col ++ assignments_of site tr)%list.
Proof.
  induction 1 as [| ? ? ? ? ? ? ? _ _ _ _ IH | ? ? ? ? ? ? _ _ IH].
  - cbn. rewrite app_nil_r. reflexivity.
  - rewrite IH. cbn. rewrite <- app_assoc. reflexivity.
  - exact IH.
Qed.

Lemma booked_iff (col : list Assignment.t) (pid day_date : string) :
  booked col pid day_date = true <-> In (pid, day_date) (map booking col).
Proof.
  unfold booked, find_one. split.
  - destruct (find _ col) as [a |] eqn:Hf; [| discriminate].
    intros _. apply find_some in Hf. destruct Hf as [Hin Hm].
    apply andb_prop in Hm. destruct Hm as [H1 H2].
    apply String.eqb_eq in H1, H2. subst.
    apply in_map_iff. exists a. split; [reflexivity | exact Hin].
  - intros Hin. apply in_map_iff in Hin. destruct Hin as (a & Ha & Hin).
    destruct (find _ col) as [a' |] eqn:Hf; [reflexivity |].
    exfalso. eapply find_none in Hf; [| exact Hin].
    cbv beta in Hf. unfold booking in Ha. injection Ha as <- <-.
    rewrite !String.eqb_refl in Hf. discriminate.
Qed.

Lemma eligible_not_booked col prov day_date :
  eligible col prov day_date = true ->
  ~ In (Provider.id prov, day_date) (map booking col).
Proof.
  unfold is_eligible. intros H Hin. apply booked_iff in Hin.
  rewrite Hin in H. discriminate.
Qed.

(** An allocation never books a provider on a day that provider already
    has, be it from the store or from an earlier slot. *)
Lemma allocates_fresh col p1 tr col' p2 :
  alloc col p1 tr col' p2 ->
  NoDup (map booking (assignments_of site tr))
  /\ (forall a, In a (assignments_of site tr) ->
                ~ In (booking a) (map booking col)).
Proof.
  induction 1 as [| col q d k tr col' q' _ _ He _ IH | ? ? ? ? ? ? _ _ IH].
  - split; [constructor | intros a []].
  - destruct IH as [IHn IHf].
    pose proof (eligible_not_booked _ _ _ He) as Hfresh.
    split.
    + cbn. constructor; [| exact IHn].
      intros Hin. apply in_map_iff in Hin. destruct Hin as (a & Ha & Hin).
      apply (IHf a Hin). rewrite map_app, in_app_iff. right.
      cbn. left. symmetry. exact Ha.
    + intros a [<- | Hin]; [exact Hfresh |].
      intros Hc. apply (IHf a Hin). rewrite map_app, in_app_iff. left. exact Hc.
  - exact IH.
Qed.

(** [n] draws in a row reach every provider. *)
Lemma rotation_covers (q : nat) (prov : Provider.t) :
  In prov providers ->
  exists j, (j < List.length providers)%nat /\ cand (q + j) = prov.
Proof.
  intros Hin. destruct (In_nth _ _ prov0 Hin) as (i & Hi & Hnth).
  set (n := List.length providers) in *.
  assert (Hn : n <> 0%nat) by lia.
  pose proof (Nat.div_mod_eq q n) as Hq.
  pose proof (Nat.mod_upper_bound q n Hn) as Hr.
  unfold candidate. fold n.
  destruct (le_lt_dec (q mod n) i) as [Hle | Hlt].
  - exists (i - q mod n)%nat. split; [lia |].
    rewrite <- (Nat.mod_unique (q + (i - q mod n)) n (q / n) i); [exact Hnth | lia | lia].
  - exists (i + n - q mod n)%nat. split; [lia |].
    rewrite <- (Nat.mod_unique (q + (i + n - q mod n)) n (S (q / n)) i);
      [exact Hnth | lia | lia].
Qed.

Lemma candidate_in (q : nat) : providers <> [] -> In (cand q) providers.
Proof.
  intros Hne. unfold candidate. apply nth_In.
  apply Nat.mod_upper_bound. destruct providers; [congruence | discriminate].
Qed.

(** Whoever fills a slot is a provider of the list and passes the
    qualification gate. *)
Lemma allocates_qualified col p1 tr col' p2 d prov :
alloc col p1 tr col' p2 -> In (Filled d prov) tr ->
In prov providers /\ lacks_qualification needed_qual prov = false.
Proof.
induction 1 as [| col q d' k tr col' q' Hk _ He _ IH | ? ? ? ? ? ? _ _ IH];
  intros Hin.
- destruct Hin.
- destruct Hin as [Heq | Hin]; [| exact (IH Hin)].
  injection Heq as _ <-. split.
  + apply candidate_in. intros Hnil. rewrite Hnil in Hk. cbn in Hk. lia.
  + unfold is_eligible in He. apply andb_prop in He. destruct He as [_ He].
    apply negb_true_iff in He. exact He.
- destruct Hin as [Heq | Hin]; [discriminate | exact (IH Hin)].
Qed.

(** Each slot draws at least one candidate and at most as many as there
    are providers. *)
Lemma allocates_cursor col p1 tr col' p2 :
providers <> [] ->
alloc col p1 tr col' p2 ->
(p1 + List.length tr <= p2
 /\ p2 <= p1 + List.length providers * List.length tr)%nat.
Proof.
intros Hne.
assert (Hn : (1 <= List.length providers)%nat)
  by (destruct providers; [congruence | cbn; lia]).
induction 1 as [| ? ? ? ? ? ? ? Hk _ _ _ IH | ? ? ? ? ? ? _ _ IH];
  cbn [List.length]; nia.
Qed.

(** *** The outcome of one slot among the others *)

Lemma allocates_split col p1 tr1 o tr2 col' p3 :
  alloc col p1 (tr1 ++ o :: tr2)%list col' p3 ->
  exists p2, alloc (col ++ assignments_of site tr1)%list p2 (o :: tr2) col' p3.
Proof.
  revert col p1. induction tr1 as [| o1 tr1 IH]; intros col p1 H.
  - exists p1. cbn. rewrite app_nil_r. exact H.
  - cbn [app] in H. inversion H; subst.
    + match goal with Hr : alloc _ _ (tr1 ++ _)%list _ _ |- _ =>
        destruct (IH _ _ Hr) as (p2 & Hp2) end.
      exists p2. cbn. rewrite <- app_assoc in Hp2. exact Hp2.
    + match goal with Hr : alloc _ _ (tr1 ++ _)%list _ _ |- _ =>
        destruct (IH _ _ Hr) as (p2 & Hp2) end.
      exists p2. exact Hp2.
Qed.

Lemma assignments_of_in (tr : list outcome) (a : Assignment.t) :
  In a (assignments_of site tr) <->
  exists d prov, In (Filled d prov) tr /\ a = new_assignment site prov d.
Proof.
  unfold assignments_of. rewrite in_flat_map. split.
  - intros (o & Ho & Ha). destruct o as [d prov | d]; [| destruct Ha].
    destruct Ha as [<- | []]. exists d, prov. auto.
  - intros (d & prov & Hin & ->). exists (Filled d prov). split; [exact Hin |].
    left. reflexivity.
Qed.

Lemma booked_app (col x : list Assignment.t) (pid d : string) :
  booked (col ++ x) pid d = booked col pid d || booked x pid d.
Proof.
  unfold booked, find_one. induction col as [| a col IH]; cbn [app find].
  - reflexivity.
  - destruct ((Assignment.provider_id a =? pid)%string
              && (Assignment.date a =? d)%string); [reflexivity | exact IH].
Qed.

Lemma booked_other_dates (x : list Assignment.t) (pid d : string) :
  (forall a, In a x -> Assignment.date a <> d) -> booked x pid d = false.
Proof.
  intros H. destruct (booked x pid d) eqn:Hb; [| reflexivity].
  apply booked_iff in Hb. apply in_map_iff in Hb.
  destruct Hb as (a & Ha & Hin). unfold booking in Ha. injection Ha as _ Hd.
  elim (H a Hin Hd).
Qed.

(** Assignments made for other days do not change who is eligible on
    the day [d]. *)
Lemma eligible_other_days col tr prov d :
  (forall o, In o tr -> outcome_date o <> d) ->
  eligible (col ++ assignments_of site tr)%list prov d = eligible col prov d.
Proof.
  intros H. unfold is_eligible. rewrite booked_app.
  rewrite (booked_other_dates (assignments_of site tr)); [rewrite orb_false_r; reflexivity |].
  intros a Ha. apply assignments_of_in in Ha.
  destruct Ha as (d' & prov' & Hin & ->). cbn. exact (H _ Hin).
Qed.

(** The slot of a day that no earlier slot shares: it is filled by a
    provider who was eligible on that day at the start, and left
    unfilled only when no provider was. *)
Lemma outcome_at col p1 tr1 o tr2 col' p2 :
  alloc col p1 (tr1 ++ o :: tr2)%list col' p2 ->
  (forall o', In o' tr1 -> outcome_date o' <> outcome_date o) ->
  match o with
  | Filled d prov => In prov providers /\ eligible col prov d = true
  | Unfilled d => forall prov, In prov providers -> eligible col prov d = false
  end.
Proof.
  intros H Hd. destruct (allocates_split _ _ _ _ _ _ _ H) as (q & Hq).
  inversion Hq; subst.
  - cbn [outcome_date] in Hd. rewrite eligible_other_days in * by exact Hd.
    split; [| assumption].
    apply candidate_in. intros Hnil. rewrite Hnil in *. cbn in *. lia.
  - cbn [outcome_date] in Hd. intros prov Hin.
    destruct (rotation_covers q prov Hin) as (j & Hj & <-).
    rewrite <- (eligible_other_days col tr1) by exact Hd. auto.
Qed.
End LoopFacts.

(** ** A run of [generate_schedule] *)

Lemma find_all_true {A : Type} (col : list A) :
  find_all (fun _ => true) col = col.
Proof.
  unfold find_all. induction col as [| a col IH]; cbn; [| rewrite IH];
    reflexivity.
Qed.

Lemma with_assignments_same (st : Store) : with_assignments st (assign_col st) = st.
Proof. destruct st; reflexivity. Qed.

(** With a provider and a regular shift type the run returns, and its
    slots are an allocation from the cursor 0 over the stored assignments:
    as many slots a day as [min(len(providers), len(shifts))], day after
    day. *)
Lemma generate_schedule_run (st : Store) (req : GenerateRequest.t)
    (prov0 : Provider.t) (rest : list Provider.t)
    (shift0 : ShiftType.t) (regs : list ShiftType.t) :
  provider_col st = prov0 :: rest ->
  regular_shifts st = shift0 :: regs ->
  exists tr col' p',
    allocates (provider_col st) prov0 (ShiftType.site shift0)
      (ShiftType.requires_qualification shift0) (assign_col st) 0 tr col' p'
    /\ map outcome_date tr
       = flat_map
           (fun i =>
              repeat (PyDate.str_of_ordinal
                        (PyDate.toordinal (GenerateRequest.start_date req) + i))
                     (Nat.min (List.length (provider_col st))
                              (List.length (shift0 :: regs))))
           (range (day_count req))
    /\ generate_schedule (Some st) req
       = (Returned {| GenerateResponse.created := filled_count tr;
                      GenerateResponse.conflicts := conflicts_of tr |},
          Some (with_assignments st col')).
Proof.
  intros Hp Hs. unfold generate_schedule.
  rewrite find_all_true, Hs. rewrite Hp. fold (day_count req).
  set (l0 := {| assignments := assign_col st; p := 0%nat; created := 0%nat;
                conflicts := [] |}).
  destruct (days_explain (prov0 :: rest) prov0 (ShiftType.site shift0)
              (ShiftType.requires_qualification shift0)
              (PyDate.toordinal (GenerateRequest.start_date req))
              (Nat.min (List.length (prov0 :: rest))
                       (List.length (shift0 :: regs)))
              (range (day_count req)) l0) as (tr & Hdays & Ha & Hc & Hf).
  set (lf := fold_left _ _ l0) in *.
  exists tr, (assignments lf), (p lf).
  split; [exact Ha |]. split; [exact Hdays |].
  rewrite Hc, Hf. reflexivity.
Qed.

(** The run returns or raises; either way the store is the one before
    with assignments added at the end. *)
Lemma generate_schedule_appends (st : Store) (req : GenerateRequest.t) :
  exists r new,
    generate_schedule (Some st) req
    = (r, Some (with_assignments st (assign_col st ++ new)%list))
    /\ NoDup (map booking new)
    /\ (forall a, In a new -> ~ In (booking a) (map booking (assign_col st))).
Proof.
  destruct (provider_col st) as [| prov0 rest] eqn:Hp.
  - exists (Raised config_error), []. rewrite app_nil_r, with_assignments_same.
    split; [| split; [constructor | intros a []]].
    unfold generate_schedule. rewrite find_all_true, Hp. reflexivity.
  - destruct (regular_shifts st) as [| shift0 regs] eqn:Hs.
    + exists (Raised config_error), [].
      rewrite app_nil_r, with_assignments_same.
      split; [| split; [constructor | intros a []]].
      unfold generate_schedule. rewrite find_all_true, Hp, Hs. reflexivity.
    + destruct (generate_schedule_run st req prov0 rest shift0 regs Hp Hs)
        as (tr & col' & p' & Ha & _ & Heq).
      rewrite Heq. rewrite (allocates_assignments _ _ _ _ _ _ _ _ _ Ha).
      destruct (allocates_fresh _ _ _ _ _ _ _ _ _ Ha) as [Hn Hf].
      eexists _, _. split; [reflexivity |]. split; [exact Hn | exact Hf].
Qed.

(** ** Runs on sample data *)

(** The design's example: [A] and [B], the shift requires ["X"], which
    only [A] holds; both days of a two-day range go to [A]. *)
Example run_qualified_only :
  generate_schedule (Some (Sample.store_AB (Some "X")))
    (Sample.mk_request Sample.jan1 Sample.jan2)
  = (Returned {| GenerateResponse.created := 2;
                 GenerateResponse.conflicts := [] |},
     Some (with_assignments (Sample.store_AB (Some "X"))
             [Sample.machine "A" "2024-01-01"; Sample.machine "A" "2024-01-02"])).
Proof. vm_compute. reflexivity. Qed.

(** The design's example with three providers and one day: the cursor
    starts at [A], who is free, and the slot is filled at once. *)
Example run_three_providers :
  generate_schedule
    (Some {| provider_col := [Sample.A; Sample.B; Sample.C];
             shift_col := [Sample.mk_shift "s1" "REG" "S" None];
             assign_col := [] |})
    (Sample.mk_request Sample.jan1 Sample.jan1)
  = (Returned {| GenerateResponse.created := 1;
                 GenerateResponse.conflicts := [] |},
     Some {| provider_col := [Sample.A; Sample.B; Sample.C];
             shift_col := [Sample.mk_shift "s1" "REG" "S" None];
             assign_col := [Sample.machine "A" "2024-01-01"] |}).
Proof. vm_compute. reflexivity. Qed.

(** Without a qualification the cursor moves on from day to day. *)
Example run_rotates :
  generate_schedule (Some (Sample.store_AB None))
    (Sample.mk_request Sample.jan1 Sample.jan2)
  = (Returned {| GenerateResponse.created := 2;
                 GenerateResponse.conflicts := [] |},
     Some (with_assignments (Sample.store_AB None)
             [Sample.machine "A" "2024-01-01"; Sample.machine "B" "2024-01-02"])).
Proof. vm_compute. reflexivity. Qed.

(** ** The days of a run *)

Lemma range_in (n i : Z) : In i (range n) <-> 0 <= i < n.
Proof.
  unfold range. rewrite in_map_iff. split.
  - intros (k & <- & Hk). apply in_seq in Hk. lia.
  - intros H. exists (Z.to_nat i). split; [lia | apply in_seq; lia].
Qed.

Lemma range_nonpos (n : Z) : n <= 0 -> range n = [].
Proof.
  intros H. unfold range. replace (Z.to_nat n) with 0%nat by lia. reflexivity.
Qed.

Lemma range_sorted (n : Z) : StronglySorted Z.lt (range n).
Proof.
  unfold range. generalize 0%nat as a. induction (Z.to_nat n) as [| k IH];
    intros a; cbn; constructor.
  - apply IH.
  - apply Forall_forall. intros x Hx. apply in_map_iff in Hx.
    destruct Hx as (j & <- & Hj). apply in_seq in Hj. lia.
Qed.

Lemma days_of_in (req : GenerateRequest.t) (d : Z) :
  In d (days_of req) <-> in_range req d.
Proof.
  unfold days_of, in_range, day_count, timedelta_days.
  rewrite in_map_iff. split.
  - intros (i & <- & Hi). apply range_in in Hi. lia.
  - intros H.
    exists (d - PyDate.toordinal (GenerateRequest.start_date req)).
    split; [lia | apply range_in; lia].
Qed.

Lemma days_of_sorted (req : GenerateRequest.t) :
  StronglySorted Z.lt (days_of req).
Proof.
  unfold days_of. induction (range_sorted (day_count req)) as [| i l _ IH Hi];
    cbn; constructor; [exact IH |].
  apply Forall_forall. intros x Hx. apply in_map_iff in Hx.
  destruct Hx as (j & <- & Hj). rewrite Forall_forall in Hi.
  specialize (Hi j Hj). lia.
Qed.

Lemma days_of_length (req : GenerateRequest.t) :
  List.length (days_of req) = Z.to_nat (day_count req).
Proof. unfold days_of, range. rewrite !length_map, length_seq. reflexivity. Qed.

Lemma days_of_valid (req : GenerateRequest.t) (d : Z) :
  valid_request req -> In d (days_of req) -> PyDate.valid_ordinal d.
Proof.
  intros [Hs He] Hd. apply days_of_in in Hd.
  apply PyDateFacts.toordinal_valid in Hs, He.
  unfold PyDate.valid_ordinal, in_range in *. lia.
Qed.

Lemma sorted_lt_NoDup (l : list Z) : StronglySorted Z.lt l -> NoDup l.
Proof.
  induction 1 as [| x l _ IH Hx]; constructor; [| exact IH].
  intros Hin. rewrite Forall_forall in Hx. specialize (Hx x Hin). lia.
Qed.

(** The days of a request have pairwise different date strings. *)
Lemma days_of_strings (req : GenerateRequest.t) :
  valid_request req -> NoDup (map PyDate.str_of_ordinal (days_of req)).
Proof.
  intros Hv.
  assert (Hval : forall d, In d (days_of req) -> PyDate.valid_ordinal d)
    by (intros d; apply days_of_valid; exact Hv).
  pose proof (sorted_lt_NoDup _ (days_of_sorted req)) as Hnd.
  induction (days_of req) as [| d l IH]; cbn; constructor.
  - intros Hin. apply in_map_iff in Hin. destruct Hin as (d' & Heq & Hd').
    apply PyDateFacts.str_of_ordinal_inj in Heq;
      [| apply Hval; right; exact Hd' | apply Hval; left; reflexivity].
    subst d'. inversion Hnd; contradiction.
  - apply IH; [intros x Hx; apply Hval; right; exact Hx |].
    inversion Hnd; assumption.
Qed.

Lemma flat_map_repeat_1 {A B : Type} (f : A -> B) (l : list A) :
  flat_map (fun x => repeat (f x) 1) l = map f l.
Proof.
  induction l as [| a l IH]; cbn [flat_map map]; [| rewrite IH]; reflexivity.
Qed.

(** Each outcome makes one assignment or one conflict. *)
Lemma outcomes_counted (tr : list outcome) :
  (filled_count tr + List.length (conflicts_of tr) = List.length tr)%nat.
Proof.
  unfold filled_count, conflicts_of.
  induction tr as [| [d prov | d] tr IH]; cbn in *; lia.
Qed.

(** With one regular shift type there is one slot a day. *)
Lemma generate_schedule_single (st : Store) (req : GenerateRequest.t)
    (prov0 : Provider.t) (rest : list Provider.t) (shift0 : ShiftType.t) :
  provider_col st = prov0 :: rest ->
  regular_shifts st = [shift0] ->
  exists tr col' p',
    allocates (provider_col st) prov0 (ShiftType.site shift0)
      (ShiftType.requires_qualification shift0) (assign_col st) 0 tr col' p'
    /\ map outcome_date tr = map PyDate.str_of_ordinal (days_of req)
    /\ generate_schedule (Some st) req
       = (Returned {| GenerateResponse.created := filled_count tr;
                      GenerateResponse.conflicts := conflicts_of tr |},
          Some (with_assignments st col')).
Proof.
  intros Hp Hs.
  destruct (generate_schedule_run st req prov0 rest shift0 [] Hp Hs)
    as (tr & col' & p' & Ha & Hd & Heq).
  exists tr, col', p'. split; [exact Ha |]. split; [| exact Heq].
  rewrite Hd, Hp.
  assert (Hm : Nat.min (List.length (prov0 :: rest)) (List.length [shift0])
               = 1%nat) by (cbn [List.length]; lia).
  rewrite Hm.
  rewrite (flat_map_repeat_1
             (fun i => PyDate.str_of_ordinal
                         (PyDate.toordinal (GenerateRequest.start_date req) + i))). unfold days_of. rewrite map_map. reflexivity.
Qed.

(** The outcomes of a run whose slots are on pairwise different days:
    the slot of the day [d], and the slots before and after it, which are
    on other days. *)
Lemma trace_day (tr : list outcome) (ds : list Z) (d : Z) :
  map outcome_date tr = map PyDate.str_of_ordinal ds ->
  NoDup (map PyDate.str_of_ordinal ds) ->
  In d ds ->
  exists tr1 o tr2 ds1 ds2,
    tr = (tr1 ++ o :: tr2)%list
    /\ outcome_date o = PyDate.str_of_ordinal d
    /\ map outcome_date tr1 = map PyDate.str_of_ordinal ds1
    /\ map outcome_date tr2 = map PyDate.str_of_ordinal ds2
    /\ (forall o', In o' tr1 -> outcome_date o' <> PyDate.str_of_ordinal d)
    /\ (forall o', In o' tr2 -> outcome_date o' <> PyDate.str_of_ordinal d).
Proof.
  intros Hmap Hnd Hin.
  destruct (in_split _ _ Hin) as (ds1 & ds2 & ->).
  rewrite map_app in Hmap. cbn [map] in Hmap.
  apply map_eq_app in Hmap. destruct Hmap as (tr1 & tr' & -> & H1 & H').
  apply map_eq_cons in H'. destruct H' as (o & tr2 & -> & Ho & H2).
  rewrite map_app in Hnd. cbn [map] in Hnd.
  pose proof (NoDup_remove_2 _ _ _ Hnd) as Hnot.
  exists tr1, o, tr2, ds1, ds2. repeat split; trivial.
  - intros o' Ho' Heq. apply Hnot. apply in_or_app. left.
    rewrite <- H1, <- Heq. apply in_map. exact Ho'.
  - intros o' Ho' Heq. apply Hnot. apply in_or_app. right.
    rewrite <- H2, <- Heq. apply in_map. exact Ho'.
Qed.

Lemma count_mentions_app (s : string) (l1 l2 : list string) :
  count_mentions s (l1 ++ l2)
  = (count_mentions s l1 + count_mentions s l2)%nat.
Proof. unfold count_mentions. rewrite filter_app, length_app. reflexivity. Qed.

(** Slots of other days leave no conflict that mentions the day [d]. *)
Lemma no_mention (tr : list outcome) (ds : list Z) (d : Z) :
  map outcome_date tr = map PyDate.str_of_ordinal ds ->
  (forall o, In o tr -> outcome_date o <> PyDate.str_of_ordinal d) ->
  count_mentions (PyDate.str_of_ordinal d) (conflicts_of tr) = 0%nat.
Proof.
  revert ds. induction tr as [| o tr IH]; intros ds Hmap Hne; [reflexivity |].
  destruct ds as [| y ds]; [discriminate |].
  cbn [map] in Hmap. injection Hmap as Ho Hmap.
  assert (IH' : count_mentions (PyDate.str_of_ordinal d) (conflicts_of tr)
                = 0%nat).
  { apply (IH ds Hmap). intros o' Ho'. apply Hne. right. exact Ho'. }
  destruct o as [s prov | s]; [exact IH' |].
  cbn [outcome_date] in Ho. subst s.
  change (conflicts_of (Unfilled (PyDate.str_of_ordinal y) :: tr))
    with ([conflict_message (PyDate.str_of_ordinal y)] ++ conflicts_of tr)%list.
  rewrite count_mentions_app, IH'. unfold count_mentions. cbn [filter].
  destruct (occurs_in _ _) eqn:Hocc; [| reflexivity].
  apply mention_iff in Hocc. exfalso.
  apply (Hne (Unfilled (PyDate.str_of_ordinal y))); [left; reflexivity |].
  cbn [outcome_date]. symmetry. exact Hocc.
Qed.

(** One day of an allocation with one slot a day, over the days of a
    request.  Either a provider who was eligible for the day at the start
    fills its slot and no conflict mentions the day, or no provider was
    eligible, the slot is left unfilled and one conflict mentions the
    day. *)
Lemma single_trace_day (providers : list Provider.t) (prov0 : Provider.t)
    (site : string) (needed_qual : option string)
    (col : list Assignment.t) (p1 : nat) (tr : list outcome)
    (col' : list Assignment.t) (p2 : nat)
    (req : GenerateRequest.t) (d : Z) :
  allocates providers prov0 site needed_qual col p1 tr col' p2 ->
  map outcome_date tr = map PyDate.str_of_ordinal (days_of req) ->
  valid_request req ->
  in_range req d ->
  (exists prov,
     In prov providers
     /\ is_eligible needed_qual col prov (PyDate.str_of_ordinal d) = true
     /\ In (Filled (PyDate.str_of_ordinal d) prov) tr
     /\ ~ In (Unfilled (PyDate.str_of_ordinal d)) tr
     /\ count_mentions (PyDate.str_of_ordinal d) (conflicts_of tr) = 0%nat)
  \/ ((forall prov, In prov providers ->
         is_eligible needed_qual col prov (PyDate.str_of_ordinal d) = false)
      /\ In (Unfilled (PyDate.str_of_ordinal d)) tr
      /\ (forall prov, ~ In (Filled (PyDate.str_of_ordinal d) prov) tr)
      /\ count_mentions (PyDate.str_of_ordinal d) (conflicts_of tr) = 1%nat).
Proof.
  intros Ha Hdays Hv Hd.
  destruct (trace_day tr (days_of req) d Hdays (days_of_strings req Hv)
              (proj2 (days_of_in req d) Hd))
    as (tr1 & o & tr2 & ds1 & ds2 & -> & Ho & H1 & H2 & Hn1 & Hn2).
  assert (Hn1' : forall o', In o' tr1 -> outcome_date o' <> outcome_date o)
    by (rewrite Ho; exact Hn1).
  pose proof (outcome_at _ _ _ _ _ _ _ _ _ _ _ Ha Hn1') as Hat.
  assert (Hothers : forall o', In o' (tr1 ++ o :: tr2)%list ->
                               outcome_date o' = PyDate.str_of_ordinal d ->
                               o' = o).
  { intros o' Hin Heq. apply in_app_or in Hin. cbn [In] in Hin.
    destruct Hin as [Hin | [Hin | Hin]].
    - elim (Hn1 _ Hin Heq).
    - congruence.
    - elim (Hn2 _ Hin Heq). }
  assert (Hhere : In o (tr1 ++ o :: tr2)%list)
    by (apply in_or_app; right; left; reflexivity).
  change (tr1 ++ o :: tr2)%list with (tr1 ++ [o] ++ tr2)%list.
  rewrite !conflicts_of_app, !count_mentions_app.
  rewrite (no_mention tr1 ds1 d H1 Hn1), (no_mention tr2 ds2 d H2 Hn2).
  change (tr1 ++ [o] ++ tr2)%list with (tr1 ++ o :: tr2)%list.
  destruct o as [s prov | s]; cbn [outcome_date] in Ho; subst s.
  - left. destruct Hat as [Hin He]. exists prov.
    split; [exact Hin |]. split; [exact He |]. split; [exact Hhere |].
    split; [| reflexivity].
    intros Hin'. apply Hothers in Hin'; [discriminate | reflexivity].
  - right. split; [exact Hat |]. split; [exact Hhere |]. split.
    + intros prov Hin. apply Hothers in Hin; [discriminate | reflexivity].
    + cbn [conflicts_of flat_map app]. unfold count_mentions. cbn [filter].
      rewrite (proj2 (mention_iff d d) eq_refl). reflexivity.
Qed.

(** ** The conflicts of a run, day by day *)

(** The conflicts are the messages of the unfilled slots, in the order of
    the slots. *)
Lemma conflicts_days (tr : list outcome) (dsall : list Z) :
  map outcome_date tr = map PyDate.str_of_ordinal dsall ->
  exists ds,
    conflicts_of tr
    = map (fun d => conflict_message (PyDate.str_of_ordinal d)) ds
    /\ (forall d, In d ds ->
                  In d dsall /\ In (Unfilled (PyDate.str_of_ordinal d)) tr)
    /\ (forall s, In (Unfilled s) tr ->
                  exists d, In d ds /\ PyDate.str_of_ordinal d = s)
    /\ (forall R : Z -> Z -> Prop,
          StronglySorted R dsall -> StronglySorted R ds).
Proof.
  revert dsall. induction tr as [| o tr IH]; intros dsall Hmap.
  - exists []. split; [reflexivity |]. split; [intros d [] |].
    split; [intros s [] | intros R _; constructor].
  - destruct dsall as [| y dsall]; [discriminate |].
    cbn [map] in Hmap. injection Hmap as Ho Hmap.
    destruct (IH dsall Hmap) as (ds & Hc & Hin & Hun & Hsorted).
    destruct o as [s prov | s]; cbn [outcome_date] in Ho; subst s.
    + exists ds. split; [exact Hc |]. split; [| split].
      * intros d Hd. destruct (Hin d Hd). split; right; assumption.
      * intros s [Heq | Hs]; [discriminate | exact (Hun s Hs)].
      * intros R HR. inversion HR; subst. auto.
    + exists (y :: ds). split; [cbn [map]; rewrite <- Hc; reflexivity |].
      split; [| split].
      * intros d [<- | Hd]; [split; left; reflexivity |].
        destruct (Hin d Hd). split; right; assumption.
      * intros s [Heq | Hs].
        -- injection Heq as <-. exists y. split; [left |]; reflexivity.
        -- destruct (Hun s Hs) as (d & Hd & <-). exists d.
           split; [right; exact Hd | reflexivity].
      * intros R HR. inversion HR as [| ? ? Hrest Hall]; subst.
        constructor; [auto |].
        apply Forall_forall. intros x Hx. rewrite Forall_forall in Hall.
        apply Hall. exact (proj1 (Hin x Hx)).
Qed.

Lemma sorted_repeat_app (x : Z) (k : nat) (rest : list Z) :
  StronglySorted Z.le rest -> Forall (Z.le x) rest ->
  StronglySorted Z.le (repeat x k ++ rest).
Proof.
  intros Hs Hall. induction k as [| k IH]; cbn [repeat app]; [exact Hs |].
  constructor; [exact IH |].
  apply Forall_app. split; [| exact Hall].
  apply Forall_forall. intros y Hy. apply repeat_spec in Hy. lia.
Qed.

Lemma repeat_days_sorted (n : nat) (l : list Z) :
  StronglySorted Z.lt l ->
  StronglySorted Z.le (flat_map (fun x => repeat x n) l).
Proof.
  induction 1 as [| x l _ IH Hx]; cbn [flat_map]; [constructor |].
  rewrite Forall_forall in Hx.
  apply sorted_repeat_app; [exact IH |].
  apply Forall_forall. intros y Hy. apply in_flat_map in Hy.
  destruct Hy as (z & Hz & Hy). apply repeat_spec in Hy. subst y.
  specialize (Hx z Hz). lia.
Qed.

Lemma repeat_days_strings (n : nat) (start : Z) (idx : list Z) :
  flat_map (fun i => repeat (PyDate.str_of_ordinal (start + i)) n) idx
  = map PyDate.str_of_ordinal
      (flat_map (fun d => repeat d n) (map (fun i => start + i) idx)).
Proof.
  induction idx as [| i idx IH]; cbn [flat_map map]; [reflexivity |].
  rewrite map_app, map_repeat, IH. reflexivity.
Qed.

(** * The claims *)

(** C1.  A run of [generate_schedule] never books a provider twice on one
    date.  Whatever the store holds, the run only adds assignments; the
    added ones are pairwise on different (provider, date) pairs and none
    repeats a pair the store already had, from this run or an earlier one.
    Hence a store in which no two assignments share provider and date is
    still such a store after the run. *)
Theorem generate_no_double_booking (st : Store) (req : GenerateRequest.t) :
  exists r st' new,
    generate_schedule (Some st) req = (r, Some st')
    /\ assign_col st' = (assign_col st ++ new)%list
    /\ NoDup (map booking new)
    /\ (forall a, In a new -> ~ In (booking a) (map booking (assign_col st)))
    /\ (no_double_booking (assign_col st) -> no_double_booking (assign_col st')).
Proof.
  destruct (generate_schedule_appends st req) as (r & new & Heq & Hn & Hf).
  exists r, (with_assignments st (assign_col st ++ new)%list), new.
  split; [exact Heq |]. split; [reflexivity |].
  split; [exact Hn |]. split; [exact Hf |].
  cbn [with_assignments assign_col]. unfold no_double_booking.
  intros Hst. rewrite map_app. apply NoDup_app; [exact Hst | exact Hn |].
  intros b Hb Hb'. apply in_map_iff in Hb'. destruct Hb' as (a & <- & Ha).
  exact (Hf a Ha Hb).
Qed.

(** C2.  With exactly one regular shift type and at least one provider,
    every day [d] of the inclusive range ends the run in exactly one of two
    ways: (a) the run persisted a machine-generated assignment for [d], of
    the regular shift type, at the site of the selected shift, or (b) the
    date string of [d] occurs in exactly one entry of the returned
    conflicts. *)
Theorem generate_fills_or_reports (st : Store) (req : GenerateRequest.t)
    (shift0 : ShiftType.t) (d : Z) :
  provider_col st <> [] ->
  regular_shifts st = [shift0] ->
  valid_request req ->
  in_range req d ->
  exists resp st' new,
    generate_schedule (Some st) req = (Returned resp, Some st')
    /\ assign_col st' = (assign_col st ++ new)%list
    /\ ((machine_generated_for new (ShiftType.site shift0)
           (PyDate.str_of_ordinal d)
         /\ count_mentions (PyDate.str_of_ordinal d)
              (GenerateResponse.conflicts resp) <> 1%nat)
        \/ (count_mentions (PyDate.str_of_ordinal d)
              (GenerateResponse.conflicts resp) = 1%nat
            /\ ~ machine_generated_for new (ShiftType.site shift0)
                  (PyDate.str_of_ordinal d))).
Proof.
  intros Hp Hs Hv Hd.
  destruct (provider_col st) as [| prov0 rest] eqn:Hpc; [congruence |].
  rewrite <- Hpc in *.
  destruct (generate_schedule_single st req prov0 rest shift0 Hpc Hs)
    as (tr & col' & p' & Ha & Hdays & Heq).
  exists {| GenerateResponse.created := filled_count tr;
            GenerateResponse.conflicts := conflicts_of tr |},
    (with_assignments st col'), (assignments_of (ShiftType.site shift0) tr).
  split; [exact Heq |].
  split; [cbn; apply (allocates_assignments _ _ _ _ _ _ _ _ _ Ha) |].
  cbn [GenerateResponse.conflicts].
  destruct (single_trace_day _ _ _ _ _ _ _ _ _ req d Ha Hdays Hv Hd)
    as [(prov & _ & _ & Hin & _ & Hc) | (_ & _ & Hnone & Hc)].
  - left. split; [| rewrite Hc; discriminate].
    exists (new_assignment (ShiftType.site shift0) prov (PyDate.str_of_ordinal d)).
    split; [| repeat split].
    apply assignments_of_in. exists (PyDate.str_of_ordinal d), prov. auto.
  - right. split; [exact Hc |].
    intros (a & Hin & Hdate & _). apply assignments_of_in in Hin.
    destruct Hin as (s & prov & Hin & ->). cbn in Hdate. subst s.
    exact (Hnone prov Hin).
Qed.

Lemma generate_fills_or_reports_witness :
  exists resp st' new,
    generate_schedule (Some (Sample.store_AB (Some "X")))
      (Sample.mk_request Sample.jan1 Sample.jan2)
    = (Returned resp, Some st')
    /\ assign_col st' = (assign_col (Sample.store_AB (Some "X")) ++ new)%list
    /\ ((machine_generated_for new "S"
           (PyDate.str_of_ordinal (PyDate.toordinal Sample.jan2))
         /\ count_mentions (PyDate.str_of_ordinal (PyDate.toordinal Sample.jan2))
              (GenerateResponse.conflicts resp) <> 1%nat)
        \/ (count_mentions (PyDate.str_of_ordinal (PyDate.toordinal Sample.jan2))
              (GenerateResponse.conflicts resp) = 1%nat
            /\ ~ machine_generated_for new "S"
                  (PyDate.str_of_ordinal (PyDate.toordinal Sample.jan2)))).
Proof.
  apply (generate_fills_or_reports (Sample.store_AB (Some "X"))
           (Sample.mk_request Sample.jan1 Sample.jan2)
           (Sample.mk_shift "s1" "REG" "S" (Some "X"))
           (PyDate.toordinal Sample.jan2)).
  - discriminate.
  - reflexivity.
  - split; vm_compute; intuition discriminate.
  - vm_compute. intuition discriminate.
Defined.

(** C3.  With exactly one regular shift type, a provider, and a start
    date not after the end date, the run returns, and its created count
    plus the number of its conflicts is the number of days of the inclusive
    range, [end_date.toordinal() - start_date.toordinal() + 1]. *)
Theorem generate_accounts_for_every_day (st : Store) (req : GenerateRequest.t)
    (shift0 : ShiftType.t) :
  provider_col st <> [] ->
  regular_shifts st = [shift0] ->
  valid_request req ->
  PyDate.date_le (GenerateRequest.start_date req) (GenerateRequest.end_date req)
  = true ->
  exists resp st',
    generate_schedule (Some st) req = (Returned resp, Some st')
    /\ Z.of_nat (GenerateResponse.created resp
                 + List.length (GenerateResponse.conflicts resp))
       = PyDate.toordinal (GenerateRequest.end_date req)
         - PyDate.toordinal (GenerateRequest.start_date req) + 1.
Proof.
  intros Hp Hs [Vs Ve] Hle.
  apply PyDateFacts.date_le_iff in Hle; trivial.
  destruct (provider_col st) as [| prov0 rest] eqn:Hpc; [congruence |].
  rewrite <- Hpc in *.
  destruct (generate_schedule_single st req prov0 rest shift0 Hpc Hs)
    as (tr & col' & p' & _ & Hd & Heq).
  eexists _, _. split; [exact Heq |].
  cbn [GenerateResponse.created GenerateResponse.conflicts].
  rewrite outcomes_counted.
  rewrite <- (length_map outcome_date), Hd, length_map, days_of_length.
  unfold day_count, timedelta_days. lia.
Qed.

Lemma generate_accounts_for_every_day_witness :
  exists resp st',
    generate_schedule (Some (Sample.store_AB (Some "X")))
      (Sample.mk_request Sample.jan1 Sample.jan2)
    = (Returned resp, Some st')
    /\ Z.of_nat (GenerateResponse.created resp
                 + List.length (GenerateResponse.conflicts resp))
       = PyDate.toordinal Sample.jan2 - PyDate.toordinal Sample.jan1 + 1.
Proof.
  apply (generate_accounts_for_every_day (Sample.store_AB (Some "X"))
           (Sample.mk_request Sample.jan1 Sample.jan2)
           (Sample.mk_shift "s1" "REG" "S" (Some "X"))).
  - discriminate.
  - reflexivity.
  - split; vm_compute; intuition discriminate.
  - reflexivity.
Defined.

(** C4.  Without a provider, or without a shift type named REG, the run
    raises the configuration error (status 400) and the store is the one
    it started from: nothing is created and no conflict is reported. *)
Theorem generate_configuration_error (st : Store) (req : GenerateRequest.t) :
  provider_col st = [] \/ regular_shifts st = [] ->
  generate_schedule (Some st) req = (Raised config_error, Some st).
Proof.
  intros H. unfold generate_schedule. rewrite find_all_true.
  destruct H as [Hp | Hs].
  - rewrite Hp. reflexivity.
  - rewrite Hs. destruct (provider_col st); reflexivity.
Qed.

Lemma generate_configuration_error_witness :
  (provider_col (with_assignments Sample.empty_store [Sample.human "A" "2024-01-01"])
   = []
   \/ regular_shifts
        (with_assignments Sample.empty_store [Sample.human "A" "2024-01-01"])
      = [])
  /\ generate_schedule
       (Some (with_assignments Sample.empty_store [Sample.human "A" "2024-01-01"]))
       (Sample.mk_request Sample.jan1 Sample.jan2)
     = (Raised config_error,
        Some (with_assignments Sample.empty_store [Sample.human "A" "2024-01-01"])).
Proof.
  split; [left; reflexivity |].
  apply (generate_configuration_error
           (with_assignments Sample.empty_store [Sample.human "A" "2024-01-01"])).
  left. reflexivity.
Defined.

(** C5 (as amended).  When the selected regular shift type requires a
    qualification that is not the empty string, every assignment the run
    persists references a provider who holds it, and no assignment
    references an identifier whose providers all lack it.  When the
    selected shift requires none ([None], or the empty string, which the
    handler reads as unset), the qualification check passes for every
    provider: a provider is eligible exactly when not booked that day. *)
Theorem generate_respects_qualification (st : Store) (req : GenerateRequest.t)
    (shift0 : ShiftType.t) (regs : list ShiftType.t) :
  regular_shifts st = shift0 :: regs ->
  exists r st' new,
    generate_schedule (Some st) req = (r, Some st')
    /\ assign_col st' = (assign_col st ++ new)%list
    /\ match qualification_in_force (ShiftType.requires_qualification shift0)
       with
       | Some q =>
           qualified_only st q new
           /\ (forall pid,
                 (forall prov, In prov (provider_col st) ->
                               Provider.id prov = pid ->
                               ~ In q (Provider.qualifications prov)) ->
                 forall a, In a new -> Assignment.provider_id a <> pid)
       | None =>
           forall prov col day_date,
             lacks_qualification (ShiftType.requires_qualification shift0) prov
             = false
             /\ is_eligible (ShiftType.requires_qualification shift0)
                  col prov day_date
                = negb (booked col (Provider.id prov) day_date)
       end.
Proof.
  intros Hs.
  assert (Hq : forall q,
             qualification_in_force (ShiftType.requires_qualification shift0)
             = Some q ->
             forall prov,
               lacks_qualification (ShiftType.requires_qualification shift0) prov
               = false ->
               In q (Provider.qualifications prov)).
  { intros q Hf prov Hl. unfold qualification_in_force in Hf.
    unfold lacks_qualification in Hl.
    destruct (ShiftType.requires_qualification shift0) as [q' |];
      [| discriminate].
    destruct (q' =? EmptyString)%string; [discriminate |].
    injection Hf as ->. cbn in Hl. apply negb_false_iff in Hl.
    apply existsb_exists in Hl. destruct Hl as (x & Hx & Heq).
    apply String.eqb_eq in Heq. subst x. exact Hx. }
  assert (Hnone : qualification_in_force
                    (ShiftType.requires_qualification shift0) = None ->
                  forall prov,
                    lacks_qualification
                      (ShiftType.requires_qualification shift0) prov = false).
  { intros Hf prov. unfold qualification_in_force in Hf.
    unfold lacks_qualification.
    destruct (ShiftType.requires_qualification shift0) as [q' |];
      [| reflexivity].
    destruct (q' =? EmptyString)%string; [reflexivity | discriminate]. }
  destruct (provider_col st) as [| prov0 rest] eqn:Hp.
  - exists (Raised config_error), st, []. split; [| split].
    + unfold generate_schedule. rewrite find_all_true, Hp. reflexivity.
    + rewrite app_nil_r. reflexivity.
    + destruct (qualification_in_force _) as [q |] eqn:Hf.
      * split; [intros a [] | intros pid _ a []].
      * intros prov col day_date. unfold is_eligible.
        rewrite (Hnone eq_refl prov), andb_true_r. auto.
  - destruct (generate_schedule_run st req prov0 rest shift0 regs Hp Hs)
      as (tr & col' & p' & Ha & _ & Heq).
    rewrite <- Hp in *.
    eexists _, _, (assignments_of (ShiftType.site shift0) tr).
    split; [exact Heq |].
    split; [cbn; apply (allocates_assignments _ _ _ _ _ _ _ _ _ Ha) |].
    destruct (qualification_in_force _) as [q |] eqn:Hf.
    + assert (Hall : qualified_only st q
                       (assignments_of (ShiftType.site shift0) tr)).
      { intros a Hin. apply assignments_of_in in Hin.
        destruct Hin as (d & prov & Hin & ->).
        destruct (allocates_qualified _ _ _ _ _ _ _ _ _ _ _ Ha Hin)
          as [Hprov Hl].
        exists prov. split; [exact Hprov |]. split; [reflexivity |].
        exact (Hq q eq_refl prov Hl). }
      split; [exact Hall |].
      intros pid Hlack a Hin Heqid.
      destruct (Hall a Hin) as (prov & Hprov & Hid & Hhas).
      apply (Hlack prov Hprov); [congruence | exact Hhas].
    + intros prov col day_date. unfold is_eligible.
      rewrite (Hnone eq_refl prov), andb_true_r. auto.
Qed.

Lemma generate_respects_qualification_witness :
  exists r st' new,
    generate_schedule (Some (Sample.store_AB (Some "X")))
      (Sample.mk_request Sample.jan1 Sample.jan2)
    = (r, Some st')
    /\ assign_col st' = (assign_col (Sample.store_AB (Some "X")) ++ new)%list
    /\ qualified_only (Sample.store_AB (Some "X")) "X" new
    /\ (forall pid,
          (forall prov, In prov (provider_col (Sample.store_AB (Some "X"))) ->
                        Provider.id prov = pid ->
                        ~ In "X" (Provider.qualifications prov)) ->
          forall a, In a new -> Assignment.provider_id a <> pid).
Proof.
  exact (generate_respects_qualification (Sample.store_AB (Some "X"))
           (Sample.mk_request Sample.jan1 Sample.jan2)
           (Sample.mk_shift "s1" "REG" "S" (Some "X")) [] eq_refl).
Defined.

(** C5, as first stated, fails on a shift whose required qualification is
    the empty string: the only provider, [B], holds no qualification at
    all and is assigned nevertheless. *)
Lemma empty_qualification_is_not_enforced :
  let st := Sample.store_blank_qualification in
  let new := [Sample.machine "B" "2024-01-01"] in
  map ShiftType.requires_qualification (regular_shifts st) = [Some EmptyString]
  /\ generate_schedule (Some st) (Sample.mk_request Sample.jan1 Sample.jan1)
     = (Returned {| GenerateResponse.created := 1;
                    GenerateResponse.conflicts := [] |},
        Some (with_assignments st new))
  /\ ~ qualified_only st EmptyString new.
Proof.
  cbv zeta. split; [reflexivity |]. split; [vm_compute; reflexivity |].
  intros H.
  destruct (H (Sample.machine "B" "2024-01-01")) as (prov & Hin & _ & Hq).
  - left. reflexivity.
  - destruct Hin as [<- | []]. destruct Hq.
Qed.

(** C6.  The run keeps one rotation cursor.  Its slots, in the order of
    the days, are an allocation [allocates] that starts from the cursor 0
    over the stored assignments: each slot draws the candidates
    [providers[p mod providerCount]], [providers[(p + 1) mod providerCount]],
    ..., takes the first eligible one or gives up after [providerCount]
    draws, and hands the cursor it reached to the next slot, on the same
    day or the next one.  So each slot moves the cursor by at least one and
    at most [providerCount]. *)
Theorem generate_rotation_cursor (st : Store) (req : GenerateRequest.t)
    (prov0 : Provider.t) (rest : list Provider.t)
    (shift0 : ShiftType.t) (regs : list ShiftType.t) :
  provider_col st = prov0 :: rest ->
  regular_shifts st = shift0 :: regs ->
  exists tr col' p',
    allocates (provider_col st) prov0 (ShiftType.site shift0)
      (ShiftType.requires_qualification shift0) (assign_col st) 0 tr col' p'
    /\ map outcome_date tr
       = flat_map
           (fun i =>
              repeat (PyDate.str_of_ordinal
                        (PyDate.toordinal (GenerateRequest.start_date req) + i))
                     (Nat.min (List.length (provider_col st))
                              (List.length (shift0 :: regs))))
           (range (day_count req))
    /\ generate_schedule (Some st) req
       = (Returned {| GenerateResponse.created := filled_count tr;
                      GenerateResponse.conflicts := conflicts_of tr |},
          Some (with_assignments st col'))
    /\ (List.length tr <= p'
        /\ p' <= List.length (provider_col st) * List.length tr)%nat.
Proof.
  intros Hp Hs.
  destruct (generate_schedule_run st req prov0 rest shift0 regs Hp Hs)
    as (tr & col' & p' & Ha & Hd & Heq).
  exists tr, col', p'. repeat split; trivial;
    apply (allocates_cursor _ _ _ _ _ _ _ _ _) in Ha;
    try (rewrite Hp; discriminate); lia.
Qed.

Lemma generate_rotation_cursor_witness :
  exists tr col' p',
    allocates (provider_col (Sample.store_AB None)) Sample.A "S" None
      (assign_col (Sample.store_AB None)) 0 tr col' p'
    /\ map outcome_date tr
       = flat_map
           (fun i =>
              repeat (PyDate.str_of_ordinal (PyDate.toordinal Sample.jan1 + i))
                     (Nat.min (List.length (provider_col (Sample.store_AB None)))
                              (List.length [Sample.mk_shift "s1" "REG" "S" None])))
           (range (day_count (Sample.mk_request Sample.jan1 Sample.jan2)))
    /\ generate_schedule (Some (Sample.store_AB None))
         (Sample.mk_request Sample.jan1 Sample.jan2)
       = (Returned {| GenerateResponse.created := filled_count tr;
                      GenerateResponse.conflicts := conflicts_of tr |},
          Some (with_assignments (Sample.store_AB None) col'))
    /\ (List.length tr <= p'
        /\ p' <= List.length (provider_col (Sample.store_AB None))
                 * List.length tr)%nat.
Proof.
  exact (generate_rotation_cursor (Sample.store_AB None)
           (Sample.mk_request Sample.jan1 Sample.jan2)
           Sample.A [Sample.B] (Sample.mk_shift "s1" "REG" "S" None) []
           eq_refl eq_refl).
Defined.

(** The cursor on sample data: the shift requires ["X"], which [B] lacks.
    The first day takes [A] at the cursor 0; the second day starts at the
    cursor 1, passes [B] and takes [A] at the cursor 2. *)
Example rotation_on_sample :
  allocates [Sample.A; Sample.B] Sample.A "S" (Some "X") [] 0
    [Filled "2024-01-01" Sample.A; Filled "2024-01-02" Sample.A]
    [Sample.machine "A" "2024-01-01"; Sample.machine "A" "2024-01-02"] 3.
Proof.
  apply (alloc_filled [Sample.A; Sample.B] Sample.A "S" (Some "X")
           [] 0 "2024-01-01" 0).
  - cbn. lia.
  - intros j Hj. lia.
  - reflexivity.
  - apply (alloc_filled [Sample.A; Sample.B] Sample.A "S" (Some "X")
             [Sample.machine "A" "2024-01-01"] 1 "2024-01-02" 1).
    + cbn. lia.
    + intros j Hj. assert (j = 0)%nat as -> by lia. reflexivity.
    + reflexivity.
    + apply alloc_done.
Qed.

(** C7 (as amended).  Every conflict entry is the string
    ["No eligible provider for "] followed by the ISO date of a day of the
    range, and the entries are in the order of the days.  There is one
    entry for each slot left unfilled: with exactly one regular shift type
    each day has one slot, so the days of the entries are strictly
    increasing, and they are the days for which no provider is eligible
    in the store the run starts from. *)
Theorem conflicts_form_and_order (st : Store) (req : GenerateRequest.t) :
  provider_col st <> [] ->
  regular_shifts st <> [] ->
  valid_request req ->
  exists resp st' ds,
    generate_schedule (Some st) req = (Returned resp, Some st')
    /\ GenerateResponse.conflicts resp
       = map (fun d => ("No eligible provider for "
                        ++ PyDate.str_of_ordinal d)%string) ds
    /\ (forall d, In d ds -> in_range req d)
    /\ StronglySorted Z.le ds
    /\ (forall shift0, regular_shifts st = [shift0] ->
          StronglySorted Z.lt ds
          /\ forall d, in_range req d ->
               (In d ds <->
                forall prov, In prov (provider_col st) ->
                  is_eligible (ShiftType.requires_qualification shift0)
                    (assign_col st) prov (PyDate.str_of_ordinal d) = false)).
Proof.
  intros Hp Hs Hv.
  destruct (provider_col st) as [| prov0 rest] eqn:Hpc; [congruence |].
  destruct (regular_shifts st) as [| shift0 regs] eqn:Hrs; [congruence |].
  rewrite <- Hpc in *.
  destruct (generate_schedule_run st req prov0 rest shift0 regs Hpc Hrs)
    as (tr & col' & p' & Ha & Hdays & Heq).
  rewrite repeat_days_strings in Hdays. fold (days_of req) in Hdays.
  set (n := Nat.min _ _) in Hdays.
  destruct (conflicts_days tr _ Hdays) as (ds & Hc & Hin & Hun & Hsorted).
  exists {| GenerateResponse.created := filled_count tr;
            GenerateResponse.conflicts := conflicts_of tr |},
    (with_assignments st col'), ds.
  split; [exact Heq |]. split; [exact Hc |]. split; [| split].
  - intros d Hd. destruct (Hin d Hd) as [Hall _].
    apply in_flat_map in Hall. destruct Hall as (x & Hx & Hr).
    apply repeat_spec in Hr. subst d. apply days_of_in. exact Hx.
  - apply Hsorted. apply repeat_days_sorted. apply days_of_sorted.
  - intros shift1 Hone. injection Hone as <- ->.
    assert (Hn : n = 1%nat) by (subst n; rewrite Hpc; cbn [List.length]; lia).
    rewrite Hn in *. clear Hn n.
    assert (Hflat : flat_map (fun d => repeat d 1) (days_of req) = days_of req).
    { rewrite (flat_map_repeat_1 (fun d => d)). apply map_id. }
    rewrite Hflat in *.
    split; [apply Hsorted; apply days_of_sorted |].
    intros d Hd.
    destruct (single_trace_day _ _ _ _ _ _ _ _ _ req d Ha Hdays Hv Hd)
      as [(prov & Hprov & He & _ & Hnot & _) | (Hall & Hthere & _)].
    + split.
      * intros Hds. destruct (Hin d Hds) as [_ Hu]. contradiction.
      * intros Hnone. rewrite (Hnone prov Hprov) in He. discriminate.
    + split; [intros _; exact Hall |].
      intros _. destruct (Hun _ Hthere) as (d' & Hd' & Hstr).
      apply PyDateFacts.str_of_ordinal_inj in Hstr.
      * subst d'. exact Hd'.
      * apply (days_of_valid req); [exact Hv | exact (proj1 (Hin d' Hd'))].
      * apply (days_of_valid req); [exact Hv | apply days_of_in; exact Hd].
Qed.

Lemma conflicts_form_and_order_witness :
  exists resp st' ds,
    generate_schedule (Some Sample.store_A_taken)
      (Sample.mk_request Sample.jan1 Sample.jan2)
    = (Returned resp, Some st')
    /\ GenerateResponse.conflicts resp
       = map (fun d => ("No eligible provider for "
                        ++ PyDate.str_of_ordinal d)%string) ds
    /\ (forall d, In d ds ->
                  in_range (Sample.mk_request Sample.jan1 Sample.jan2) d)
    /\ StronglySorted Z.le ds
    /\ (forall shift0, regular_shifts Sample.store_A_taken = [shift0] ->
          StronglySorted Z.lt ds
          /\ forall d, in_range (Sample.mk_request Sample.jan1 Sample.jan2) d ->
               (In d ds <->
                forall prov, In prov (provider_col Sample.store_A_taken) ->
                  is_eligible (ShiftType.requires_qualification shift0)
                    (assign_col Sample.store_A_taken) prov
                    (PyDate.str_of_ordinal d) = false)).
Proof.
  apply (conflicts_form_and_order Sample.store_A_taken
           (Sample.mk_request Sample.jan1 Sample.jan2)).
  - discriminate.
  - discriminate.
  - split; vm_compute; intuition discriminate.
Defined.

Example run_A_taken :
  generate_schedule (Some Sample.store_A_taken)
    (Sample.mk_request Sample.jan1 Sample.jan2)
  = (Returned {| GenerateResponse.created := 1;
                 GenerateResponse.conflicts :=
                   ["No eligible provider for 2024-01-01"] |},
     Some (with_assignments Sample.store_A_taken
             [Sample.human "A" "2024-01-01"; Sample.machine "A" "2024-01-02"])).
Proof. vm_compute. reflexivity. Qed.

(** C7, as first stated, fails twice on a store with two regular shift
    types whose providers are both taken on the day: the entries start
    with a capital letter, so none has the form ["no eligible provider for
    <date>"], and the one day gets two entries, one for each slot. *)
Lemma conflicts_are_capitalised_and_per_slot :
  generate_schedule (Some Sample.store_two_shifts)
    (Sample.mk_request Sample.jan1 Sample.jan1)
  = (Returned {| GenerateResponse.created := 0;
                 GenerateResponse.conflicts :=
                   ["No eligible provider for 2024-01-01";
                    "No eligible provider for 2024-01-01"] |},
     Some Sample.store_two_shifts)
  /\ (forall day_date : string,
        "No eligible provider for 2024-01-01"
        <> ("no eligible provider for " ++ day_date)%string).
Proof.
  split; [vm_compute; reflexivity |].
  intros day_date. cbn [String.append]. discriminate.
Qed.

(** C8 (as amended).  A second run over the same range does not conflict
    on every day the first run filled.  With exactly one regular shift
    type, the second run reports a conflict for a day of the range exactly
    when, in the store the first run left, every provider is booked on
    that day or lacks the required qualification; otherwise it books a
    provider who is still eligible that day, and reports no conflict for
    it.  With a single provider, every day the first run filled does
    conflict on the second run. *)
Theorem second_run_day (st : Store) (req : GenerateRequest.t)
    (shift0 : ShiftType.t) (d : Z) :
  provider_col st <> [] ->
  regular_shifts st = [shift0] ->
  valid_request req ->
  in_range req d ->
  exists r1 st1 new1 r2 st2 new2,
    generate_schedule (Some st) req = (Returned r1, Some st1)
    /\ assign_col st1 = (assign_col st ++ new1)%list
    /\ generate_schedule (Some st1) req = (Returned r2, Some st2)
    /\ assign_col st2 = (assign_col st1 ++ new2)%list
    /\ (((forall prov, In prov (provider_col st) ->
            is_eligible (ShiftType.requires_qualification shift0)
              (assign_col st1) prov (PyDate.str_of_ordinal d) = false)
         /\ count_mentions (PyDate.str_of_ordinal d)
              (GenerateResponse.conflicts r2) = 1%nat
         /\ ~ machine_generated_for new2 (ShiftType.site shift0)
                (PyDate.str_of_ordinal d))
        \/ (exists prov,
              In prov (provider_col st)
              /\ is_eligible (ShiftType.requires_qualification shift0)
                   (assign_col st1) prov (PyDate.str_of_ordinal d) = true
              /\ In (new_assignment (ShiftType.site shift0) prov
                       (PyDate.str_of_ordinal d)) new2
              /\ count_mentions (PyDate.str_of_ordinal d)
                   (GenerateResponse.conflicts r2) = 0%nat))
    /\ (forall prov0, provider_col st = [prov0] ->
          machine_generated_for new1 (ShiftType.site shift0)
            (PyDate.str_of_ordinal d) ->
          count_mentions (PyDate.str_of_ordinal d)
            (GenerateResponse.conflicts r2) = 1%nat).
Proof.
  intros Hp Hs Hv Hd.
  destruct (provider_col st) as [| prov0 rest] eqn:Hpc; [congruence |].
  rewrite <- Hpc in *.
  destruct (generate_schedule_single st req prov0 rest shift0 Hpc Hs)
    as (tr1 & col1 & q1 & Ha1 & Hdays1 & Heq1).
  set (st1 := with_assignments st col1) in *.
  assert (Hpc1 : provider_col st1 = prov0 :: rest) by exact Hpc.
  assert (Hs1 : regular_shifts st1 = [shift0]) by exact Hs.
  destruct (generate_schedule_single st1 req prov0 rest shift0 Hpc1 Hs1)
    as (tr2 & col2 & q2 & Ha2 & Hdays2 & Heq2).
  change (provider_col st1) with (provider_col st) in Ha2.
  change (assign_col st1) with col1 in Ha2.
  exists {| GenerateResponse.created := filled_count tr1;
            GenerateResponse.conflicts := conflicts_of tr1 |}, st1,
    (assignments_of (ShiftType.site shift0) tr1),
    {| GenerateResponse.created := filled_count tr2;
       GenerateResponse.conflicts := conflicts_of tr2 |},
    (with_assignments st1 col2),
    (assignments_of (ShiftType.site shift0) tr2).
  split; [exact Heq1 |].
  split; [cbn; apply (allocates_assignments _ _ _ _ _ _ _ _ _ Ha1) |].
  split; [exact Heq2 |].
  split; [cbn; apply (allocates_assignments _ _ _ _ _ _ _ _ _ Ha2) |].
  cbn [GenerateResponse.conflicts]. change (assign_col st1) with col1.
  pose proof (single_trace_day _ _ _ _ _ _ _ _ _ req d Ha2 Hdays2 Hv Hd)
    as Hday.
  split.
  - destruct Hday as [(prov & Hprov & He & Hin & _ & Hc)
                     | (Hall & _ & Hnone & Hc)].
    + right. exists prov. split; [exact Hprov |]. split; [exact He |].
      split; [| exact Hc].
      apply assignments_of_in. exists (PyDate.str_of_ordinal d), prov. auto.
    + left. split; [exact Hall |]. split; [exact Hc |].
      intros (a & Hin & Hdate & _). apply assignments_of_in in Hin.
      destruct Hin as (s & prov & Hin & ->). cbn in Hdate. subst s.
      exact (Hnone prov Hin).
  - intros prov1 Hone (a & Hin & Hdate & _).
    destruct Hday as [(prov & Hprov & He & _) | (_ & _ & _ & Hc)];
      [| exact Hc].
    exfalso. apply assignments_of_in in Hin.
    destruct Hin as (s & prov' & Hin & ->). cbn in Hdate. subst s.
    destruct (allocates_qualified _ _ _ _ _ _ _ _ _ _ _ Ha1 Hin) as [Hprov' _].
    rewrite Hone in Hprov, Hprov'.
    destruct Hprov as [<- | []]. destruct Hprov' as [<- | []].
    unfold is_eligible in He. apply andb_prop in He. destruct He as [Hb _].
    apply negb_true_iff in Hb.
    assert (Hbooked : booked col1 (Provider.id prov1) (PyDate.str_of_ordinal d)
                      = true).
    { apply booked_iff. rewrite (allocates_assignments _ _ _ _ _ _ _ _ _ Ha1).
      rewrite map_app. apply in_or_app. right.
      apply in_map_iff.
      exists (new_assignment (ShiftType.site shift0) prov1
                (PyDate.str_of_ordinal d)).
      split; [reflexivity |].
      apply assignments_of_in. exists (PyDate.str_of_ordinal d), prov1. auto. }
    congruence.
Qed.

Lemma second_run_day_witness :
  exists r1 st1 new1 r2 st2 new2,
    generate_schedule (Some (Sample.store_AB None))
      (Sample.mk_request Sample.jan1 Sample.jan2)
    = (Returned r1, Some st1)
    /\ assign_col st1 = (assign_col (Sample.store_AB None) ++ new1)%list
    /\ generate_schedule (Some st1) (Sample.mk_request Sample.jan1 Sample.jan2)
       = (Returned r2, Some st2)
    /\ assign_col st2 = (assign_col st1 ++ new2)%list
    /\ (((forall prov, In prov (provider_col (Sample.store_AB None)) ->
            is_eligible None (assign_col st1) prov
              (PyDate.str_of_ordinal (PyDate.toordinal Sample.jan1)) = false)
         /\ count_mentions (PyDate.str_of_ordinal (PyDate.toordinal Sample.jan1))
              (GenerateResponse.conflicts r2) = 1%nat
         /\ ~ machine_generated_for new2 "S"
                (PyDate.str_of_ordinal (PyDate.toordinal Sample.jan1)))
        \/ (exists prov,
              In prov (provider_col (Sample.store_AB None))
              /\ is_eligible None (assign_col st1) prov
                   (PyDate.str_of_ordinal (PyDate.toordinal Sample.jan1)) = true
              /\ In (new_assignment "S" prov
                       (PyDate.str_of_ordinal (PyDate.toordinal Sample.jan1)))
                    new2
              /\ count_mentions
                   (PyDate.str_of_ordinal (PyDate.toordinal Sample.jan1))
                   (GenerateResponse.conflicts r2) = 0%nat))
    /\ (forall prov0, provider_col (Sample.store_AB None) = [prov0] ->
          machine_generated_for new1 "S"
            (PyDate.str_of_ordinal (PyDate.toordinal Sample.jan1)) ->
          count_mentions (PyDate.str_of_ordinal (PyDate.toordinal Sample.jan1))
            (GenerateResponse.conflicts r2) = 1%nat).
Proof.
  apply (second_run_day (Sample.store_AB None)
           (Sample.mk_request Sample.jan1 Sample.jan2)
           (Sample.mk_shift "s1" "REG" "S" None)
           (PyDate.toordinal Sample.jan1)).
  - discriminate.
  - reflexivity.
  - split; vm_compute; intuition discriminate.
  - vm_compute. intuition discriminate.
Defined.

(** C8, as first stated, fails with two providers: the first run gives
    2024-01-01 to [A]; the second run over the same day finds [A] taken,
    gives the day to [B], and reports no conflict for it. *)
Lemma second_run_books_another_provider :
  let st := Sample.store_AB None in
  let req := Sample.mk_request Sample.jan1 Sample.jan1 in
  let st1 := with_assignments st [Sample.machine "A" "2024-01-01"] in
  generate_schedule (Some st) req
  = (Returned {| GenerateResponse.created := 1;
                 GenerateResponse.conflicts := [] |}, Some st1)
  /\ machine_generated_for [Sample.machine "A" "2024-01-01"] "S" "2024-01-01"
  /\ ~ (exists r2 st2,
          generate_schedule (Some st1) req = (Returned r2, Some st2)
          /\ (1 <= count_mentions "2024-01-01"
                     (GenerateResponse.conflicts r2))%nat).
Proof.
  cbv zeta. split; [vm_compute; reflexivity |]. split.
  - exists (Sample.machine "A" "2024-01-01"). repeat split. left. reflexivity.
  - intros (r2 & st2 & Hrun & Hc).
    assert (Hr : generate_schedule
                   (Some (with_assignments (Sample.store_AB None)
                            [Sample.machine "A" "2024-01-01"]))
                   (Sample.mk_request Sample.jan1 Sample.jan1)
                 = (Returned {| GenerateResponse.created := 1;
                                GenerateResponse.conflicts := [] |},
                    Some (with_assignments (Sample.store_AB None)
                            [Sample.machine "A" "2024-01-01";
                             Sample.machine "B" "2024-01-01"])))
      by (vm_compute; reflexivity).
    rewrite Hr in Hrun. injection Hrun as <- _. cbn in Hc. lia.
Qed.


Example create_provider_twice :
  let db1 := snd (create_provider (Some Sample.empty_store) Sample.A) in
  db1 = Some {| provider_col := [Sample.A]; shift_col := []; assign_col := [] |}
  /\ create_provider db1 Sample.A
     = (Raised {| status_code := 400; detail := "Provider already exists" |},
        db1).
Proof. cbv zeta. split; reflexivity. Qed.


(** C10.  When the end date is strictly before the start date the day
    count [(end_date - start_date).days + 1] is not positive, the date loop
    does not run, and with a provider and a regular shift type the run
    returns [created = 0] and no conflict, and leaves the store as it
    was. *)
Theorem generate_reversed_range (st : Store) (req : GenerateRequest.t) :
  provider_col st <> [] ->
  regular_shifts st <> [] ->
  valid_request req ->
  PyDate.date_lt (GenerateRequest.end_date req) (GenerateRequest.start_date req)
  = true ->
  day_count req <= 0
  /\ generate_schedule (Some st) req
     = (Returned {| GenerateResponse.created := 0;
                    GenerateResponse.conflicts := [] |}, Some st).
Proof.
  intros Hp Hs [Vs Ve] Hlt.
  apply PyDateFacts.toordinal_lt in Hlt; trivial.
  assert (Hd : day_count req <= 0) by (unfold day_count, timedelta_days; lia).
  split; [exact Hd |].
  unfold generate_schedule. rewrite find_all_true.
  destruct (provider_col st) as [| prov0 rest]; [congruence |].
  destruct (regular_shifts st) as [| shift0 regs]; [congruence |].
  fold (day_count req). rewrite (range_nonpos _ Hd).
  cbn [fold_left assignments created conflicts].
  rewrite with_assignments_same. reflexivity.
Qed.

Lemma generate_reversed_range_witness :
  day_count (Sample.mk_request Sample.jan2 Sample.jan1) <= 0
  /\ generate_schedule (Some (Sample.store_AB None))
       (Sample.mk_request Sample.jan2 Sample.jan1)
     = (Returned {| GenerateResponse.created := 0;
                    GenerateResponse.conflicts := [] |},
        Some (Sample.store_AB None)).
Proof.
  apply (generate_reversed_range (Sample.store_AB None)
           (Sample.mk_request Sample.jan2 Sample.jan1)).
  - discriminate.
  - discriminate.
  - split; vm_compute; intuition discriminate.
  - reflexivity.
Defined.

(** * Further properties of the handlers *)

(** ** What a run writes *)

Lemma generate_schedule_appends_error (st : Store) (req : GenerateRequest.t) :
  provider_col st = [] \/ regular_shifts st = [] ->
  generate_schedule (Some st) req = (Raised config_error, Some st).
Proof.
  intros H. unfold generate_schedule. rewrite find_all_true.
  destruct H as [Hp | Hs].
  - rewrite Hp. reflexivity.
  - rewrite Hs. destruct (provider_col st); reflexivity.
Qed.

(** A store either lacks a provider or a regular shift type, or has a
    first of each. *)
Lemma run_or_error (st : Store) :
  (provider_col st = [] \/ regular_shifts st = [])
  \/ exists prov0 rest shift0 regs,
       provider_col st = prov0 :: rest /\ regular_shifts st = shift0 :: regs.
Proof.
  destruct (provider_col st) as [| prov0 rest]; [left; left; reflexivity |].
  destruct (regular_shifts st) as [| shift0 regs]; [left; right; reflexivity |].
  right. exists prov0, rest, shift0, regs. split; reflexivity.
Qed.

Lemma assignments_of_length (site : string) (tr : list outcome) :
  List.length (assignments_of site tr) = filled_count tr.
Proof.
  unfold assignments_of, filled_count.
  induction tr as [| [d prov | d] tr IH]; cbn in *; lia.
Qed.

Lemma flat_map_repeat_length {A B : Type} (f : A -> B) (n : nat) (l : list A) :
  List.length (flat_map (fun x => repeat (f x) n) l) = (n * List.length l)%nat.
Proof.
  induction l as [| a l IH]; cbn [flat_map List.length]; [lia |].
  rewrite length_app, repeat_length, IH. lia.
Qed.

Lemma range_length (n : Z) : List.length (range n) = Z.to_nat n.
Proof. unfold range. rewrite length_map, length_seq. reflexivity. Qed.

(** The slots of a run are on days of the requested range. *)
Lemma run_dates_in_range (req : GenerateRequest.t) (n : nat)
    (tr : list outcome) (o : outcome) :
  map outcome_date tr
  = flat_map
      (fun i =>
         repeat (PyDate.str_of_ordinal
                   (PyDate.toordinal (GenerateRequest.start_date req) + i)) n)
      (range (day_count req)) ->
  In o tr ->
  exists d, in_range req d /\ outcome_date o = PyDate.str_of_ordinal d.
Proof.
  intros Hmap Hin. apply (in_map outcome_date) in Hin. rewrite Hmap in Hin.
  apply in_flat_map in Hin. destruct Hin as (i & Hi & Hr).
  apply repeat_spec in Hr.
  exists (PyDate.toordinal (GenerateRequest.start_date req) + i).
  split; [| exact Hr].
  apply days_of_in. unfold days_of. apply in_map_iff. exists i. auto.
Qed.

(** X1.  The count [created] that a run returns is the number of
    assignment documents the run added to the store; a run that raises
    adds none.  Either way the run leaves the provider and the shift-type
    collections as they were and keeps the stored assignments, in their
    order, before the ones it adds. *)
Theorem created_counts_new_assignments (st : Store) (req : GenerateRequest.t) :
  exists r st' new,
    generate_schedule (Some st) req = (r, Some st')
    /\ provider_col st' = provider_col st
    /\ shift_col st' = shift_col st
    /\ assign_col st' = (assign_col st ++ new)%list
    /\ match r with
       | Returned resp => GenerateResponse.created resp = List.length new
       | Raised e => e = config_error /\ new = []
       end.
Proof.
  destruct (run_or_error st) as [Herr | (prov0 & rest & shift0 & regs & Hp & Hs)].
  - exists (Raised config_error), st, [].
    rewrite app_nil_r. repeat split; trivial.
    apply generate_schedule_appends_error. exact Herr.
  - destruct (generate_schedule_run st req prov0 rest shift0 regs Hp Hs)
      as (tr & col' & p' & Ha & _ & Heq).
    exists (Returned {| GenerateResponse.created := filled_count tr;
                        GenerateResponse.conflicts := conflicts_of tr |}),
      (with_assignments st col'), (assignments_of (ShiftType.site shift0) tr).
    split; [exact Heq |].
    cbn [with_assignments provider_col shift_col assign_col].
    split; [reflexivity |]. split; [reflexivity |].
    split; [apply (allocates_assignments _ _ _ _ _ _ _ _ _ Ha) |].
    cbn. symmetry. apply assignments_of_length.
Qed.

(** X2.  Every assignment that a run adds is for a provider of the store,
    on a day of the requested range (by its ISO string), of the shift type
    ["REG"], generated by ["AI"], without an auditor, and at the site of
    the first regular shift type, however many regular shift types there
    are. *)
Theorem generated_assignments_shape (st : Store) (req : GenerateRequest.t) :
  exists r st' new,
    generate_schedule (Some st) req = (r, Some st')
    /\ assign_col st' = (assign_col st ++ new)%list
    /\ forall a, In a new ->
         (exists prov, In prov (provider_col st)
                       /\ Assignment.provider_id a = Provider.id prov)
         /\ (exists d, in_range req d
                       /\ Assignment.date a = PyDate.str_of_ordinal d)
         /\ (exists shift0 regs, regular_shifts st = shift0 :: regs
                                 /\ Assignment.site a = ShiftType.site shift0)
         /\ Assignment.shift_type a = "REG"
         /\ Assignment.generated_by a = "AI"
         /\ Assignment.audited_by a = None.
Proof.
  destruct (run_or_error st) as [Herr | (prov0 & rest & shift0 & regs & Hp & Hs)].
  - exists (Raised config_error), st, [].
    rewrite app_nil_r. split; [| split; [reflexivity | intros a []]].
    apply generate_schedule_appends_error. exact Herr.
  - destruct (generate_schedule_run st req prov0 rest shift0 regs Hp Hs)
      as (tr & col' & p' & Ha & Hd & Heq).
    exists (Returned {| GenerateResponse.created := filled_count tr;
                        GenerateResponse.conflicts := conflicts_of tr |}),
      (with_assignments st col'), (assignments_of (ShiftType.site shift0) tr).
    split; [exact Heq |].
    split; [apply (allocates_assignments _ _ _ _ _ _ _ _ _ Ha) |].
    intros a Hin. apply assignments_of_in in Hin.
    destruct Hin as (s & prov & Hin & ->).
    destruct (allocates_qualified _ _ _ _ _ _ _ _ _ _ _ Ha Hin) as [Hprov _].
    destruct (run_dates_in_range req _ tr _ Hd Hin) as (d & Hr & Hs').
    split; [exists prov; split; [exact Hprov | reflexivity] |].
    split; [exists d; split; [exact Hr | exact Hs'] |].
    split; [exists shift0, regs; split; [exact Hs | reflexivity] |].
    repeat split.
Qed.

(** X3.  With a provider and a regular shift type the run returns, and
    its created count plus the number of its conflicts is the number of
    slots it went through: [min(len(providers), len(shifts))] for each day
    of the range, and none when the range is reversed. *)
Theorem generate_accounts_for_every_slot (st : Store) (req : GenerateRequest.t) :
  provider_col st <> [] ->
  regular_shifts st <> [] ->
  exists resp st',
    generate_schedule (Some st) req = (Returned resp, Some st')
    /\ Z.of_nat (GenerateResponse.created resp
                 + List.length (GenerateResponse.conflicts resp))
       = Z.max 0 (day_count req)
         * Z.of_nat (Nat.min (List.length (provider_col st))
                             (List.length (regular_shifts st))).
Proof.
  intros Hp Hs.
  destruct (run_or_error st)
    as [[Herr | Herr] | (prov0 & rest & shift0 & regs & Hp' & Hs')];
    [congruence | congruence |].
  destruct (generate_schedule_run st req prov0 rest shift0 regs Hp' Hs')
    as (tr & col' & p' & _ & Hd & Heq).
  eexists _, _. split; [exact Heq |].
  cbn [GenerateResponse.created GenerateResponse.conflicts].
  rewrite outcomes_counted, <- (length_map outcome_date), Hd.
  rewrite (flat_map_repeat_length
             (fun i => PyDate.str_of_ordinal
                         (PyDate.toordinal (GenerateRequest.start_date req) + i))).
  rewrite range_length, Hs'. lia.
Qed.

Lemma generate_accounts_for_every_slot_witness :
  exists resp st',
    generate_schedule (Some Sample.store_two_shifts)
      (Sample.mk_request Sample.jan1 Sample.jan2)
    = (Returned resp, Some st')
    /\ Z.of_nat (GenerateResponse.created resp
                 + List.length (GenerateResponse.conflicts resp))
       = Z.max 0 (day_count (Sample.mk_request Sample.jan1 Sample.jan2))
         * Z.of_nat (Nat.min (List.length (provider_col Sample.store_two_shifts))
                             (List.length (regular_shifts Sample.store_two_shifts))).
Proof.
  apply (generate_accounts_for_every_slot Sample.store_two_shifts
           (Sample.mk_request Sample.jan1 Sample.jan2)).
  - discriminate.
  - discriminate.
Defined.

(** ** Plain rotation *)

Lemma range_succ (k : nat) :
  range (Z.of_nat (S k)) = (range (Z.of_nat k) ++ [Z.of_nat k])%list.
Proof.
  unfold range. rewrite !Nat2Z.id, seq_S, map_app. reflexivity.
Qed.

Lemma range_to_nat (n : Z) : range n = range (Z.of_nat (Z.to_nat n)).
Proof. unfold range. rewrite Nat2Z.id. reflexivity. Qed.

Lemma unset_qualification_passes (needed_qual : option string)
    (prov : Provider.t) :
  qualification_in_force needed_qual = None ->
  lacks_qualification needed_qual prov = false.
Proof.
  unfold qualification_in_force, lacks_qualification.
  destruct needed_qual as [q |]; [| reflexivity].
  destruct (q =? EmptyString)%string; [reflexivity | discriminate].
Qed.

(** A slot whose first candidate is eligible goes to that candidate and
    moves the cursor by one. *)
Lemma fill_slot_first (providers : list Provider.t) (prov0 : Provider.t)
    (site : string) (needed_qual : option string) (day_date : string)
    (l : locals) :
  providers <> [] ->
  is_eligible needed_qual (assignments l)
    (candidate providers prov0 (p l)) day_date = true ->
  fill_slot providers prov0 site needed_qual day_date l
  = {| assignments :=
         (assignments l
          ++ [new_assignment site (candidate providers prov0 (p l)) day_date])%list;
       p := S (p l);
       created := S (created l);
       conflicts := conflicts l |}.
Proof.
  intros Hne He. unfold fill_slot.
  assert (Hn : (0 < List.length providers)%nat)
    by (destruct providers; [congruence | cbn; lia]).
  destruct (while_tries_cases providers prov0 site needed_qual
              (List.length providers) day_date l)
    as [(k & Hk & Hbefore & Hat & Heq) | (Hall & Heq)].
  - destruct k as [| k].
    + rewrite Heq, !Nat.add_0_r, Nat.add_1_r. reflexivity.
    + specialize (Hbefore 0%nat ltac:(lia)). rewrite Nat.add_0_r in Hbefore.
      congruence.
  - specialize (Hall 0%nat Hn). rewrite Nat.add_0_r in Hall. congruence.
Qed.

(** X4.  A plain rotation.  With exactly one regular shift type that
    requires no qualification, and no stored assignment on any day of the
    range, the run fills every day: the day [i] of the range goes to
    [providers[i mod len(providers)]], [created] is the number of days and
    there is no conflict. *)
Theorem plain_round_robin (st : Store) (req : GenerateRequest.t)
    (prov0 : Provider.t) (rest : list Provider.t) (shift0 : ShiftType.t) :
  provider_col st = prov0 :: rest ->
  regular_shifts st = [shift0] ->
  qualification_in_force (ShiftType.requires_qualification shift0) = None ->
  valid_request req ->
  (forall a d, In a (assign_col st) -> in_range req d ->
               Assignment.date a <> PyDate.str_of_ordinal d) ->
  generate_schedule (Some st) req
  = (Returned {| GenerateResponse.created := Z.to_nat (day_count req);
                 GenerateResponse.conflicts := [] |},
     Some (with_assignments st
             (assign_col st
              ++ round_robin (provider_col st) prov0 (ShiftType.site shift0)
                   req)%list)).
Proof.
  intros Hp Hs Hq Hv Hfree.
  set (providers := provider_col st) in *.
  set (site := ShiftType.site shift0).
  set (nq := ShiftType.requires_qualification shift0) in *.
  set (start := PyDate.toordinal (GenerateRequest.start_date req)).
  set (g := fun i : Z =>
              new_assignment site
                (nth (Nat.modulo (Z.to_nat i) (List.length providers))
                     providers prov0)
                (PyDate.str_of_ordinal (start + i))).
  assert (Hne : providers <> []) by (rewrite Hp; discriminate).
  assert (Hloop : forall k : nat,
             Z.of_nat k <= Z.max 0 (day_count req) ->
             fold_left (day_body providers prov0 site nq start 1)
               (range (Z.of_nat k))
               {| assignments := assign_col st; p := 0%nat; created := 0%nat;
                  conflicts := [] |}
             = {| assignments :=
                    (assign_col st ++ map g (range (Z.of_nat k)))%list;
                  p := k; created := k; conflicts := [] |}).
  { induction k as [| k IH]; intros Hk.
    - cbn. rewrite app_nil_r. reflexivity.
    - rewrite range_succ, fold_left_app, IH by lia.
      cbn [fold_left]. unfold day_body. cbn [for_slots].
      fold (PyDate.str_of_ordinal (start + Z.of_nat k)).
      assert (Hin : in_range req (start + Z.of_nat k)).
      { apply days_of_in. unfold days_of. apply in_map_iff.
        exists (Z.of_nat k). split; [reflexivity | apply range_in; lia]. }
      rewrite fill_slot_first; [| exact Hne |].
      + cbn [assignments p created conflicts].
        rewrite map_app, app_assoc. cbn [map]. unfold g at 3, candidate.
        rewrite Nat2Z.id. reflexivity.
      + cbn [assignments p]. unfold is_eligible.
        rewrite (unset_qualification_passes nq _ Hq), andb_true_r.
        apply negb_true_iff. rewrite booked_app.
        rewrite (booked_other_dates (assign_col st)),
          (booked_other_dates (map g (range (Z.of_nat k)))); [reflexivity | |].
        * intros a Ha. apply in_map_iff in Ha. destruct Ha as (i & <- & Hi).
          apply range_in in Hi. cbn. intros Heq.
          apply PyDateFacts.str_of_ordinal_inj in Heq; [lia | |].
          -- apply (days_of_valid req); [exact Hv |]. unfold days_of.
             apply in_map_iff. exists i. split; [reflexivity |].
             apply range_in. lia.
          -- apply (days_of_valid req); [exact Hv |].
             apply days_of_in. exact Hin.
        * intros a Ha. exact (Hfree a _ Ha Hin). }
  unfold generate_schedule. rewrite find_all_true, Hs.
  fold providers. rewrite Hp at 1. fold (day_count req).
  assert (Hm : Nat.min (List.length providers) (List.length [shift0]) = 1%nat).
  { rewrite Hp. cbn [List.length]. lia. }
  rewrite Hm. fold site nq start.
  rewrite (range_to_nat (day_count req)), Hloop by lia.
  cbn [assignments created conflicts].
  unfold round_robin. fold start site g.
  rewrite <- (range_to_nat (day_count req)). reflexivity.
Qed.

Lemma plain_round_robin_witness :
  generate_schedule (Some (Sample.store_AB None))
    (Sample.mk_request Sample.jan1 Sample.jan2)
  = (Returned {| GenerateResponse.created :=
                   Z.to_nat (day_count (Sample.mk_request Sample.jan1 Sample.jan2));
                 GenerateResponse.conflicts := [] |},
     Some (with_assignments (Sample.store_AB None)
             (assign_col (Sample.store_AB None)
              ++ round_robin (provider_col (Sample.store_AB None)) Sample.A "S"
                   (Sample.mk_request Sample.jan1 Sample.jan2))%list)).
Proof.
  apply (plain_round_robin (Sample.store_AB None)
           (Sample.mk_request Sample.jan1 Sample.jan2)
           Sample.A [Sample.B] (Sample.mk_shift "s1" "REG" "S" None)).
  - reflexivity.
  - reflexivity.
  - reflexivity.
  - split; vm_compute; intuition discriminate.
  - intros a d [].
Defined.

(** ** What a run depends on *)

Section Views.
Variables ps ps' : list Provider.t.
Variables q0 q0' : Provider.t.
Variable site : string.
Variable needed_qual : option string.
Hypothesis Hviews : map scheduling_view ps = map scheduling_view ps'.
Hypothesis Hview0 : scheduling_view q0 = scheduling_view q0'.

Lemma views_length : List.length ps = List.length ps'.
Proof.
  rewrite <- (length_map scheduling_view ps), Hviews. apply length_map.
Qed.

Lemma views_nth (i : nat) :
  scheduling_view (nth i ps q0) = scheduling_view (nth i ps' q0').
Proof.
  rewrite <- (map_nth scheduling_view ps q0 i), Hviews, Hview0.
  apply map_nth.
Qed.

Lemma while_tries_views (budget : nat) (day_date : string) (l : locals) :
  while_tries ps q0 site needed_qual budget day_date l
  = while_tries ps' q0' site needed_qual budget day_date l.
Proof.
  revert l. induction budget as [| b IH]; intros l; [reflexivity |].
  cbn [while_tries]. rewrite <- views_length.
  pose proof (views_nth (Nat.modulo (p l) (List.length ps))) as Hv.
  unfold scheduling_view in Hv. injection Hv as Hid Hquals.
  unfold lacks_qualification, new_assignment.
  rewrite <- Hid, <- Hquals, !IH. reflexivity.
Qed.

Lemma fold_days_views (start : Z) (n : nat) (idx : list Z) (l : locals) :
  fold_left (day_body ps q0 site needed_qual start n) idx l
  = fold_left (day_body ps' q0' site needed_qual start n) idx l.
Proof.
  assert (Hslot : forall d l0,
             fill_slot ps q0 site needed_qual d l0
             = fill_slot ps' q0' site needed_qual d l0).
  { intros d l0. unfold fill_slot.
    rewrite while_tries_views, views_length. reflexivity. }
  assert (Hslots : forall k d l0,
             for_slots ps q0 site needed_qual k d l0
             = for_slots ps' q0' site needed_qual k d l0).
  { induction k as [| k IH]; intros d l0; cbn [for_slots]; [reflexivity |].
    rewrite Hslot. apply IH. }
  revert l. induction idx as [| i idx IH]; intros l; cbn [fold_left];
    [reflexivity |].
  unfold day_body at 2 4. rewrite Hslots. apply IH.
Qed.
End Views.

(** X5.  A run reads of the store only the identifier and the
    qualifications of each provider, the number of regular shift types
    with the site and the required qualification of the first of them,
    and the assignments.  Two stores that agree on these get the same
    answer and end with the same assignments: the [fte], the targets, the
    site preferences, the seniority, the [weekly] flag and the shift types
    of other names make no difference. *)
Theorem generate_reads_only (st st' : Store) (req : GenerateRequest.t) :
  map scheduling_view (provider_col st) = map scheduling_view (provider_col st') ->
  shifts_view (regular_shifts st) = shifts_view (regular_shifts st') ->
  assign_col st = assign_col st' ->
  fst (generate_schedule (Some st) req) = fst (generate_schedule (Some st') req)
  /\ option_map assign_col (snd (generate_schedule (Some st) req))
     = option_map assign_col (snd (generate_schedule (Some st') req)).
Proof.
  intros Hps Hregs Hcol. unfold generate_schedule. rewrite !find_all_true.
  destruct (provider_col st) as [| q0 qs] eqn:Hp,
           (provider_col st') as [| q0' qs'] eqn:Hp';
    try discriminate.
  - cbn. rewrite Hcol. split; reflexivity.
  - destruct (regular_shifts st) as [| s0 regs],
             (regular_shifts st') as [| s0' regs'];
      try discriminate.
    + cbn. rewrite Hcol. split; reflexivity.
    + unfold shifts_view in Hregs. injection Hregs as Hlen Hsite Hqual.
      assert (Hq0 : scheduling_view q0 = scheduling_view q0')
        by (cbn [map] in Hps; congruence).
      rewrite (fold_days_views (q0 :: qs) (q0' :: qs') q0 q0'
                 (ShiftType.site s0) (ShiftType.requires_qualification s0)
                 Hps Hq0).
      rewrite (views_length _ _ Hps).
      cbn [List.length]. rewrite Hlen, Hsite, Hqual, Hcol.
      cbn [fst snd option_map with_assignments assign_col].
      split; reflexivity.
Qed.

Lemma generate_reads_only_witness :
  fst (generate_schedule (Some (Sample.store_AB None))
         (Sample.mk_request Sample.jan1 Sample.jan2))
  = fst (generate_schedule (Some Fixture.store_AB_other)
           (Sample.mk_request Sample.jan1 Sample.jan2))
  /\ option_map assign_col
       (snd (generate_schedule (Some (Sample.store_AB None))
               (Sample.mk_request Sample.jan1 Sample.jan2)))
     = option_map assign_col
         (snd (generate_schedule (Some Fixture.store_AB_other)
                 (Sample.mk_request Sample.jan1 Sample.jan2))).
Proof.
  apply (generate_reads_only (Sample.store_AB None) Fixture.store_AB_other
           (Sample.mk_request Sample.jan1 Sample.jan2)).
  - reflexivity.
  - reflexivity.
  - reflexivity.
Defined.

(** ** The creation endpoints *)

Lemma find_one_by_id {A : Type} (key : A -> string) (x : string) (col : list A) :
  (exists d, find_one (fun d => key d =? x)%string col = Some d
             /\ In d col /\ key d = x)
  \/ (find_one (fun d => key d =? x)%string col = None
      /\ ~ In x (map key col)).
Proof.
  unfold find_one. destruct (find _ col) as [d |] eqn:Hf.
  - left. exists d. apply find_some in Hf. destruct Hf as [Hin Hk].
    apply String.eqb_eq in Hk. auto.
  - right. split; [reflexivity |]. intros Hin. apply in_map_iff in Hin.
    destruct Hin as (d & Hk & Hin). apply (find_none _ _ Hf) in Hin.
    cbv beta in Hin. rewrite Hk, String.eqb_refl in Hin. discriminate.
Qed.

(** [create_provider] either finds the identifier and rejects, or does not
    and stores the provider at the end. *)
Lemma create_provider_cases (st : Store) (provider : Provider.t) :
  (In (Provider.id provider) (map Provider.id (provider_col st))
   /\ create_provider (Some st) provider
      = (Raised {| status_code := 400; detail := "Provider already exists" |},
         Some st))
  \/ (~ In (Provider.id provider) (map Provider.id (provider_col st))
      /\ create_provider (Some st) provider
         = (Returned provider,
            Some {| provider_col := (provider_col st ++ [provider])%list;
                    shift_col := shift_col st;
                    assign_col := assign_col st |})).
Proof.
  unfold create_provider, create_document.
  destruct (find_one_by_id Provider.id (Provider.id provider) (provider_col st))
    as [(d & -> & Hin & Hk) | (-> & Hnot)].
  - left. split; [| reflexivity]. rewrite <- Hk. apply in_map. exact Hin.
  - right. split; [exact Hnot | reflexivity].
Qed.

Lemma create_shift_type_cases (st : Store) (shift : ShiftType.t) :
  (In (ShiftType.id shift) (map ShiftType.id (shift_col st))
   /\ create_shift_type (Some st) shift
      = (Raised {| status_code := 400; detail := "ShiftType already exists" |},
         Some st))
  \/ (~ In (ShiftType.id shift) (map ShiftType.id (shift_col st))
      /\ create_shift_type (Some st) shift
         = (Returned shift,
            Some {| provider_col := provider_col st;
                    shift_col := (shift_col st ++ [shift])%list;
                    assign_col := assign_col st |})).
Proof.
  unfold create_shift_type, create_document.
  destruct (find_one_by_id ShiftType.id (ShiftType.id shift) (shift_col st))
    as [(d & -> & Hin & Hk) | (-> & Hnot)].
  - left. split; [| reflexivity]. rewrite <- Hk. apply in_map. exact Hin.
  - right. split; [exact Hnot | reflexivity].
Qed.

Lemma NoDup_snoc {A : Type} (l : list A) (x : A) :
  NoDup l -> ~ In x l -> NoDup (l ++ [x]).
Proof.
  intros Hl Hx. apply NoDup_app; [exact Hl | repeat constructor; intros [] |].
  intros y Hy [<- | []]. exact (Hx Hy).
Qed.

(** X6.  The creation endpoints keep identifiers unique: from a store
    whose providers have pairwise different identifiers, and whose shift
    types have, [create_provider] and [create_shift_type] lead to such a
    store again, whether they accept or reject the record. *)
Theorem creation_keeps_identifiers_unique (st : Store)
    (provider : Provider.t) (shift : ShiftType.t) :
  NoDup (map Provider.id (provider_col st)) ->
  NoDup (map ShiftType.id (shift_col st)) ->
  exists st1 st2,
    snd (create_provider (Some st) provider) = Some st1
    /\ snd (create_shift_type (Some st) shift) = Some st2
    /\ NoDup (map Provider.id (provider_col st1))
    /\ NoDup (map ShiftType.id (shift_col st1))
    /\ NoDup (map Provider.id (provider_col st2))
    /\ NoDup (map ShiftType.id (shift_col st2)).
Proof.
  intros Hp Hs.
  destruct (create_provider_cases st provider) as [[_ ->] | [Hnp ->]],
    (create_shift_type_cases st shift) as [[_ ->] | [Hns ->]];
    eexists _, _; cbn [snd];
    (split; [reflexivity |]); (split; [reflexivity |]);
    cbn [provider_col shift_col]; rewrite ?map_app; cbn [map];
    repeat split; trivial; apply NoDup_snoc; trivial.
Qed.

Lemma creation_keeps_identifiers_unique_witness :
  exists st1 st2,
    snd (create_provider (Some (Sample.store_AB None)) Fixture.part_time)
    = Some st1
    /\ snd (create_shift_type (Some (Sample.store_AB None)) Fixture.reg_shift)
       = Some st2
    /\ NoDup (map Provider.id (provider_col st1))
    /\ NoDup (map ShiftType.id (shift_col st1))
    /\ NoDup (map Provider.id (provider_col st2))
    /\ NoDup (map ShiftType.id (shift_col st2)).
Proof.
  apply (creation_keeps_identifiers_unique (Sample.store_AB None)
           Fixture.part_time Fixture.reg_shift).
  - cbn. repeat constructor; cbn; intuition discriminate.
  - cbn. repeat constructor; cbn; intuition discriminate.
Defined.



(** ** Requests in a row *)

(** A POST request leaves the store alone or is one of the three calls. *)
Lemma post_cases (st : Store) (path : string) (b : body) :
  snd (post (Some st) path b) = Some st
  \/ (exists provider,
        path = "/providers"
        /\ snd (post (Some st) path b)
           = snd (create_provider (Some st) provider))
  \/ (exists shift,
        path = "/shift-types"
        /\ snd (post (Some st) path b)
           = snd (create_shift_type (Some st) shift))
  \/ (exists req,
        path = "/generate"
        /\ snd (post (Some st) path b)
           = snd (generate_schedule (Some st) req)).
Proof.
  unfold post, route, routes. cbn [find existsb fst snd].
  change ("GET" =? "POST")%string with false.
  change ("POST" =? "POST")%string with true.
  cbn [andb].
  destruct ("/providers" =? path)%string eqn:E1.
  { apply String.eqb_eq in E1. cbn [snd].
    destruct b as [provider | | |]; try (left; reflexivity).
    right. left. exists provider. split; [auto |].
    destruct (create_provider (Some st) provider). reflexivity. }
  destruct ("/shift-types" =? path)%string eqn:E2.
  { apply String.eqb_eq in E2. cbn [snd].
    destruct b as [| shift | |]; try (left; reflexivity).
    right. right. left. exists shift. split; [auto |].
    destruct (create_shift_type (Some st) shift). reflexivity. }
  destruct ("/generate" =? path)%string eqn:E3.
  { apply String.eqb_eq in E3. cbn [snd].
    destruct b as [| | | req]; try (left; reflexivity).
    right. right. right. exists req. split; [auto |].
    destruct (generate_schedule (Some st) req). reflexivity. }
  left.
  repeat (destruct (_ =? path)%string; cbn [snd status_code andb orb];
          try reflexivity).
Qed.

Lemma grows_to_refl (st : Store) : grows_to st st.
Proof. exists [], [], []. rewrite !app_nil_r. auto. Qed.

Lemma grows_to_trans (st1 st2 st3 : Store) :
  grows_to st1 st2 -> grows_to st2 st3 -> grows_to st1 st3.
Proof.
  intros (ps & ss & new & Hp & Hs & Ha) (ps' & ss' & new' & Hp' & Hs' & Ha').
  exists (ps ++ ps')%list, (ss ++ ss')%list, (new ++ new')%list.
  rewrite Hp', Hs', Ha', Hp, Hs, Ha, !app_assoc. auto.
Qed.

(** One POST request: the store grows, keeps its invariant, and only
    [/generate] may add assignments. *)
Lemma post_step (st : Store) (path : string) (b : body) :
  exists st',
    snd (post (Some st) path b) = Some st'
    /\ grows_to st st'
    /\ (store_ok st -> store_ok st')
    /\ (path <> "/generate" -> assign_col st' = assign_col st).
Proof.
  destruct (post_cases st path b)
    as [-> | [(provider & Hpath & ->) | [(shift & Hpath & ->)
                                        | (req & Hpath & ->)]]].
  - exists st. split; [reflexivity |]. split; [apply grows_to_refl |]. auto.
  - destruct (create_provider_cases st provider) as [[_ ->] | [Hnot ->]];
      cbn [snd]; eexists; (split; [reflexivity |]).
    + split; [apply grows_to_refl |]. auto.
    + split; [exists [provider], [], []; cbn; rewrite !app_nil_r; auto |].
      split; [| reflexivity].
      intros (Hp & Hs & Ha). repeat split; cbn; trivial.
      rewrite map_app. apply NoDup_snoc; trivial.
  - destruct (create_shift_type_cases st shift) as [[_ ->] | [Hnot ->]];
      cbn [snd]; eexists; (split; [reflexivity |]).
    + split; [apply grows_to_refl |]. auto.
    + split; [exists [], [shift], []; cbn; rewrite !app_nil_r; auto |].
      split; [| reflexivity].
      intros (Hp & Hs & Ha). repeat split; cbn; trivial.
      rewrite map_app. apply NoDup_snoc; trivial.
  - destruct (generate_schedule_appends st req) as (r & new & -> & Hn & Hf).
    cbn [snd]. eexists. split; [reflexivity |].
    split; [exists [], [], new; cbn; rewrite !app_nil_r; auto |].
    split; [| congruence].
    intros (Hp & Hs & Ha). repeat split; cbn; trivial.
    unfold no_double_booking in *. rewrite map_app.
    apply NoDup_app; [exact Ha | exact Hn |].
    intros x Hx Hx'. apply in_map_iff in Hx'. destruct Hx' as (a & <- & Hin).
    exact (Hf a Hin Hx).
Qed.

Lemma find_one_app {A : Type} (f : A -> bool) (l l' : list A) (d : A) :
  find_one f l = Some d -> find_one f (l ++ l') = Some d.
Proof.
  unfold find_one. induction l as [| a l IH]; cbn; [discriminate |].
  destruct (f a); auto.
Qed.

(** X8.  Whatever POST requests are served, in whatever order and with
    whatever bodies, a store that has unique provider identifiers, unique
    shift-type identifiers and no provider booked twice on a date still
    has all three afterwards. *)
Theorem serve_keeps_store_ok (st : Store) (reqs : list (string * body)) :
  store_ok st ->
  exists st', serve (Some st) reqs = Some st' /\ store_ok st'.
Proof.
  revert st. induction reqs as [| [path b] reqs IH]; intros st Hok.
  - exists st. split; [reflexivity | exact Hok].
  - unfold serve. cbn [fold_left fst snd].
    destruct (post_step st path b) as (st1 & -> & _ & Hok1 & _).
    apply IH. apply Hok1. exact Hok.
Qed.

(** X9.  Serving POST requests only ever adds documents at the end of the
    collections: nothing stored is removed, changed or reordered.  Hence a
    lookup by identifier that finds a provider, or a shift type, finds the
    same document after any further requests; and requests to paths other
    than [/generate] leave the assignments as they were. *)
Theorem serve_only_appends (st : Store) (reqs : list (string * body)) :
  exists st',
    serve (Some st) reqs = Some st'
    /\ grows_to st st'
    /\ (forall x d,
          find_one (fun d => Provider.id d =? x)%string (provider_col st)
          = Some d ->
          find_one (fun d => Provider.id d =? x)%string (provider_col st')
          = Some d)
    /\ (forall x d,
          find_one (fun d => ShiftType.id d =? x)%string (shift_col st)
          = Some d ->
          find_one (fun d => ShiftType.id d =? x)%string (shift_col st')
          = Some d)
    /\ ((forall r, In r reqs -> fst r <> "/generate") ->
        assign_col st' = assign_col st).
Proof.
  assert (H : exists st',
             serve (Some st) reqs = Some st'
             /\ grows_to st st'
             /\ ((forall r, In r reqs -> fst r <> "/generate") ->
                 assign_col st' = assign_col st)).
  { revert st. induction reqs as [| [path b] reqs IH]; intros st.
    - exists st. split; [reflexivity |]. split; [apply grows_to_refl | auto].
    - unfold serve. cbn [fold_left fst snd].
      destruct (post_step st path b) as (st1 & -> & Hg & _ & Ha).
      destruct (IH st1) as (st' & Hs & Hg' & Ha').
      exists st'. split; [exact Hs |].
      split; [eapply grows_to_trans; eauto |].
      intros Hno. rewrite Ha', Ha; trivial.
      + apply (Hno (path, b)). left. reflexivity.
      + intros r Hr. apply Hno. right. exact Hr. }
  destruct H as (st' & Hs & Hg & Ha).
  exists st'. split; [exact Hs |]. split; [exact Hg |].
  destruct Hg as (ps & ss & new & Hp & Hsh & _).
  split; [| split; [| exact Ha]].
  - intros x d Hf. rewrite Hp. apply find_one_app. exact Hf.
  - intros x d Hf. rewrite Hsh. apply find_one_app. exact Hf.
Qed.

(** ** Reading dates back *)

Lemma digit_value_digit (n : Z) : digit_value (PyDate.digit n) = Some (n mod 10).
Proof.
  unfold digit_value. rewrite digit_is_digit. unfold PyDate.digit.
  assert (H : 0 <= n mod 10 < 10) by (apply Z.mod_pos_bound; lia).
  rewrite nat_ascii_embedding by lia. f_equal. lia.
Qed.

Lemma digit_value_inv (c : ascii) (a : Z) :
  digit_value c = Some a ->
  0 <= a <= 9 /\ forall n, n mod 10 = a -> PyDate.digit n = c.
Proof.
  unfold digit_value, is_digit. destruct (_ && _) eqn:Hd; [| discriminate].
  intros H. injection H as <-. apply andb_prop in Hd. destruct Hd as [Hlo Hhi].
  apply Nat.leb_le in Hlo, Hhi. split; [lia |].
  intros n Hn. unfold PyDate.digit. rewrite Hn.
  replace (48 + Z.to_nat (Z.of_nat (nat_of_ascii c) - 48))%nat
    with (nat_of_ascii c) by lia.
  apply ascii_nat_embedding.
Qed.

Lemma check_date_fields_valid (y m d : Z) :
  check_date_fields y m d = true <-> PyDate.valid_date (PyDate.Date y m d).
Proof.
  unfold check_date_fields, PyDate.valid_date. cbn [PyDate.year PyDate.month PyDate.day].
  rewrite !andb_true_iff, !Z.leb_le. tauto.
Qed.

(** [fromisoformat] reads back what [isoformat] wrote. *)
Lemma fromisoformat_isoformat (d : PyDate.date) :
  PyDate.valid_date d -> fromisoformat (PyDate.isoformat d) = Parsed d.
Proof.
  intros Hv. pose proof Hv as Hv'.
  destruct d as [y m dd].
  unfold PyDate.valid_date, PyDate.MINYEAR, PyDate.MAXYEAR in Hv'.
  cbn [PyDate.year PyDate.month PyDate.day] in Hv'.
  destruct Hv' as (Hy & Hm & Hd).
  assert (Hd' : dd <= 31).
  { pose proof (PyDateFacts.days_in_month_le_31 m (PyDate.is_leap y) Hm).
    unfold PyDate.days_in_month in Hd.
    destruct ((m =? 2) && PyDate.is_leap y); lia. }
  unfold PyDate.isoformat, PyDate.fmt04, PyDate.fmt02.
  cbn [PyDate.year PyDate.month PyDate.day String.append fromisoformat].
  rewrite !digit_value_digit.
  change (Ascii.eqb "-" hyphen) with true. cbn [andb].
  replace ((((y / 1000) mod 10 * 10 + (y / 100) mod 10) * 10
            + (y / 10) mod 10) * 10 + y mod 10) with y
    by (Z.div_mod_to_equations; lia).
  replace ((m / 10) mod 10 * 10 + m mod 10) with m
    by (Z.div_mod_to_equations; lia).
  replace ((dd / 10) mod 10 * 10 + dd mod 10) with dd
    by (Z.div_mod_to_equations; lia).
  rewrite (proj2 (check_date_fields_valid y m dd) Hv). reflexivity.
Qed.

(** What [fromisoformat] accepts is the ISO string of the date it
    returns. *)
Lemma fromisoformat_parsed (s : string) (d : PyDate.date) :
  fromisoformat s = Parsed d -> PyDate.valid_date d /\ PyDate.isoformat d = s.
Proof.
  unfold fromisoformat.
  do 10 (destruct s as [| ?c s]; [discriminate |]).
  destruct s; [| discriminate].
  destruct (digit_value c) as [a3 |] eqn:E3; [| discriminate].
  destruct (digit_value c0) as [a2 |] eqn:E2; [| discriminate].
  destruct (digit_value c1) as [a1 |] eqn:E1; [| discriminate].
  destruct (digit_value c2) as [a0 |] eqn:E0; [| discriminate].
  destruct (digit_value c4) as [b1 |] eqn:F1; [| discriminate].
  destruct (digit_value c5) as [b0 |] eqn:F0; [| discriminate].
  destruct (digit_value c7) as [e1 |] eqn:G1; [| discriminate].
  destruct (digit_value c8) as [e0 |] eqn:G0; [| discriminate].
  destruct (Ascii.eqb c3 hyphen && Ascii.eqb c6 hyphen) eqn:Hh; [| discriminate].
  apply andb_prop in Hh. destruct Hh as [H1 H2].
  apply Ascii.eqb_eq in H1, H2. subst c3 c6.
  destruct (check_date_fields _ _ _) eqn:Hc; [| discriminate].
  intros H. injection H as <-.
  apply check_date_fields_valid in Hc. split; [exact Hc |].
  apply digit_value_inv in E3, E2, E1, E0, F1, F0, G1, G0.
  destruct E3 as [B3 E3], E2 as [B2 E2], E1 as [B1 E1], E0 as [B0 E0],
    F1 as [D1 F1], F0 as [D0 F0], G1 as [K1 G1], G0 as [K0 G0].
  unfold PyDate.isoformat, PyDate.fmt04, PyDate.fmt02.
  cbn [PyDate.year PyDate.month PyDate.day String.append].
  set (y := ((a3 * 10 + a2) * 10 + a1) * 10 + a0).
  set (m := b1 * 10 + b0). set (dd := e1 * 10 + e0).
  assert (Y3 : (y / 1000) mod 10 = a3) by (subst y; Z.div_mod_to_equations; lia).
  assert (Y2 : (y / 100) mod 10 = a2) by (subst y; Z.div_mod_to_equations; lia).
  assert (Y1 : (y / 10) mod 10 = a1) by (subst y; Z.div_mod_to_equations; lia).
  assert (Y0 : y mod 10 = a0) by (subst y; Z.div_mod_to_equations; lia).
  assert (M1 : (m / 10) mod 10 = b1) by (subst m; Z.div_mod_to_equations; lia).
  assert (M0 : m mod 10 = b0) by (subst m; Z.div_mod_to_equations; lia).
  assert (N1 : (dd / 10) mod 10 = e1) by (subst dd; Z.div_mod_to_equations; lia).
  assert (N0 : dd mod 10 = e0) by (subst dd; Z.div_mod_to_equations; lia).
  rewrite (E3 _ Y3), (E2 _ Y2), (E1 _ Y1), (E0 _ Y0), (F1 _ M1), (F0 _ M0),
    (G1 _ N1), (G0 _ N0).
  reflexivity.
Qed.

Example fromisoformat_samples :
  fromisoformat "2024-02-29" = Parsed Fixture.leap_day
  /\ fromisoformat "2024-02-30" = ValueError
  /\ fromisoformat "2023-02-29" = ValueError
  /\ fromisoformat "2024-13-01" = ValueError
  /\ fromisoformat "0000-01-01" = ValueError
  /\ fromisoformat "20240229" = OtherForm.
Proof. repeat split; vm_compute; reflexivity. Qed.

(** ** The listings *)

Lemma stored_form_cleaned (d : Assignment.t) (dt : PyDate.date) :
  PyDate.isoformat dt = Assignment.date d ->
  stored_form (cleaned_assignment d dt) = d.
Proof.
  intros H. destruct d. unfold stored_form, cleaned_assignment. cbn in *.
  rewrite H. reflexivity.
Qed.

Lemma clean_documents_listed (docs : list Assignment.t)
    (l : list AssignmentModel.t) :
  clean_documents docs = Listed l ->
  map stored_form l = docs
  /\ forall a, In a l -> PyDate.valid_date (AssignmentModel.date a).
Proof.
  revert l. induction docs as [| d docs IH]; intros l H; cbn in H.
  - injection H as <-. split; [reflexivity | intros a []].
  - destruct (fromisoformat (Assignment.date d)) as [dt | |] eqn:Hp;
      try discriminate.
    destruct (clean_documents docs) as [cleaned | |]; try discriminate.
    injection H as <-. destruct (IH cleaned eq_refl) as [Hm Hv].
    apply fromisoformat_parsed in Hp. destruct Hp as [Hval Hiso].
    split.
    + cbn [map]. rewrite Hm, stored_form_cleaned by exact Hiso. reflexivity.
    + intros a [<- | Ha]; [exact Hval | exact (Hv a Ha)].
Qed.

Lemma clean_documents_well_dated (docs : list Assignment.t) :
  well_dated docs -> exists l, clean_documents docs = Listed l.
Proof.
  induction docs as [| d docs IH]; intros Hw; [exists []; reflexivity |].
  destruct (Hw d (or_introl eq_refl)) as (dt & Hv & Hd).
  destruct IH as (l & Hl); [intros a Ha; apply Hw; right; exact Ha |].
  cbn [clean_documents]. rewrite Hd, (fromisoformat_isoformat dt Hv), Hl.
  eexists. reflexivity.
Qed.



(** X11.  A run keeps the store listable.  From a store whose assignment
    dates are ISO strings of dates, after a run on a request,
    [list_assignments] returns a record for every assignment, old and new,
    and the records of the assignments the run added are dated from the
    start date to the end date of the request. *)
Theorem generate_keeps_store_listable (st : Store) (req : GenerateRequest.t) :
  valid_request req ->
  well_dated (assign_col st) ->
  exists r st' new l,
    generate_schedule (Some st) req = (r, Some st')
    /\ assign_col st' = (assign_col st ++ new)%list
    /\ list_assignments (Some st') = Listed l
    /\ map stored_form l = assign_col st'
    /\ forall a, In a l -> In (stored_form a) new ->
         PyDate.date_le (GenerateRequest.start_date req)
           (AssignmentModel.date a) = true
         /\ PyDate.date_le (AssignmentModel.date a)
              (GenerateRequest.end_date req) = true.
Proof.
  intros Hv Hw.
  assert (Hrun : exists r new,
             generate_schedule (Some st) req
             = (r, Some (with_assignments st (assign_col st ++ new)%list))
             /\ forall a, In a new ->
                  exists d, in_range req d
                            /\ Assignment.date a = PyDate.str_of_ordinal d).
  { destruct (run_or_error st)
      as [Herr | (prov0 & rest & shift0 & regs & Hp & Hs)].
    - exists (Raised config_error), []. rewrite app_nil_r, with_assignments_same.
      split; [apply generate_schedule_appends_error; exact Herr | intros a []].
    - destruct (generate_schedule_run st req prov0 rest shift0 regs Hp Hs)
        as (tr & col' & p' & Ha & Hd & Heq).
      eexists _, (assignments_of (ShiftType.site shift0) tr).
      rewrite <- (allocates_assignments _ _ _ _ _ _ _ _ _ Ha).
      split; [exact Heq |].
      intros a Hin. apply assignments_of_in in Hin.
      destruct Hin as (s & prov & Hin & ->).
      exact (run_dates_in_range req _ tr _ Hd Hin). }
  destruct Hrun as (r & new & Heq & Hnew).
  assert (Hvalid : forall d, in_range req d -> PyDate.valid_ordinal d).
  { intros d Hd. apply (days_of_valid req); [exact Hv |].
    apply days_of_in. exact Hd. }
  assert (Hw' : well_dated (assign_col st ++ new)).
  { intros a Ha. apply in_app_or in Ha. destruct Ha as [Ha | Ha];
      [exact (Hw a Ha) |].
    destruct (Hnew a Ha) as (d & Hd & Hs).
    exists (PyDate.fromordinal d). split; [| exact Hs].
    apply PyDateFacts.fromordinal_spec. exact (Hvalid d Hd). }
  destruct (clean_documents_well_dated _ Hw') as (l & Hl).
  exists r, (with_assignments st (assign_col st ++ new)%list), new, l.
  split; [exact Heq |]. split; [reflexivity |].
  assert (Hlist : list_assignments
                    (Some (with_assignments st (assign_col st ++ new)%list))
                  = Listed l).
  { unfold list_assignments. rewrite find_all_true. exact Hl. }
  split; [exact Hlist |].
  destruct (clean_documents_listed _ _ Hl) as [Hm Hval].
  split; [exact Hm |].
  intros a Ha Hin. destruct (Hnew _ Hin) as (d & Hd & Hs).
  cbn [stored_form Assignment.date] in Hs.
  assert (Hda : AssignmentModel.date a = PyDate.fromordinal d).
  { apply PyDateFacts.isoformat_inj; [exact (Hval a Ha) | | exact Hs].
    apply PyDateFacts.fromordinal_spec. exact (Hvalid d Hd). }
  destruct Hv as [Vs Ve].
  destruct (PyDateFacts.fromordinal_spec d (Hvalid d Hd)) as [Vd Hord].
  rewrite Hda. unfold in_range in Hd.
  split; apply PyDateFacts.date_le_iff; trivial; rewrite Hord; lia.
Qed.

Lemma generate_keeps_store_listable_witness :
  exists r st' new l,
    generate_schedule (Some Sample.store_A_taken)
      (Sample.mk_request Sample.jan1 Sample.jan2)
    = (r, Some st')
    /\ assign_col st' = (assign_col Sample.store_A_taken ++ new)%list
    /\ list_assignments (Some st') = Listed l
    /\ map stored_form l = assign_col st'
    /\ forall a, In a l -> In (stored_form a) new ->
         PyDate.date_le Sample.jan1 (AssignmentModel.date a) = true
         /\ PyDate.date_le (AssignmentModel.date a) Sample.jan2 = true.
Proof.
  apply (generate_keeps_store_listable Sample.store_A_taken
           (Sample.mk_request Sample.jan1 Sample.jan2)).
  - split; vm_compute; intuition discriminate.
  - intros a [<- | []]. exists Sample.jan1.
    split; [vm_compute; intuition discriminate | reflexivity].
Defined.

(** X12.  One stored date that is no date breaks the whole listing: when
    the assignments before it have ISO dates and its own date string has
    the form [YYYY-MM-DD] but names no day of the calendar,
    [list_assignments] fails with the status 500 and returns no record,
    whatever comes after. *)
Theorem listing_fails_on_impossible_date (st : Store)
    (before after : list Assignment.t) (a : Assignment.t) :
  assign_col st = (before ++ a :: after)%list ->
  well_dated before ->
  fromisoformat (Assignment.date a) = ValueError ->
  list_assignments (Some st) = Failed internal_error.
Proof.
  intros Hcol Hw Hbad. unfold list_assignments. rewrite find_all_true, Hcol.
  clear Hcol. induction before as [| d before IH]; cbn [app clean_documents].
  - rewrite Hbad. reflexivity.
  - destruct (Hw d (or_introl eq_refl)) as (dt & Hv & Hd).
    rewrite Hd, (fromisoformat_isoformat dt Hv), IH; [reflexivity |].
    intros x Hx. apply Hw. right. exact Hx.
Qed.

Lemma listing_fails_on_impossible_date_witness :
  list_assignments
    (Some (with_assignments Sample.store_A_taken
             [Sample.human "A" "2024-01-01"; Fixture.feb30;
              Sample.machine "B" "2024-01-02"]))
  = Failed internal_error.
Proof.
  apply (listing_fails_on_impossible_date
           (with_assignments Sample.store_A_taken
              [Sample.human "A" "2024-01-01"; Fixture.feb30;
               Sample.machine "B" "2024-01-02"])
           [Sample.human "A" "2024-01-01"] [Sample.machine "B" "2024-01-02"]
           Fixture.feb30).
  - reflexivity.
  - intros a [<- | []]. exists Sample.jan1.
    split; [vm_compute; intuition discriminate | reflexivity].
  - vm_compute. reflexivity.
Defined.

Lemma serve_keeps_store_ok_witness :
  exists st', serve (Some Sample.empty_store) Fixture.session = Some st'
              /\ store_ok st'.
Proof.
  apply (serve_keeps_store_ok Sample.empty_store Fixture.session).
  repeat split; constructor.
Defined.

Example serve_session :
  serve (Some Sample.empty_store) Fixture.session
  = Some {| provider_col := [Sample.A];
            shift_col := [Fixture.reg_shift];
            assign_col := [Sample.machine "A" "2024-01-01";
                           Sample.machine "A" "2024-01-02"] |}.
Proof. vm_compute. reflexivity. Qed.



(** ** Nobody available *)

Section NoneEligible.
Variable providers : list Provider.t.
Variable prov0 : Provider.t.
Variable site : string.
Variable needed_qual : option string.

(** A slot for which no provider is eligible: nothing is written, the
    cursor goes once around, and the conflict is noted. *)
Lemma fill_slot_none (day_date : string) (l : locals) :
  (forall prov, In prov providers ->
     is_eligible needed_qual (assignments l) prov day_date = false) ->
  fill_slot providers prov0 site needed_qual day_date l
  = {| assignments := assignments l;
       p := (p l + List.length providers)%nat;
       created := created l;
       conflicts := (conflicts l ++ [conflict_message day_date])%list |}.
Proof.
  intros Hnone. unfold fill_slot.
  destruct (while_tries_cases providers prov0 site needed_qual
              (List.length providers) day_date l)
    as [(k & Hk & _ & Hat & _) | (_ & ->)]; [| reflexivity].
  rewrite Hnone in Hat; [discriminate |].
  apply candidate_in. intros Hnil. rewrite Hnil in Hk. cbn in Hk. lia.
Qed.

Lemma for_slots_none (k : nat) (day_date : string) (l : locals) :
  (forall prov, In prov providers ->
     is_eligible needed_qual (assignments l) prov day_date = false) ->
  exists q,
    for_slots providers prov0 site needed_qual k day_date l
    = {| assignments := assignments l; p := q; created := created l;
         conflicts :=
           (conflicts l ++ repeat (conflict_message day_date) k)%list |}.
Proof.
  revert l. induction k as [| k IH]; intros l Hnone.
  - exists (p l). cbn. rewrite app_nil_r. destruct l; reflexivity.
  - cbn [for_slots]. rewrite fill_slot_none by exact Hnone.
    destruct (IH {| assignments := assignments l;
                    p := (p l + List.length providers)%nat;
                    created := created l;
                    conflicts := (conflicts l ++ [conflict_message day_date])%list |}
                Hnone) as (q & ->).
    exists q. cbn [assignments created conflicts repeat].
    rewrite <- app_assoc. reflexivity.
Qed.

Lemma fold_days_none (start : Z) (k : nat) (idx : list Z) (l : locals) :
  (forall i prov, In i idx -> In prov providers ->
     is_eligible needed_qual (assignments l) prov
       (PyDate.str_of_ordinal (start + i)) = false) ->
  exists q,
    fold_left (day_body providers prov0 site needed_qual start k) idx l
    = {| assignments := assignments l; p := q; created := created l;
         conflicts :=
           (conflicts l
            ++ flat_map
                 (fun i =>
                    repeat (conflict_message
                              (PyDate.str_of_ordinal (start + i))) k)
                 idx)%list |}.
Proof.
  revert l. induction idx as [| i idx IH]; intros l Hnone.
  - exists (p l). cbn. rewrite app_nil_r. destruct l; reflexivity.
  - cbn [fold_left flat_map]. unfold day_body at 2.
    fold (PyDate.str_of_ordinal (start + i)).
    destruct (for_slots_none k (PyDate.str_of_ordinal (start + i)) l)
      as (q1 & ->); [intros prov Hp; apply Hnone; [left; reflexivity | exact Hp] |].
    match goal with |- context [fold_left _ idx ?l1] =>
      destruct (IH l1) as (q & ->) end.
    + cbn [assignments]. intros j prov Hj Hp. apply Hnone; [right |]; assumption.
    + exists q. cbn [assignments created conflicts].
      rewrite <- app_assoc. reflexivity.
Qed.
End NoneEligible.

(** X14.  Nobody available.  When on every day of the range every
    provider is booked already or lacks the required qualification, the
    run writes nothing: it returns [created = 0], leaves the store as it
    was, and reports one conflict for each slot of each day, in the order
    of the days. *)
Theorem nobody_available (st : Store) (req : GenerateRequest.t)
    (prov0 : Provider.t) (rest : list Provider.t)
    (shift0 : ShiftType.t) (regs : list ShiftType.t) :
  provider_col st = prov0 :: rest ->
  regular_shifts st = shift0 :: regs ->
  (forall prov d, In prov (provider_col st) -> in_range req d ->
     is_eligible (ShiftType.requires_qualification shift0) (assign_col st)
       prov (PyDate.str_of_ordinal d) = false) ->
  generate_schedule (Some st) req
  = (Returned
       {| GenerateResponse.created := 0;
          GenerateResponse.conflicts :=
            all_conflicts req
              (Nat.min (List.length (provider_col st))
                       (List.length (regular_shifts st))) |},
     Some st).
Proof.
  intros Hp Hs Hnone. unfold generate_schedule.
  rewrite find_all_true. rewrite Hs. fold (day_count req).
  destruct (fold_days_none (provider_col st) prov0 (ShiftType.site shift0)
              (ShiftType.requires_qualification shift0)
              (PyDate.toordinal (GenerateRequest.start_date req))
              (Nat.min (List.length (provider_col st))
                       (List.length (shift0 :: regs)))
              (range (day_count req))
              {| assignments := assign_col st; p := 0%nat; created := 0%nat;
                 conflicts := [] |}) as (q & Hfold).
  { cbn [assignments]. intros i prov Hi Hprov. apply Hnone; [exact Hprov |].
    apply days_of_in. unfold days_of. apply in_map_iff. exists i. auto. }
  rewrite Hp in *. rewrite Hfold.
  cbn [assignments created conflicts app].
  rewrite with_assignments_same. reflexivity.
Qed.

Lemma nobody_available_witness :
  generate_schedule (Some Sample.store_two_shifts)
    (Sample.mk_request Sample.jan1 Sample.jan1)
  = (Returned
       {| GenerateResponse.created := 0;
          GenerateResponse.conflicts :=
            all_conflicts (Sample.mk_request Sample.jan1 Sample.jan1)
              (Nat.min (List.length (provider_col Sample.store_two_shifts))
                       (List.length (regular_shifts Sample.store_two_shifts))) |},
     Some Sample.store_two_shifts).
Proof.
  apply (nobody_available Sample.store_two_shifts
           (Sample.mk_request Sample.jan1 Sample.jan1)
           Sample.A [Sample.B]
           (Sample.mk_shift "s1" "REG" "S" None)
           [Sample.mk_shift "s2" "REG" "T" None]).
  - reflexivity.
  - reflexivity.
  - intros prov d Hprov Hd.
    assert (d = PyDate.toordinal Sample.jan1) as ->
      by (unfold in_range in Hd; cbn in Hd; lia).
    destruct Hprov as [<- | [<- | []]]; vm_compute; reflexivity.
Defined.

(** ** Bookings that a run does not look at *)

Section SameBookings.
Variable providers : list Provider.t.
Variable prov0 : Provider.t.
Variable site : string.
Variable needed_qual : option string.
Variables col col' : list Assignment.t.

Lemma while_tries_in_step (budget : nat) (day_date : string)
    (l l' : locals) :
  (forall pid, booked col pid day_date = booked col' pid day_date) ->
  in_step col col' l l' ->
  in_step col col' (fst (while_tries providers prov0 site needed_qual budget day_date l))
          (fst (while_tries providers prov0 site needed_qual budget day_date l'))
  /\ snd (while_tries providers prov0 site needed_qual budget day_date l)
     = snd (while_tries providers prov0 site needed_qual budget day_date l').
Proof.
  intros Hday. revert l l'.
  induction budget as [| b IH]; intros l l' Hstep; [split; [exact Hstep | reflexivity] |].
  cbn [while_tries].
  destruct Hstep as (Hp & Hc & Hf & new & Ha & Ha').
  rewrite <- Hp, <- Hc, <- Hf, Ha, Ha', !booked_app, Hday.
  set (prov := nth (Nat.modulo (p l) (List.length providers)) providers prov0).
  assert (Hnext : in_step col col'
                    {| assignments := (col ++ new)%list; p := S (p l);
                       created := created l; conflicts := conflicts l |}
                    {| assignments := (col' ++ new)%list; p := S (p l);
                       created := created l; conflicts := conflicts l |}).
  { repeat split. exists new. split; reflexivity. }
  destruct (booked col' (Provider.id prov) day_date
            || booked new (Provider.id prov) day_date); [apply IH; exact Hnext |].
  destruct (lacks_qualification needed_qual prov); [apply IH; exact Hnext |].
  cbn [fst snd p created conflicts]. split; [| reflexivity].
  repeat split. unfold create_document.
  exists (new ++ [new_assignment site prov day_date])%list.
  rewrite !app_assoc. split; reflexivity.
Qed.

Lemma fold_days_in_step (start : Z) (k : nat) (idx : list Z)
    (l l' : locals) :
  (forall i pid, In i idx ->
     booked col pid (PyDate.str_of_ordinal (start + i))
     = booked col' pid (PyDate.str_of_ordinal (start + i))) ->
  in_step col col' l l' ->
  in_step col col' (fold_left (day_body providers prov0 site needed_qual start k) idx l)
          (fold_left (day_body providers prov0 site needed_qual start k) idx l').
Proof.
  assert (Hslot : forall d l1 l1',
             (forall pid, booked col pid d = booked col' pid d) ->
             in_step col col' l1 l1' ->
             in_step col col' (fill_slot providers prov0 site needed_qual d l1)
                     (fill_slot providers prov0 site needed_qual d l1')).
  { intros d l1 l1' Hd Hs. unfold fill_slot.
    destruct (while_tries_in_step (List.length providers) d l1 l1' Hd Hs)
      as [Hstep Hb].
    destruct (while_tries providers prov0 site needed_qual _ d l1) as [m b].
    destruct (while_tries providers prov0 site needed_qual _ d l1') as [m' b'].
    cbn [fst snd] in Hstep, Hb. subst b'.
    destruct b; [exact Hstep |].
    destruct Hstep as (Hp & Hc & Hf & new & Ha & Ha').
    repeat split; cbn [p created conflicts assignments]; try congruence.
    exists new. split; assumption. }
  assert (Hslots : forall n d l1 l1',
             (forall pid, booked col pid d = booked col' pid d) ->
             in_step col col' l1 l1' ->
             in_step col col' (for_slots providers prov0 site needed_qual n d l1)
                     (for_slots providers prov0 site needed_qual n d l1')).
  { induction n as [| n IH]; intros d l1 l1' Hd Hs; cbn [for_slots];
      [exact Hs |].
    apply IH; [exact Hd |]. apply Hslot; assumption. }
  revert l l'. induction idx as [| i idx IH]; intros l l' Hday Hs;
    cbn [fold_left]; [exact Hs |].
  apply IH; [intros j pid Hj; apply Hday; right; exact Hj |].
  unfold day_body. apply Hslots; [| exact Hs].
  intros pid. apply (Hday i pid). left. reflexivity.
Qed.
End SameBookings.

(** X15.  A run looks at the stored assignments only to see who is booked
    on the days of its range.  Two stores with the same providers and
    shift types, in which every identifier is booked on the same days of
    the range, get the same answer, and the run adds the same assignments
    to both: assignments on days outside the range, and the order of the
    stored assignments, make no difference. *)
Theorem bookings_outside_range_do_not_matter (st st' : Store)
    (req : GenerateRequest.t) :
  provider_col st = provider_col st' ->
  shift_col st = shift_col st' ->
  (forall pid d, in_range req d ->
     booked (assign_col st) pid (PyDate.str_of_ordinal d)
     = booked (assign_col st') pid (PyDate.str_of_ordinal d)) ->
  exists r new,
    generate_schedule (Some st) req
    = (r, Some (with_assignments st (assign_col st ++ new)%list))
    /\ generate_schedule (Some st') req
       = (r, Some (with_assignments st' (assign_col st' ++ new)%list)).
Proof.
  intros Hp Hs Hb.
  assert (Hregs : regular_shifts st = regular_shifts st')
    by (unfold regular_shifts; rewrite Hs; reflexivity).
  unfold generate_schedule. rewrite !find_all_true, <- Hregs, <- Hp.
  destruct (provider_col st) as [| prov0 rest].
  { exists (Raised config_error), []. rewrite !app_nil_r, !with_assignments_same.
    split; reflexivity. }
  destruct (regular_shifts st) as [| shift0 regs].
  { exists (Raised config_error), []. rewrite !app_nil_r, !with_assignments_same.
    split; reflexivity. }
  fold (day_count req).
  set (l0 := {| assignments := assign_col st; p := 0%nat; created := 0%nat;
                conflicts := [] |}).
  set (l0' := {| assignments := assign_col st'; p := 0%nat; created := 0%nat;
                 conflicts := [] |}).
  assert (H0 : in_step (assign_col st) (assign_col st') l0 l0').
  { repeat split. exists []. rewrite !app_nil_r. split; reflexivity. }
  pose proof (fold_days_in_step (prov0 :: rest) prov0 (ShiftType.site shift0)
                (ShiftType.requires_qualification shift0)
                (assign_col st) (assign_col st')
                (PyDate.toordinal (GenerateRequest.start_date req))
                (Nat.min (List.length (prov0 :: rest))
                         (List.length (shift0 :: regs)))
                (range (day_count req)) l0 l0') as Hfold.
  destruct Hfold as (_ & Hc & Hf & new & Ha & Ha'); [| exact H0 |].
  { intros i pid Hi. apply Hb. apply days_of_in. unfold days_of.
    apply in_map_iff. exists i. auto. }
  exists (Returned
            {| GenerateResponse.created :=
                 created
                   (fold_left
                      (day_body (prov0 :: rest) prov0 (ShiftType.site shift0)
                         (ShiftType.requires_qualification shift0)
                         (PyDate.toordinal (GenerateRequest.start_date req))
                         (Nat.min (List.length (prov0 :: rest))
                                  (List.length (shift0 :: regs))))
                      (range (day_count req)) l0);
               GenerateResponse.conflicts :=
                 conflicts
                   (fold_left
                      (day_body (prov0 :: rest) prov0 (ShiftType.site shift0)
                         (ShiftType.requires_qualification shift0)
                         (PyDate.toordinal (GenerateRequest.start_date req))
                         (Nat.min (List.length (prov0 :: rest))
                                  (List.length (shift0 :: regs))))
                      (range (day_count req)) l0) |}), new.
  rewrite <- Hc, <- Hf, Ha, Ha'. split; reflexivity.
Qed.

Lemma bookings_outside_range_do_not_matter_witness :
  exists r new,
    generate_schedule (Some Sample.store_A_taken)
      (Sample.mk_request Sample.jan1 Sample.jan2)
    = (r, Some (with_assignments Sample.store_A_taken
                  (assign_col Sample.store_A_taken ++ new)%list))
    /\ generate_schedule (Some Fixture.store_A_taken_more)
         (Sample.mk_request Sample.jan1 Sample.jan2)
       = (r, Some (with_assignments Fixture.store_A_taken_more
                     (assign_col Fixture.store_A_taken_more ++ new)%list)).
Proof.
  apply (bookings_outside_range_do_not_matter Sample.store_A_taken
           Fixture.store_A_taken_more
           (Sample.mk_request Sample.jan1 Sample.jan2)).
  - reflexivity.
  - reflexivity.
  - intros pid d Hd.
    assert (H1 : PyDate.toordinal Sample.jan1 = 738886) by reflexivity.
    assert (H2 : PyDate.toordinal Sample.jan2 = 738887) by reflexivity.
    assert (Hday : d = PyDate.toordinal Sample.jan1
                   \/ d = PyDate.toordinal Sample.jan2).
    { unfold in_range, Sample.mk_request in Hd.
      cbn [GenerateRequest.start_date GenerateRequest.end_date] in Hd. lia. }
    clear H1 H2.
    unfold booked, find_one.
    destruct Hday as [-> | ->];
      [change (PyDate.str_of_ordinal (PyDate.toordinal Sample.jan1))
         with "2024-01-01"
      | change (PyDate.str_of_ordinal (PyDate.toordinal Sample.jan2))
          with "2024-01-02"];
      cbn -[String.eqb];
      repeat match goal with
             | |- context [(?a =? ?b)%string] =>
                 is_ground a; is_ground b;
                 let v := eval vm_compute in (String.eqb a b) in
                 change (String.eqb a b) with v
             end;
      rewrite ?andb_false_r, ?andb_true_r;
      destruct ("A" =? pid)%string; reflexivity.
Defined.
